(** * OCR quality assessment with unigram Bloom filters

    A shallow embedding of [lib/ocrqa_bloom.py] (class
    [OcrQABloomProcessor]) and the properties of its scoring engine.

    Conventions of the embedding.
    - A Python [float] is an exact rational ([Q]); [round(x, n)] is
      rounding to the nearest multiple of [10^-n], ties to even.
      Numeric equality is [Qeq] ([==]).  The code computes in binary
      floating point, where a sum depends on the order of its terms
      and [round] sees the binary value: a score of the code can be
      the other neighbour of an exact decimal tie.  The properties
      below do not rest on the direction of a tie.
    - A Python [str] is its UTF-8 byte string; [len] counts code points.
    - A raised exception is the [Raise] outcome of the [result] type.
    - An input line is a line that [json.loads] rejects or a JSON
      object whose ["id"] is a string, null or absent and whose ["ft"]
      is a string or absent.  Other JSON values are outside the
      embedding: on them the code can raise [AttributeError] (a value
      that is not an object, an ["ft"] that is not a string) or
      [TypeError] (an ["id"] that cannot be hashed).  The language
      identification data of a processor maps strings to strings or
      [None].
    - The attributes of [self] that [__init__] sets once are the record
      [Processor]; the three attributes mutated while running
      ([ocrqa_stats], [unks], [lang_stats]) are the record [Stats],
      threaded through the methods. *)

From Stdlib Require Import Ascii QArith Qround Lqa.
From stdpp Require Import gmap strings list fin_maps.

Local Open Scope Q_scope.

(** ** Exceptions *)

Inductive exn : Set :=
| JSONDecodeError
| IndexError
| KeyError
| ValueError
| ZeroDivisionError
| AttributeError
| TypeError.

Inductive result (A : Type) : Type :=
| Ok (a : A)
| Raise (e : exn).

Arguments Ok {A} a.
Arguments Raise {A} e.

Definition result_bind {A B} (r : result A) (k : A -> result B) : result B :=
  match r with
  | Ok a => k a
  | Raise e => Raise e
  end.

(** A list comprehension [[f(x) for x in l]] whose element expression
    can raise: the elements are computed from left to right and the
    first exception ends the comprehension. *)
Fixpoint result_list_map {A B} (f : A -> result B) (l : list A)
    : result (list B) :=
  match l with
  | [] => Ok []
  | x :: l' =>
      result_bind (f x) (fun y =>
      result_bind (result_list_map f l') (fun ys => Ok (y :: ys)))
  end.

(** ** Numbers *)

Definition Qlt_bool (x y : Q) : bool := negb (Qle_bool y x).

Definition Qnat (n : nat) : Q := inject_Z (Z.of_nat n).

(** Python's true division on floats. *)
Definition py_div (x y : Q) : result Q :=
  if Qeq_bool y 0 then Raise ZeroDivisionError else Ok (x / y).

(** Nearest integer, ties to the even neighbour. *)
Definition round_half_even (q : Q) : Z :=
  let f := Qfloor q in
  match Qcompare (q - inject_Z f) (1 # 2) with
  | Lt => f
  | Gt => (f + 1)%Z
  | Eq => if Z.even f then f else (f + 1)%Z
  end.

(** [round(q, ndigits)]. *)
Definition py_round (q : Q) (ndigits : nat) : Q :=
  let scale := inject_Z (10 ^ Z.of_nat ndigits) in
  inject_Z (round_half_even (q * scale)) / scale.

(** ** Strings *)

(** A byte [10xxxxxx] continues a UTF-8 sequence. *)
Definition utf8_continuation (a : ascii) : bool :=
  match a with
  | Ascii _ _ _ _ _ _ b6 b7 => b7 && negb b6
  end.

(** [len(s)]: the number of code points of [s]. *)
Fixpoint py_len (s : string) : nat :=
  match s with
  | EmptyString => 0
  | String a s' => if utf8_continuation a then py_len s' else S (py_len s')
  end.

(** ** The membership oracle: [subtok in bf] *)

Definition BloomFilter : Type := string -> bool.

(** [Counter[str]]: a missing key counts 0. *)
Definition counter_incr (k : string) (c : gmap string nat) : gmap string nat :=
  <[k := S (default 0%nat (c !! k))]> c.

(** ** Configuration and state *)

Inductive Method : Set := slc | unk_ratio | unk_type_ratio.

Global Instance Method_eq_dec : EqDecision Method.
Proof. solve_decision. Defined.

Record Options : Type := {
  bloomdicts : list string;
  languages : list string;
  methods : list Method;
  keep_best : bool;
  single_letter_cost : Q;
  single_symbol_cost : Q;
  min_subtokens : Z;
  min_subtoken_length : Z;
  unicode_normalization : option string;
  verbose_output : bool;
  opt_git_version : option string
}.

Record Processor : Type := {
  options : Options;
  bloom_filters : list BloomFilter;
  lang_ident_data : option (gmap string (option string));
  self_single_symbol_cost : Q;
  timestamp : string;
  git_version : option string
}.

Record Stats : Type := {
  ocrqa_stats : list Q;
  unks : gmap string (gmap string nat);
  lang_stats : gmap string nat
}.

Definition stats_append (v : Q) (st : Stats) : Stats :=
  {| ocrqa_stats := ocrqa_stats st ++ [v];
     unks := unks st;
     lang_stats := lang_stats st |}.

Definition lang_stats_incr (k : string) (st : Stats) : Stats :=
  {| ocrqa_stats := ocrqa_stats st;
     unks := unks st;
     lang_stats := counter_incr k (lang_stats st) |}.

(** ** The monad of the methods: state [Stats], exceptions [exn] *)

Definition M (A : Type) : Type := Stats -> result (A * Stats).

Definition ret {A} (a : A) : M A := fun st => Ok (a, st).

Definition bind {A B} (m : M A) (k : A -> M B) : M B :=
  fun st =>
    match m st with
    | Ok (a, st') => k a st'
    | Raise e => Raise e
    end.

Definition raise {A} (e : exn) : M A := fun _ => Raise e.

Definition lift {A} (r : result A) : M A :=
  fun st =>
    match r with
    | Ok a => Ok (a, st)
    | Raise e => Raise e
    end.

Definition modify (f : Stats -> Stats) : M unit := fun st => Ok (tt, f st).

Notation "'do' x <- m ; k" := (bind m (fun x => k))
  (at level 10, x name, m at level 100, k at level 200).
Notation "'do' ' pat <- m ; k" := (bind m (fun x => let 'pat := x in k))
  (at level 10, pat pattern, m at level 100, k at level 200).

(** [self.unks[key][subtok] += 1]; [self.unks] is a plain dict. *)
Definition unks_incr (key subtok : string) : M unit :=
  fun st =>
    match unks st !! key with
    | None => Raise KeyError
    | Some c =>
        Ok (tt, {| ocrqa_stats := ocrqa_stats st;
                   unks := <[key := counter_incr subtok c]> (unks st);
                   lang_stats := lang_stats st |})
    end.

(** ** Score calculators *)

(** [self.single_chars = set("àndl")]; the first letter is U+00E0. *)
Definition single_chars : gset string :=
  {[ String "195" (String "160" EmptyString); "n"; "d"; "l" ]}%string.

(** The [defaultdict(float)] of [compute_ocrqa_slc]: its keys are
    ["SL"], ["IV"] and ["OOV"], a key never written reads 0.0. *)
Record SlcCounter : Type := { SL : Q; IV : Q; OOV : Q }.

Definition counter_sum (c : SlcCounter) : Q := SL c + IV c + OOV c.

(** The loop [for subtok in subtoks_list] of [compute_ocrqa_slc]. *)
Fixpoint slc_loop (p : Processor) (bf : BloomFilter) (i : nat)
    (subtoks_list : list string) (counter : SlcCounter) : M SlcCounter :=
  match subtoks_list with
  | [] => ret counter
  | subtok :: rest =>
      if bf subtok then
        if (1 <? py_len subtok)%nat || bool_decide (subtok ∈ single_chars)
        then slc_loop p bf i rest
               {| SL := SL counter; IV := IV counter + 1; OOV := OOV counter |}
        else slc_loop p bf i rest
               {| SL := SL counter + single_letter_cost (options p);
                  IV := IV counter; OOV := OOV counter |}
      else
        match bloomdicts (options p) !! i with
        | None => raise IndexError
        | Some key =>
            do _ <- unks_incr key subtok;
            slc_loop p bf i rest
              {| SL := SL counter; IV := IV counter; OOV := OOV counter + 1 |}
        end
  end.

Definition compute_ocrqa_slc (p : Processor) (subtoks_list : list string)
    (bf : BloomFilter) (i : nat) : M Q :=
  do counter <- slc_loop p bf i subtoks_list
                  {| SL := - Qnat (length subtoks_list) / 20; IV := 0; OOV := 0 |};
  let counter :=
    if Qlt_bool (SL counter) 0
    then {| SL := 0; IV := IV counter; OOV := OOV counter |}
    else counter in
  let totalsub := counter_sum counter in
  if Qeq_bool totalsub 0 then ret 0
  else do q <- lift (py_div (IV counter) totalsub); ret (py_round q 2).

Definition compute_ocrqa_unk_ratio (subtoks_list : list string)
    (bf : BloomFilter) : result Q :=
  let known_count := length (List.filter bf subtoks_list) in
  match subtoks_list with
  | [] => Ok 0
  | _ =>
      result_bind (py_div (Qnat known_count) (Qnat (length subtoks_list)))
        (fun q => Ok (py_round q 2))
  end.

Definition compute_ocrqa_unk_type_ratio (subtoks_list : list string)
    (bf : BloomFilter) : result Q :=
  let unique_subtoks : gset string := list_to_set subtoks_list in
  let known_count := length (List.filter bf (elements unique_subtoks)) in
  if decide (unique_subtoks = ∅) then Ok 0
  else
    result_bind (py_div (Qnat known_count) (Qnat (size unique_subtoks)))
      (fun q => Ok (py_round q 2)).

(** ** Input lines and output records *)

(** What [json.loads] makes of an input line of the expected form: an
    object whose ["id"] is a string ([None] for an id that is null or
    absent: [obj.get("id")] does not tell them apart) and whose ["ft"],
    the text, is a string ([None] for an object without that key). *)
Record JsonObject : Type := {
  obj_id : option string;
  obj_ft : option string
}.

(** An input line, represented by the outcome of [json.loads] on it:
    an exception, or an object of the expected form. *)
Inductive Line : Type :=
| Malformed (raw : string)
| Json (obj : JsonObject).

Definition json_loads (line : Line) : result JsonObject :=
  match line with
  | Malformed _ => Raise JSONDecodeError
  | Json obj => Ok obj
  end.

(** The dictionary returned by [get_subtokens]. *)
Record SubtoksInfo : Type := {
  info_id : option string;
  info_subtokens : list string;
  char_length : nat
}.

(** The result dictionary of [compute_results]; a key that may be
    absent is an [option] field.  Key ["subtokens"] is
    [rec_subtokens], ["timestamp"] is [rec_timestamp], ["git_version"]
    is [rec_git_version]. *)
Record ScoreRecord : Type := {
  ci_id : option string;
  lg : string;
  ocrqa : option Q;
  bloom : string;
  rec_subtokens : nat;
  rec_timestamp : string;
  rec_git_version : option string;
  subtoken_char_ratio : Q;
  ocrqa_slc : option Q;
  ocrqa_unk_ratio : option Q;
  ocrqa_unk_type_ratio : option Q;
  unk_freq : option (gmap string nat)
}.

Definition set_ocrqa (v : option Q) (r : ScoreRecord) : ScoreRecord :=
  {| ci_id := ci_id r; lg := lg r; ocrqa := v; bloom := bloom r;
     rec_subtokens := rec_subtokens r; rec_timestamp := rec_timestamp r;
     rec_git_version := rec_git_version r;
     subtoken_char_ratio := subtoken_char_ratio r;
     ocrqa_slc := ocrqa_slc r; ocrqa_unk_ratio := ocrqa_unk_ratio r;
     ocrqa_unk_type_ratio := ocrqa_unk_type_ratio r;
     unk_freq := unk_freq r |}.

Definition set_ocrqa_slc (v : Q) (r : ScoreRecord) : ScoreRecord :=
  {| ci_id := ci_id r; lg := lg r; ocrqa := ocrqa r; bloom := bloom r;
     rec_subtokens := rec_subtokens r; rec_timestamp := rec_timestamp r;
     rec_git_version := rec_git_version r;
     subtoken_char_ratio := subtoken_char_ratio r;
     ocrqa_slc := Some v; ocrqa_unk_ratio := ocrqa_unk_ratio r;
     ocrqa_unk_type_ratio := ocrqa_unk_type_ratio r;
     unk_freq := unk_freq r |}.

Definition set_ocrqa_unk_ratio (v : Q) (r : ScoreRecord) : ScoreRecord :=
  {| ci_id := ci_id r; lg := lg r; ocrqa := ocrqa r; bloom := bloom r;
     rec_subtokens := rec_subtokens r; rec_timestamp := rec_timestamp r;
     rec_git_version := rec_git_version r;
     subtoken_char_ratio := subtoken_char_ratio r;
     ocrqa_slc := ocrqa_slc r; ocrqa_unk_ratio := Some v;
     ocrqa_unk_type_ratio := ocrqa_unk_type_ratio r;
     unk_freq := unk_freq r |}.

Definition set_ocrqa_unk_type_ratio (v : Q) (r : ScoreRecord) : ScoreRecord :=
  {| ci_id := ci_id r; lg := lg r; ocrqa := ocrqa r; bloom := bloom r;
     rec_subtokens := rec_subtokens r; rec_timestamp := rec_timestamp r;
     rec_git_version := rec_git_version r;
     subtoken_char_ratio := subtoken_char_ratio r;
     ocrqa_slc := ocrqa_slc r; ocrqa_unk_ratio := ocrqa_unk_ratio r;
     ocrqa_unk_type_ratio := Some v;
     unk_freq := unk_freq r |}.

Definition set_unk_freq (c : gmap string nat) (r : ScoreRecord) : ScoreRecord :=
  {| ci_id := ci_id r; lg := lg r; ocrqa := ocrqa r; bloom := bloom r;
     rec_subtokens := rec_subtokens r; rec_timestamp := rec_timestamp r;
     rec_git_version := rec_git_version r;
     subtoken_char_ratio := subtoken_char_ratio r;
     ocrqa_slc := ocrqa_slc r; ocrqa_unk_ratio := ocrqa_unk_ratio r;
     ocrqa_unk_type_ratio := ocrqa_unk_type_ratio r;
     unk_freq := Some c |}.

(** [result["ocrqa_" + m]]. *)
Definition method_score (m : Method) (r : ScoreRecord) : option Q :=
  match m with
  | slc => ocrqa_slc r
  | unk_ratio => ocrqa_unk_ratio r
  | unk_type_ratio => ocrqa_unk_type_ratio r
  end.

(** ** External collaborators *)

(** What the module imports and does not define: [str.lower],
    [unicodedata.normalize], the subtokenizer of [impresso_pipelines],
    the clock and the process environment; and the two steps of the
    constructor that read files, each with the exception that it may
    raise: the loading of a Bloom filter (a download, [BloomFilter.open])
    and the reading of the language identification file, whose ids
    and languages are taken to be strings. *)
Record Externals : Type := {
  str_lower : string -> string;
  unicodedata_normalize : string -> string -> string;
  subtokens : string -> Z -> option string -> list string;
  load_bloom_filter : string -> result BloomFilter;
  read_langident : string -> result (gmap string (option string));
  get_timestamp : string;
  environ_GIT_VERSION : option string
}.

(** Truth value of an optional string: [None] and [""] are false. *)
Definition truthy (s : option string) : bool :=
  match s with
  | Some s => negb (bool_decide (s = EmptyString))
  | None => false
  end.

Section Engine.

Variable ext : Externals.

(** [OcrQABloomProcessor.__init__]; [lid] is [options.lid].  The
    steps that can raise come in the order of the source: the test of
    the two lengths, the loading of the Bloom filters, the reading of
    the language identification file, the test of
    [min_subtoken_length].  The set-up of logging before them and the
    S3 client and the check of an existing S3 output after them
    (source lines 237-254, which can end the process) are not part of
    the embedding. *)
Definition OcrQABloomProcessor_init (opts : Options) (lid : option string)
    : result (Processor * Stats) :=
  if negb (length (bloomdicts opts) =? length (languages opts))%nat
  then Raise ValueError
  else
    result_bind (result_list_map (load_bloom_filter ext) (bloomdicts opts))
      (fun bloom_filters =>
    result_bind
      (match lid with
       | Some path =>
           if truthy lid
           then result_bind (read_langident ext path) (fun d => Ok (Some d))
           else Ok None
       | None => Ok None
       end)
      (fun lang_ident_data =>
    if (min_subtoken_length opts <? 1)%Z then Raise ValueError
    else
      Ok ({| options := opts;
             bloom_filters := bloom_filters;
             lang_ident_data := lang_ident_data;
             self_single_symbol_cost := single_symbol_cost opts;
             timestamp := get_timestamp ext;
             git_version :=
               if truthy (opt_git_version opts) then opt_git_version opts
               else environ_GIT_VERSION ext |},
          {| ocrqa_stats := [];
             unks := list_to_map (map (fun b => (b, ∅)) (bloomdicts opts));
             lang_stats := ∅ |}))).

Definition compute_subtoken_char_ratio (subtoks_list : list string)
    (char_length : nat) : result Q :=
  if (char_length =? 0)%nat then Ok 0
  else
    let subtoken_count := length subtoks_list in
    result_bind (py_div (Qnat subtoken_count) (Qnat char_length))
      (fun q => Ok (py_round q 3)).

Definition get_subtokens (p : Processor) (line : Line)
    (language : option string) : result SubtoksInfo :=
  result_bind (json_loads line) (fun obj =>
  match obj_ft obj with
  | Some text =>
      let ft := str_lower ext text in
      let ft :=
        match unicode_normalization (options p) with
        | Some form =>
            if truthy (Some form) then unicodedata_normalize ext form ft
            else ft
        | None => ft
        end in
      Ok {| info_id := obj_id obj;
            info_subtokens :=
              subtokens ext ft (min_subtoken_length (options p)) language;
            char_length := py_len ft |}
  | None =>
      Ok {| info_id := obj_id obj; info_subtokens := []; char_length := 0 |}
  end).

(** [l[i]] for a position [i] that is never negative. *)
Definition list_get {A} (l : list A) (i : nat) : result A :=
  match l !! i with
  | Some x => Ok x
  | None => Raise IndexError
  end.

(** [l[i]] for a Python integer: a negative [i] counts from the end. *)
Definition list_index {A} (l : list A) (i : Z) : result A :=
  let j := if (i <? 0)%Z then (Z.of_nat (length l) + i)%Z else i in
  if (j <? 0)%Z then Raise IndexError else list_get l (Z.to_nat j).

(** [l.index(x)]: the first position of [x]. *)
Fixpoint index_of (x : string) (l : list string) : result nat :=
  match l with
  | [] => Raise ValueError
  | y :: l' =>
      if bool_decide (y = x) then Ok 0%nat
      else result_bind (index_of x l') (fun i => Ok (S i))
  end.

(** The test [keep_best_method == m and score > best_ocrqa_value] and
    its two assignments, which [compute_results] repeats per method. *)
Definition update_best (keep_best_method : option Method) (m : Method)
    (score : Q) (results : list ScoreRecord) (best : Q * Z) : Q * Z :=
  if bool_decide (keep_best_method = Some m) && Qlt_bool (fst best) score
  then (score, Z.of_nat (length results))
  else best.

(** [collections.Counter(iterable)]; the source feeds it the unknown
    subtokens in sorted order, which fixes the order of the keys only. *)
Definition Counter (l : list string) : gmap string nat :=
  foldl (fun c k => counter_incr k c) ∅ l.

Definition compute_results (p : Processor) (subtoks_info : SubtoksInfo)
    (subtoks_list : list string) (bf : BloomFilter) (lang : string)
    (lang_index : nat) (keep_best_method : option Method)
    (best_ocrqa_value : Q) (best_result_index : Z)
    (results : list ScoreRecord) : M (ScoreRecord * Q * Z) :=
  do bloomdict <- lift (list_get (bloomdicts (options p)) lang_index);
  do ratio <- lift (compute_subtoken_char_ratio subtoks_list
                      (char_length subtoks_info));
  let result :=
    {| ci_id := info_id subtoks_info; lg := lang; ocrqa := None;
       bloom := bloomdict; rec_subtokens := length subtoks_list;
       rec_timestamp := timestamp p; rec_git_version := git_version p;
       subtoken_char_ratio := ratio;
       ocrqa_slc := None; ocrqa_unk_ratio := None;
       ocrqa_unk_type_ratio := None; unk_freq := None |} in
  let best := (best_ocrqa_value, best_result_index) in
  do '(result, best) <-
    (if bool_decide (slc ∈ methods (options p)) then
       do ocrqa_slc <- compute_ocrqa_slc p subtoks_list bf lang_index;
       do _ <- modify (stats_append ocrqa_slc);
       ret (set_ocrqa_slc ocrqa_slc result,
            update_best keep_best_method slc ocrqa_slc results best)
     else ret (result, best));
  do '(result, best) <-
    (if bool_decide (unk_ratio ∈ methods (options p)) then
       do ocrqa_unk_ratio <- lift (compute_ocrqa_unk_ratio subtoks_list bf);
       ret (set_ocrqa_unk_ratio ocrqa_unk_ratio result,
            update_best keep_best_method unk_ratio ocrqa_unk_ratio results best)
     else ret (result, best));
  do '(result, best) <-
    (if bool_decide (unk_type_ratio ∈ methods (options p)) then
       do ocrqa_unk_type_ratio <-
         lift (compute_ocrqa_unk_type_ratio subtoks_list bf);
       ret (set_ocrqa_unk_type_ratio ocrqa_unk_type_ratio result,
            update_best keep_best_method unk_type_ratio ocrqa_unk_type_ratio
              results best)
     else ret (result, best));
  do first_method <- lift (list_get (methods (options p)) 0);
  do result <-
    match method_score first_method result with
    | Some v => ret (set_ocrqa (Some v) result)
    | None => raise KeyError
    end;
  let result :=
    if verbose_output (options p)
    then set_unk_freq
           (Counter (List.filter (fun subtok => negb (bf subtok)) subtoks_list))
           result
    else result in
  ret (result, fst best, snd best).

(** How control leaves the language part of [process_line]: by one of
    its two early [return]s, or by reaching the selection block. *)
Inductive Flow : Type :=
| Return (results : list ScoreRecord)
| Fallthrough (results : list ScoreRecord) (best_ocrqa_value : Q)
    (best_result_index : Z).

(** [self.options.keep_best or len(self.methods) == 1]. *)
Definition best_selection (p : Processor) : bool :=
  keep_best (options p) || (length (methods (options p)) =? 1)%nat.

(** [self.methods[0] if self.options.keep_best or len(self.methods) == 1
    else None], the value of [keep_best_method] in [process_line]. *)
Definition keep_best_method_of (p : Processor) : result (option Method) :=
  if best_selection p
  then result_bind (list_get (methods (options p)) 0) (fun m => Ok (Some m))
  else Ok None.

(** The loop [for lang_index, bf in enumerate(self.bloom_filters)]. *)
Fixpoint process_languages (p : Processor) (line : Line)
    (keep_best_method : option Method) (lang_index : nat)
    (filters : list BloomFilter) (results : list ScoreRecord)
    (best_ocrqa_value : Q) (best_result_index : Z)
    : M (list ScoreRecord * Q * Z) :=
  match filters with
  | [] => ret (results, best_ocrqa_value, best_result_index)
  | bf :: rest =>
      do lang <- lift (list_get (languages (options p)) lang_index);
      do subtoks_info <- lift (get_subtokens p line (Some lang));
      let subtoks_list := info_subtokens subtoks_info in
      if (Z.of_nat (length subtoks_list) <? min_subtokens (options p))%Z
      then process_languages p line keep_best_method (S lang_index) rest
             results best_ocrqa_value best_result_index
      else
        do '(result, best_ocrqa_value, best_result_index) <-
          compute_results p subtoks_info subtoks_list bf lang lang_index
            keep_best_method best_ocrqa_value best_result_index results;
        do _ <- modify (lang_stats_incr lang);
        process_languages p line keep_best_method (S lang_index) rest
          (results ++ [result]) best_ocrqa_value best_result_index
  end.

(** [process_line] up to the selection block (source lines 417-491). *)
Definition process_line_candidates (p : Processor) (line : Line) : M Flow :=
  do obj <- lift (json_loads line);
  let docid := obj_id obj in
  let lang :=
    match lang_ident_data p with
    | Some data =>
        if bool_decide (data = ∅) then None
        else match docid with
             | Some k => default None (data !! k)
             | None => None
             end
    | None => None
    end in
  let results : list ScoreRecord := [] in
  let best_result_index := (-1)%Z in
  let best_ocrqa_value := - (1) in
  do keep_best_method <- lift (keep_best_method_of p);
  match lang with
  | Some lang =>
      if truthy (Some lang) then
        if negb (bool_decide (lang ∈ languages (options p))) then
          do _ <- modify (lang_stats_incr ("missing-dict-for-" +:+ lang));
          ret (Return results)
        else
          do subtoks_info <- lift (get_subtokens p line (Some lang));
          let subtoks_list := info_subtokens subtoks_info in
          if (Z.of_nat (length subtoks_list) <? min_subtokens (options p))%Z
          then ret (Return [])
          else
            do lang_index <- lift (index_of lang (languages (options p)));
            do bf <- lift (list_get (bloom_filters p) lang_index);
            do '(result, best_ocrqa_value, best_result_index) <-
              compute_results p subtoks_info subtoks_list bf lang lang_index
                keep_best_method best_ocrqa_value best_result_index results;
            do _ <- modify (lang_stats_incr lang);
            ret (Fallthrough (results ++ [result]) best_ocrqa_value
                   best_result_index)
      else
        do '(results, best_ocrqa_value, best_result_index) <-
          process_languages p line keep_best_method 0 (bloom_filters p)
            results best_ocrqa_value best_result_index;
        ret (Fallthrough results best_ocrqa_value best_result_index)
  | None =>
      do '(results, best_ocrqa_value, best_result_index) <-
        process_languages p line keep_best_method 0 (bloom_filters p)
          results best_ocrqa_value best_result_index;
      ret (Fallthrough results best_ocrqa_value best_result_index)
  end.

(** The [if]/[elif] chain over the keys of a result that picks the
    value appended to [self.ocrqa_stats]. *)
Definition stats_value (r : ScoreRecord) : option Q :=
  match ocrqa_slc r with
  | Some v => Some v
  | None =>
      match ocrqa_unk_ratio r with
      | Some v => Some v
      | None => ocrqa_unk_type_ratio r
      end
  end.

Definition append_stats_value (r : ScoreRecord) : M unit :=
  match stats_value r with
  | Some v => modify (stats_append v)
  | None => ret tt
  end.

Fixpoint append_stats_values (results : list ScoreRecord) : M unit :=
  match results with
  | [] => ret tt
  | r :: rest => do _ <- append_stats_value r; append_stats_values rest
  end.

(** The selection block of [process_line] (source lines 493-514). *)
Definition process_line_select (p : Processor) (results : list ScoreRecord)
    (best_result_index : Z) : M (list ScoreRecord) :=
  if best_selection p && negb (best_result_index =? -1)%Z then
    do best_result <- lift (list_index results best_result_index);
    do _ <- append_stats_value best_result;
    ret [best_result]
  else
    do _ <- append_stats_values results;
    ret results.

Definition process_line (p : Processor) (line : Line) : M (list ScoreRecord) :=
  do flow <- process_line_candidates p line;
  match flow with
  | Return results => ret results
  | Fallthrough results _ best_result_index =>
      process_line_select p results best_result_index
  end.

(** The loop of [run] over the lines of the input files: the records
    printed, and the statistics at the end or the exception that
    stopped the loop.  What was printed before an exception stays
    printed. *)
Fixpoint run_lines (p : Processor) (lines : list Line) (st : Stats)
    : list ScoreRecord * result Stats :=
  match lines with
  | [] => ([], Ok st)
  | line :: rest =>
      match process_line p line st with
      | Raise e => ([], Raise e)
      | Ok (results, st') =>
          let '(out, r) := run_lines p rest st' in (results ++ out, r)
      end
  end.

(** [sum(self.ocrqa_stats) / len(self.ocrqa_stats)], logged as
    STATS-MEANOCRAQ when the list is not empty. *)
Definition mean (l : list Q) : option Q :=
  match l with
  | [] => None
  | _ => Some (foldl Qplus 0 l / Qnat (length l))
  end.

(** What a run leaves behind: the printed records, and when the loop
    ends without exception the logged mean and the statistics. *)
Record Report : Type := {
  printed : list ScoreRecord;
  finished : result (option Q * Stats)
}.

Definition run (p : Processor) (lines : list Line) (st : Stats) : Report :=
  let '(out, r) := run_lines p lines st in
  {| printed := out;
     finished := result_bind r (fun st' => Ok (mean (ocrqa_stats st'), st')) |}.

(** [main]: the printed records and the exit status of the process.
    Every exception of the constructor or of [run] is logged and turned
    into [sys.exit(1)]. *)
Definition main (opts : Options) (lid : option string) (lines : list Line)
    : list ScoreRecord * Z :=
  match bloomdicts opts with
  | [] => ([], 1%Z)
  | _ =>
      match OcrQABloomProcessor_init opts lid with
      | Raise _ => ([], 1%Z)
      | Ok (processor, st) =>
          let report := run processor lines st in
          match finished report with
          | Ok _ => (printed report, 0%Z)
          | Raise _ => (printed report, 1%Z)
          end
      end
  end.

End Engine.

(** * Loading: Hub references and the language identification file *)

(** [s.split(sep, 1)] when [sep] occurs: [s] up to the first [sep] and
    what follows it. *)
Fixpoint split_first (sep : ascii) (s : string) : option (string * string) :=
  match s with
  | EmptyString => None
  | String a s' =>
      if bool_decide (a = sep) then Some (EmptyString, s')
      else
        match split_first sep s' with
        | Some (l, r) => Some (String a l, r)
        | None => None
        end
  end.

(** [s.split(sep, maxsplit)] for a separator of one ASCII character. *)
Fixpoint py_split (sep : ascii) (maxsplit : nat) (s : string) : list string :=
  match maxsplit with
  | O => [s]
  | S n =>
      match split_first sep s with
      | None => [s]
      | Some (l, r) => l :: py_split sep n r
      end
  end.

(** [s[n:]], used behind an ASCII prefix of [n] characters, where
    bytes and code points coincide. *)
Fixpoint string_drop (n : nat) (s : string) : string :=
  match n, s with
  | O, _ => s
  | S n', String _ s' => string_drop n' s'
  | S _, EmptyString => EmptyString
  end.

Definition split_hf_path (hf_path : string) : result (string * string) :=
  if negb (String.prefix "hf://" hf_path) then Raise ValueError
  else
    let path := string_drop 5 hf_path in
    let parts := py_split "/" 2 path in
    if (length parts <? 3)%nat then Raise ValueError
    else
      result_bind (list_get parts 0) (fun part0 =>
      result_bind (list_get parts 1) (fun part1 =>
      result_bind (list_get parts 2) (fun part2 =>
      let model_id := (part0 +:+ "/" +:+ part1)%string in
      let filename := part2 in
      Ok (model_id, filename)))).

(** [OcrQABloomProcessor.load_bloom_filter]; [hf_hub_download] and
    [BloomFilter.open] are the two library calls, taken as functions
    from their arguments to the local path and to the oracle. *)
Definition OcrQABloomProcessor_load_bloom_filter
    (hf_hub_download : string -> string -> string)
    (BloomFilter_open : string -> BloomFilter) (bloomdict : string)
    : result BloomFilter :=
  if String.prefix "hf://" bloomdict then
    result_bind (split_hf_path bloomdict) (fun '(model_id, filename) =>
    let local_path := hf_hub_download model_id filename in
    Ok (BloomFilter_open local_path))
  else Ok (BloomFilter_open bloomdict).

(** What [json.loads] makes of a line of the language identification
    file that is an object: the value of ["id"], [None] when the object
    has no such key, and what [contentitem.get("lg")] returns, [None]
    when ["lg"] is absent or null.  [K] stands for the JSON values that
    Python takes as dictionary keys (strings, numbers, booleans and
    null, with Python's equality), [V] for the JSON values other than
    null. *)
Record LangidentObject (K V : Type) : Type := {
  item_id : option K;
  item_lg : option V
}.

Arguments item_id {K V} _.
Arguments item_lg {K V} _.

(** The lines of the language identification file: a line that
    [json.loads] rejects; a JSON value that is not an object; an object
    whose ["id"] is an array or an object, which no dictionary takes as
    a key; and any other object. *)
Inductive LangidentLine (K V : Type) : Type :=
| LangidentMalformed (raw : string)
| LangidentNotObject (raw : string)
| LangidentUnhashable (raw : string)
| LangidentJson (contentitem : LangidentObject K V).

Arguments LangidentMalformed {K V} raw.
Arguments LangidentNotObject {K V} raw.
Arguments LangidentUnhashable {K V} raw.
Arguments LangidentJson {K V} contentitem.

(** The loop [for line in f] of [read_langident] from the dictionary
    [entries] on (the variable [result] of the source): the dictionary
    at the end and the lines logged as ["Problem"], in order.  In
    [result[contentitem["id"]] = contentitem.get("lg")] the right-hand
    side comes first, which raises [AttributeError] on a value that is
    not an object; a missing ["id"] raises [KeyError], the one
    exception that is caught; the assignment raises [TypeError] on a
    key that cannot be hashed. *)
Fixpoint read_langident_lines {K V : Type} `{Countable K}
    (lines : list (LangidentLine K V))
    (entries : gmap K (option V)) (logged : list (LangidentLine K V))
    : result (gmap K (option V) * list (LangidentLine K V))%type :=
  match lines with
  | [] => Ok (entries, logged)
  | line :: rest =>
      match line with
      | LangidentMalformed _ => Raise JSONDecodeError
      | LangidentNotObject _ => Raise AttributeError
      | LangidentUnhashable _ => Raise TypeError
      | LangidentJson contentitem =>
          match item_id contentitem with
          | Some k =>
              read_langident_lines rest
                (<[k := item_lg contentitem]> entries) logged
          | None => read_langident_lines rest entries (logged ++ [line])
          end
      end
  end.

(** * A concrete configuration

    Two languages with small oracles and stand-ins for the external
    collaborators: ASCII lower-casing, no normalization, and a
    subtokenizer that splits at spaces.  The examples below run the
    engine on it. *)

Module Fixture.

Definition ascii_lower (a : ascii) : ascii :=
  let n := nat_of_ascii a in
  if (65 <=? n)%nat && (n <=? 90)%nat then ascii_of_nat (n + 32) else a.

Fixpoint lower (s : string) : string :=
  match s with
  | EmptyString => EmptyString
  | String a s' => String (ascii_lower a) (lower s')
  end.

(** The words of [s] between spaces; [cur] is the word being read. *)
Fixpoint words_from (cur : string) (s : string) : list string :=
  match s with
  | EmptyString =>
      if bool_decide (cur = EmptyString) then [] else [cur]
  | String a s' =>
      if bool_decide (a = " "%char) then
        if bool_decide (cur = EmptyString) then words_from EmptyString s'
        else cur :: words_from EmptyString s'
      else words_from (cur +:+ String a EmptyString) s'
  end.

Definition split_subtokens (ft : string) (min_length : Z)
    (language : option string) : list string :=
  List.filter (fun w => (min_length <=? Z.of_nat (py_len w))%Z)
    (words_from EmptyString ft).

Definition en_bloom : BloomFilter :=
  fun s => bool_decide (s ∈ ["the"; "cat"; "sat"; "a"; "e"]%string).

Definition fr_bloom : BloomFilter :=
  fun s => bool_decide (s ∈ ["le"; "chat"; "cat"]%string).

Definition open_bloom (path : string) : BloomFilter :=
  if bool_decide (path = "en.bloom"%string) then en_bloom
  else if bool_decide (path = "fr.bloom"%string) then fr_bloom
  else fun _ => false.

Definition ext : Externals :=
  {| str_lower := lower;
     unicodedata_normalize := fun _ s => s;
     subtokens := split_subtokens;
     load_bloom_filter :=
       OcrQABloomProcessor_load_bloom_filter (fun _ filename => filename)
         open_bloom;
     read_langident := fun _ => Ok ∅;
     get_timestamp := "2024-01-01T00:00:00"%string;
     environ_GIT_VERSION := None |}.

(** [--bloomdicts en.bloom fr.bloom --languages en fr --methods slc
    --min-subtokens 1], every other option at its default. *)
Definition opts : Options :=
  {| bloomdicts := ["en.bloom"; "fr.bloom"]%string;
     languages := ["en"; "fr"]%string;
     methods := [slc];
     keep_best := false;
     single_letter_cost := 7 # 10;
     single_symbol_cost := 3 # 10;
     min_subtokens := 1;
     min_subtoken_length := 1;
     unicode_normalization := Some "NFKC"%string;
     verbose_output := false;
     opt_git_version := None |}.

(** The processor and the statistics that [__init__] builds. *)
Definition processor_of (o : Options) : Processor :=
  {| options := o;
     bloom_filters := map open_bloom (bloomdicts o);
     lang_ident_data := None;
     self_single_symbol_cost := single_symbol_cost o;
     timestamp := "2024-01-01T00:00:00"%string;
     git_version := None |}.

Definition processor : Processor := processor_of opts.

(** The processor with a language identification file that labels
    the document ["d1"] with [lang]. *)
Definition labelled_processor (lang : string) : Processor :=
  {| options := opts;
     bloom_filters := map open_bloom (bloomdicts opts);
     lang_ident_data := Some {[ "d1"%string := Some lang ]};
     self_single_symbol_cost := single_symbol_cost opts;
     timestamp := "2024-01-01T00:00:00"%string;
     git_version := None |}.

Definition stats0 : Stats :=
  {| ocrqa_stats := [];
     unks := {[ "en.bloom"%string := ∅; "fr.bloom"%string := ∅ ]};
     lang_stats := ∅ |}.

Definition obj1 : JsonObject :=
  {| obj_id := Some "d1"%string; obj_ft := Some "The cat sat xyz"%string |}.

Definition obj2 : JsonObject :=
  {| obj_id := Some "d2"%string; obj_ft := Some "le chat"%string |}.

(** A document without the field [ft]. *)
Definition obj3 : JsonObject :=
  {| obj_id := Some "d3"%string; obj_ft := None |}.

Definition doc1 : Line := Json obj1.

Definition doc2 : Line := Json obj2.

Definition bad_line : Line := Malformed "{oops"%string.

End Fixture.

(** * Vocabulary of the statements *)

(** The three buckets of [compute_ocrqa_slc], as tests on a subtoken. *)
Definition is_privileged (subtok : string) : bool :=
  (1 <? py_len subtok)%nat || bool_decide (subtok ∈ single_chars).

Definition count_IV (bf : BloomFilter) (l : list string) : nat :=
  length (List.filter (fun t => bf t && is_privileged t) l).

Definition count_SL (bf : BloomFilter) (l : list string) : nat :=
  length (List.filter (fun t => bf t && negb (is_privileged t)) l).

Definition count_OOV (bf : BloomFilter) (l : list string) : nat :=
  length (List.filter (fun t => negb (bf t)) l).

(** The value of [counter["SL"]] after the floor at 0. *)
Definition SL_budget (cost : Q) (bf : BloomFilter) (l : list string) : Q :=
  let raw := - Qnat (length l) / 20 + Qnat (count_SL bf l) * cost in
  if Qlt_bool raw 0 then 0 else raw.

(** The denominator IV + SL + OOV. *)
Definition slc_total (cost : Q) (bf : BloomFilter) (l : list string) : Q :=
  SL_budget cost bf l + Qnat (count_IV bf l) + Qnat (count_OOV bf l).

(** [self.unks] has a counter for the oracle of position [i]: what
    [__init__] sets up for every configured position. *)
Definition unks_ready (p : Processor) (st : Stats) (i : nat) : Prop :=
  exists key, bloomdicts (options p) !! i = Some key /\ is_Some (unks st !! key).

(** The statistics other than the unknown-token counters. *)
Definition same_counts (st st' : Stats) : Prop :=
  ocrqa_stats st' = ocrqa_stats st /\ lang_stats st' = lang_stats st.

Definition unks_kept (st st' : Stats) : Prop :=
  forall k, is_Some (unks st !! k) -> is_Some (unks st' !! k).

(** The score of [compute_ocrqa_slc] in terms of the buckets. *)
Definition slc_value (cost : Q) (bf : BloomFilter) (l : list string) (v : Q)
    : Prop :=
  (slc_total cost bf l == 0 /\ v == 0) \/
  (0 < slc_total cost bf l /\
   v == py_round (Qnat (count_IV bf l) / slc_total cost bf l) 2).

(** The options with another value of [--single_symbol_cost]. *)
Definition with_single_symbol_cost (v : Q) (o : Options) : Options :=
  {| bloomdicts := bloomdicts o; languages := languages o;
     methods := methods o; keep_best := keep_best o;
     single_letter_cost := single_letter_cost o;
     single_symbol_cost := v;
     min_subtokens := min_subtokens o;
     min_subtoken_length := min_subtoken_length o;
     unicode_normalization := unicode_normalization o;
     verbose_output := verbose_output o;
     opt_git_version := opt_git_version o |}.

(** The processor with another value of the option and of the
    attribute [self.single_symbol_cost]. *)
Definition set_single_symbol_cost (v c : Q) (p : Processor) : Processor :=
  {| options := with_single_symbol_cost v (options p);
     bloom_filters := bloom_filters p;
     lang_ident_data := lang_ident_data p;
     self_single_symbol_cost := c;
     timestamp := timestamp p;
     git_version := git_version p |}.

(** The input line whose text field is replaced by its lower case. *)
Definition lower_text (ext : Externals) (line : Line) : Line :=
  match line with
  | Malformed raw => Malformed raw
  | Json obj =>
      Json {| obj_id := obj_id obj; obj_ft := str_lower ext <$> obj_ft obj |}
  end.

(** The text of a line, if it parses and has one. *)
Definition line_text (line : Line) : option string :=
  match line with
  | Malformed _ => None
  | Json obj => obj_ft obj
  end.

(** The text as [get_subtokens] hands it to the subtokenizer. *)
Definition prepared_text (ext : Externals) (p : Processor) (text : string)
    : string :=
  let ft := str_lower ext text in
  if truthy (unicode_normalization (options p))
  then unicodedata_normalize ext (default EmptyString
                                    (unicode_normalization (options p))) ft
  else ft.

(** What an exception makes of the outcome of the lines before it. *)
Definition stopped_by (e : exn) (r : result Stats) : result Stats :=
  match r with
  | Ok _ => Raise e
  | Raise e' => Raise e'
  end.

(** What [__init__] guarantees of a processor: one oracle and one
    oracle name per language; and what [argparse] guarantees of
    [--methods]: at least one method. *)
Definition configured (p : Processor) : Prop :=
  length (bloom_filters p) = length (languages (options p)) /\
  length (bloomdicts (options p)) = length (languages (options p)) /\
  methods (options p) <> [].

(** [self.unks] has a counter for every configured oracle. *)
Definition counters_ready (p : Processor) (st : Stats) : Prop :=
  forall i, (i < length (bloomdicts (options p)))%nat -> unks_ready p st i.

(** The candidate records of a document: the list [results] when
    control reaches the selection block. *)
Definition candidates_of (flow : Flow) : list ScoreRecord :=
  match flow with
  | Return _ => []
  | Fallthrough results _ _ => results
  end.

(** [best] at position [k] is the first candidate of maximal
    [ocrqa]: no candidate scores higher, every earlier one lower. *)
Definition first_maximum (results : list ScoreRecord) (k : nat)
    (best : ScoreRecord) (vbest : Q) : Prop :=
  results !! k = Some best /\ ocrqa best = Some vbest /\
  forall j c, results !! j = Some c ->
    exists s, ocrqa c = Some s /\ s <= vbest /\ ((j < k)%nat -> s < vbest).

(** The state of the selection variables of [process_line] while the
    candidates are collected with a [keep_best_method]. *)
Definition selection_state (results : list ScoreRecord) (bv : Q) (bi : Z)
    : Prop :=
  (results = [] /\ bv < 0 /\ bi = (-1)%Z) \/
  (exists k best, bi = Z.of_nat k /\ first_maximum results k best bv).

(** Every candidate has an [ocrqa] value, which is not negative. *)
Definition scored (results : list ScoreRecord) : Prop :=
  Forall (fun c => exists s, ocrqa c = Some s /\ 0 <= s <= 1) results.

(** [self.lang_stats[key]], 0 for a key never counted. *)
Definition lang_count (st : Stats) (key : string) : nat :=
  default 0%nat (lang_stats st !! key).

(** The number of records of language [l]. *)
Definition count_lg (l : string) (records : list ScoreRecord) : nat :=
  length (List.filter (fun r => bool_decide (lg r = l)) records).

(** The candidate records of all lines of a run, in order. *)
Fixpoint run_candidates (ext : Externals) (p : Processor)
    (lines : list Line) (st : Stats) : list ScoreRecord :=
  match lines with
  | [] => []
  | line :: rest =>
      match process_line_candidates ext p line st,
            process_line ext p line st with
      | Ok (flow, _), Ok (_, st') =>
          candidates_of flow ++ run_candidates ext p rest st'
      | _, _ => []
      end
  end.

(** [c in s] for a character [c]. *)
Fixpoint string_has (c : ascii) (s : string) : bool :=
  match s with
  | EmptyString => false
  | String a s' => bool_decide (a = c) || string_has c s'
  end.

(** The reference ["hf://organization/repository/filename"]. *)
Definition hf_reference (organization repository filename : string) : string :=
  ("hf://" +:+ organization +:+ "/" +:+ repository +:+ "/" +:+ filename)%string.

(** [s.count(c)] for a character [c]. *)
Fixpoint string_count (c : ascii) (s : string) : nat :=
  match s with
  | EmptyString => 0
  | String a s' =>
      if bool_decide (a = c) then S (string_count c s') else string_count c s'
  end.

(** The entry that a line of the language identification file adds:
    its id and its language, when it is an object with an id that can
    be a key. *)
Definition langident_entry {K V : Type} (line : LangidentLine K V)
    : option (K * option V) :=
  match line with
  | LangidentJson contentitem =>
      match item_id contentitem with
      | Some k => Some (k, item_lg contentitem)
      | None => None
      end
  | _ => None
  end.

(** The exception that a line of the language identification file
    raises, if any. *)
Definition langident_error {K V : Type} (line : LangidentLine K V)
    : option exn :=
  match line with
  | LangidentMalformed _ => Some JSONDecodeError
  | LangidentNotObject _ => Some AttributeError
  | LangidentUnhashable _ => Some TypeError
  | LangidentJson _ => None
  end.

(** The line is read without an exception: it is an object whose
    ["id"], if it has one, can be a key. *)
Definition langident_accepted {K V : Type} (line : LangidentLine K V) : bool :=
  match langident_error line with
  | Some _ => false
  | None => true
  end.

(** An object without ["id"]. *)
Definition langident_problem {K V : Type} (line : LangidentLine K V) : bool :=
  match line with
  | LangidentJson contentitem =>
      match item_id contentitem with
      | Some _ => false
      | None => true
      end
  | _ => false
  end.

(** The subtoken types of a sequence: its subtokens without
    repetition, in the order in which the set enumerates them. *)
Definition subtoken_types (l : list string) : list string :=
  elements (list_to_set l : gset string).

(** The number of occurrences of [t] in [l]. *)
Definition occurrences (t : string) (l : list string) : nat :=
  length (List.filter (fun u => bool_decide (u = t)) l).

(** [counter[t]] of a [Counter]: 0 for a key never counted. *)
Definition counted (c : gmap string nat) (t : string) : nat :=
  default 0%nat (c !! t).

(** The language label of a document, as [process_line] looks it up:
    the entry of the document id in a non-empty [lang_ident_data]. *)
Definition label_of (p : Processor) (obj : JsonObject) : option string :=
  match lang_ident_data p with
  | Some data =>
      if bool_decide (data = ∅) then None
      else match obj_id obj with
           | Some k => default None (data !! k)
           | None => None
           end
  | None => None
  end.

(** The subtokens of the document [obj] for the language [lang]: what
    the subtokenizer makes of its text, lower-cased and normalized;
    none for a document without text. *)
Definition document_subtokens (ext : Externals) (p : Processor)
    (obj : JsonObject) (lang : string) : list string :=
  match obj_ft obj with
  | Some text =>
      subtokens ext (prepared_text ext p text)
        (min_subtoken_length (options p)) (Some lang)
  | None => []
  end.

(** The subtokens of the document [obj] for the language [lang] are
    at least [min_subtokens]. *)
Definition meets_min_subtokens (ext : Externals) (p : Processor)
    (obj : JsonObject) (lang : string) : bool :=
  (min_subtokens (options p)
   <=? Z.of_nat (length (document_subtokens ext p obj lang)))%Z.

(** The languages a document is tried for: its label alone when it has
    one (no language at all when the label is not configured), and
    every configured language, in order, when it has none. *)
Definition tried_languages (p : Processor) (obj : JsonObject) : list string :=
  match label_of p obj with
  | Some lang =>
      if truthy (Some lang) then
        if bool_decide (lang ∈ languages (options p)) then [lang] else []
      else languages (options p)
  | None => languages (options p)
  end.

(** The languages for which the document is processed: those it is
    tried for and for which it has at least [min_subtokens]
    subtokens. *)
Definition processed_languages (ext : Externals) (p : Processor)
    (obj : JsonObject) : list string :=
  List.filter (meets_min_subtokens ext p obj) (tried_languages p obj).

(** [r] is the record of a trial of the document [obj]: it names the
    document, a configured language with the oracle name of the same
    position, and the number of subtokens of the document for that
    language, which reaches [min_subtokens]; it has a score for the
    configured methods only, and its [ocrqa] is the score of the first
    one. *)
Definition trial_record (ext : Externals) (p : Processor) (obj : JsonObject)
    (r : ScoreRecord) : Prop :=
  ci_id r = obj_id obj /\
  (exists i info,
     languages (options p) !! i = Some (lg r) /\
     bloomdicts (options p) !! i = Some (bloom r) /\
     get_subtokens ext p (Json obj) (Some (lg r)) = Ok info /\
     rec_subtokens r = length (info_subtokens info) /\
     (min_subtokens (options p) <= Z.of_nat (rec_subtokens r))%Z) /\
  (forall m, is_Some (method_score m r) <-> m ∈ methods (options p)) /\
  (exists m0 ms, methods (options p) = m0 :: ms /\
                 ocrqa r = method_score m0 r).


(** Every language trial of the document [obj] has fewer subtokens than
    [min_subtokens]. *)
Definition too_short (ext : Externals) (p : Processor) (obj : JsonObject)
    : Prop :=
  forall lang info,
    lang ∈ languages (options p) ->
    get_subtokens ext p (Json obj) (Some lang) = Ok info ->
    (Z.of_nat (length (info_subtokens info)) < min_subtokens (options p))%Z.

(** * Properties *)

(** ** Arithmetic of scores *)

Lemma Qlt_bool_iff (x y : Q) : Qlt_bool x y = true <-> x < y.
Proof.
  unfold Qlt_bool. rewrite negb_true_iff.
  split; intros H.
  - apply Qnot_le_lt. intros Hle. apply Qle_bool_iff in Hle. congruence.
  - destruct (Qle_bool y x) eqn:E; [|done].
    apply Qle_bool_iff in E. exfalso. apply (Qlt_not_le _ _ H E).
Qed.

Lemma Qlt_bool_false (x y : Q) : Qlt_bool x y = false <-> y <= x.
Proof.
  unfold Qlt_bool. rewrite negb_false_iff. apply Qle_bool_iff.
Qed.

Lemma Qnat_nonneg (n : nat) : 0 <= Qnat n.
Proof.
  unfold Qnat. change 0 with (inject_Z 0). rewrite <- Zle_Qle. lia.
Qed.

Lemma Qnat_pos (n : nat) : (0 < n)%nat -> 0 < Qnat n.
Proof.
  intros H. unfold Qnat. change 0 with (inject_Z 0). rewrite <- Zlt_Qlt. lia.
Qed.

Lemma Qnat_le (n m : nat) : (n <= m)%nat -> Qnat n <= Qnat m.
Proof. intros H. unfold Qnat. rewrite <- Zle_Qle. lia. Qed.

Lemma Qnat_S (n : nat) : Qnat (S n) == Qnat n + 1.
Proof.
  unfold Qnat. rewrite Nat2Z.inj_succ, <- Z.add_1_r, inject_Z_plus. reflexivity.
Qed.

Lemma py_div_ok (x y : Q) : ~ y == 0 -> py_div x y = Ok (x / y).
Proof.
  intros H. unfold py_div.
  destruct (Qeq_bool y 0) eqn:E; [|done].
  apply Qeq_bool_iff in E. contradiction.
Qed.

Lemma div_unit_interval (x y : Q) : 0 <= x -> x <= y -> 0 < y -> 0 <= x / y <= 1.
Proof.
  intros Hx Hxy Hy. split.
  - apply Qle_shift_div_l; [done|]. lra.
  - apply Qle_shift_div_r; [done|]. lra.
Qed.

Lemma round_half_even_range (q : Q) :
  (Qfloor q <= round_half_even q <= Qfloor q + 1)%Z.
Proof.
  unfold round_half_even.
  destruct (Qcompare _ _); [destruct (Z.even _)|..]; lia.
Qed.

Lemma round_half_even_mono (x y : Q) :
  x <= y -> (round_half_even x <= round_half_even y)%Z.
Proof.
  intros Hxy.
  pose proof (Qfloor_resp_le _ _ Hxy) as Hf.
  pose proof (round_half_even_range x) as Hx.
  pose proof (round_half_even_range y) as Hy.
  destruct (Z.eq_dec (Qfloor x) (Qfloor y)) as [E|NE]; [|lia].
  clear Hx Hy Hf. unfold round_half_even. rewrite <- E.
  set (f := Qfloor x).
  destruct (Qcompare (x - inject_Z f) (1 # 2)) eqn:Cx;
    destruct (Qcompare (y - inject_Z f) (1 # 2)) eqn:Cy;
    try (destruct (Z.even f)); try lia;
    repeat match goal with
      | H : Qcompare _ _ = Eq |- _ => apply Qeq_alt in H
      | H : Qcompare _ _ = Lt |- _ => apply Qlt_alt in H
      | H : Qcompare _ _ = Gt |- _ => apply Qgt_alt in H
      end; exfalso; lra.
Qed.

Lemma round_half_even_Z (z : Z) : round_half_even (inject_Z z) = z.
Proof.
  unfold round_half_even. rewrite Qfloor_Z.
  destruct (Qcompare (inject_Z z - inject_Z z) (1 # 2)) eqn:C; [|done|].
  - apply Qeq_alt in C. exfalso. lra.
  - apply Qgt_alt in C. exfalso. lra.
Qed.

Lemma round_half_even_comp (x y : Q) :
  x == y -> round_half_even x = round_half_even y.
Proof.
  intros E. apply Z.le_antisymm; apply round_half_even_mono; lra.
Qed.

Lemma scale_pos (n : nat) : 0 < inject_Z (10 ^ Z.of_nat n).
Proof.
  change 0 with (inject_Z 0). rewrite <- Zlt_Qlt.
  apply Z.pow_pos_nonneg; lia.
Qed.

Lemma py_round_mono (x y : Q) (n : nat) : x <= y -> py_round x n <= py_round y n.
Proof.
  intros Hxy. unfold py_round.
  pose proof (scale_pos n) as Hs. set (s := inject_Z (10 ^ Z.of_nat n)) in *.
  apply Qmult_le_compat_r.
  - rewrite <- Zle_Qle. apply round_half_even_mono.
    apply Qmult_le_compat_r; [done|]. by apply Qlt_le_weak.
  - apply Qinv_le_0_compat. by apply Qlt_le_weak.
Qed.

Lemma py_round_comp (x y : Q) (n : nat) : x == y -> py_round x n == py_round y n.
Proof.
  intros E. apply Qle_antisym; apply py_round_mono; lra.
Qed.

Lemma py_round_Z (z : Z) (n : nat) : py_round (inject_Z z) n == inject_Z z.
Proof.
  unfold py_round.
  pose proof (scale_pos n) as Hs. set (k := (10 ^ Z.of_nat n)%Z) in *.
  rewrite (round_half_even_comp _ (inject_Z (z * k))).
  - rewrite round_half_even_Z, inject_Z_mult. field. lra.
  - by rewrite inject_Z_mult.
Qed.

Lemma py_round_unit_interval (q : Q) (n : nat) :
  0 <= q <= 1 -> 0 <= py_round q n <= 1.
Proof.
  intros [H0 H1]. split.
  - rewrite <- (py_round_Z 0 n). by apply py_round_mono.
  - rewrite <- (py_round_Z 1 n). by apply py_round_mono.
Qed.

Lemma py_round_zero (q : Q) (n : nat) : q == 0 -> py_round q n == 0.
Proof.
  intros E. rewrite (py_round_comp _ _ n E). apply (py_round_Z 0).
Qed.

(** ** The three calculators *)

Lemma count_buckets (bf : BloomFilter) (l : list string) :
  (count_IV bf l + count_SL bf l + count_OOV bf l = length l)%nat.
Proof.
  unfold count_IV, count_SL, count_OOV.
  induction l as [|t l IH]; [done|]. simpl.
  destruct (bf t), (is_privileged t); simpl; lia.
Qed.

Lemma unks_incr_ok (key subtok : string) (st : Stats) :
  is_Some (unks st !! key) ->
  exists st', unks_incr key subtok st = Ok (tt, st') /\
    same_counts st st' /\ unks_kept st st'.
Proof.
  intros [c Hc]. unfold unks_incr. rewrite Hc.
  eexists. split; [done|]. split; [done|].
  intros k Hk. simpl.
  destruct (decide (key = k)) as [->|Hne].
  - rewrite lookup_insert_eq. eauto.
  - by rewrite lookup_insert_ne.
Qed.

Lemma slc_loop_ok (p : Processor) (bf : BloomFilter) (i : nat)
    (l : list string) :
  forall (c : SlcCounter) (st : Stats),
  unks_ready p st i ->
  exists c' st', slc_loop p bf i l c st = Ok (c', st') /\
    SL c' == SL c + Qnat (count_SL bf l) * single_letter_cost (options p) /\
    IV c' == IV c + Qnat (count_IV bf l) /\
    OOV c' == OOV c + Qnat (count_OOV bf l) /\
    same_counts st st' /\ unks_kept st st'.
Proof.
  unfold count_IV, count_SL, count_OOV.
  induction l as [|t l IH]; intros c st Hready.
  - exists c, st. simpl. change (Qnat 0) with 0.
    repeat split; try done; try lra. by intros k Hk.
  - simpl. fold (is_privileged t).
    destruct (bf t) eqn:Hbf; simpl.
    + destruct (is_privileged t) eqn:Hpriv; simpl.
      * destruct (IH {| SL := SL c; IV := IV c + 1; OOV := OOV c |} st Hready)
          as (c' & st' & -> & HSL & HIV & HOOV & Hsame & Hkept).
        exists c', st'. simpl in *. rewrite Qnat_S.
        repeat split; try done; try lra; apply Hsame.
      * destruct (IH {| SL := SL c + single_letter_cost (options p);
                        IV := IV c; OOV := OOV c |} st Hready)
          as (c' & st' & -> & HSL & HIV & HOOV & Hsame & Hkept).
        exists c', st'. simpl in *. rewrite Qnat_S.
        repeat split; try done; try lra; apply Hsame.
    + destruct Hready as (key & Hkey & Hsome). rewrite Hkey.
      destruct (unks_incr_ok key t st Hsome) as (st1 & E1 & Hsame1 & Hkept1).
      unfold bind. rewrite E1.
      destruct (IH {| SL := SL c; IV := IV c; OOV := OOV c + 1 |} st1)
        as (c' & st' & -> & HSL & HIV & HOOV & Hsame & Hkept).
      { exists key. split; [done|]. by apply Hkept1. }
      exists c', st'. simpl in *. rewrite Qnat_S.
      destruct Hsame1 as [Ha Hb], Hsame as [Hc Hd].
      repeat split; try done; try lra; try congruence.
      intros k Hk. by apply Hkept, Hkept1.
Qed.

Lemma SL_budget_nonneg (cost : Q) (bf : BloomFilter) (l : list string) :
  0 <= SL_budget cost bf l.
Proof.
  unfold SL_budget.
  destruct (Qlt_bool _ 0) eqn:E; [lra|]. by apply Qlt_bool_false in E.
Qed.

Lemma slc_total_bounds (cost : Q) (bf : BloomFilter) (l : list string) :
  0 <= Qnat (count_IV bf l) <= slc_total cost bf l.
Proof.
  unfold slc_total.
  pose proof (SL_budget_nonneg cost bf l).
  pose proof (Qnat_nonneg (count_IV bf l)).
  pose proof (Qnat_nonneg (count_OOV bf l)).
  split; lra.
Qed.

Lemma SL_floor_comp (x y : Q) :
  x == y ->
  (if Qlt_bool x 0 then 0 else x) == (if Qlt_bool y 0 then 0 else y).
Proof.
  intros E.
  destruct (Qlt_bool x 0) eqn:Ex, (Qlt_bool y 0) eqn:Ey; try lra.
  - apply Qlt_bool_iff in Ex. apply Qlt_bool_false in Ey. lra.
  - apply Qlt_bool_iff in Ey. apply Qlt_bool_false in Ex. lra.
Qed.

Lemma compute_ocrqa_slc_ok (p : Processor) (l : list string)
    (bf : BloomFilter) (i : nat) (st : Stats) :
  unks_ready p st i ->
  exists v st', compute_ocrqa_slc p l bf i st = Ok (v, st') /\
    slc_value (single_letter_cost (options p)) bf l v /\
    same_counts st st' /\ unks_kept st st'.
Proof.
  intros Hready. unfold compute_ocrqa_slc, bind.
  destruct (slc_loop_ok p bf i l
              {| SL := - Qnat (length l) / 20; IV := 0; OOV := 0 |} st Hready)
    as (c & st' & -> & HSL & HIV & HOOV & Hsame & Hkept).
  simpl in HSL, HIV, HOOV.
  set (cost := single_letter_cost (options p)) in *.
  set (c' := if Qlt_bool (SL c) 0
             then {| SL := 0; IV := IV c; OOV := OOV c |} else c).
  assert (HSL' : SL c' == SL_budget cost bf l).
  { unfold SL_budget. rewrite <- (SL_floor_comp _ _ HSL).
    subst c'. by destruct (Qlt_bool (SL c) 0). }
  assert (HIV' : IV c' == Qnat (count_IV bf l)).
  { subst c'. destruct (Qlt_bool (SL c) 0); simpl; lra. }
  assert (HOOV' : OOV c' == Qnat (count_OOV bf l)).
  { subst c'. destruct (Qlt_bool (SL c) 0); simpl; lra. }
  assert (Htot : counter_sum c' == slc_total cost bf l).
  { unfold counter_sum, slc_total. lra. }
  pose proof (slc_total_bounds cost bf l) as Hb.
  destruct (Qeq_bool (counter_sum c') 0) eqn:E.
  - apply Qeq_bool_iff in E.
    exists 0, st'. repeat split; try done; try apply Hsame.
    left. split; lra.
  - apply Qeq_bool_neq in E.
    unfold lift. rewrite py_div_ok by done.
    eexists _, st'. split; [reflexivity|]. repeat split; try done; try apply Hsame.
    right. split; [lra|].
    apply py_round_comp. by rewrite HIV', Htot.
Qed.

Lemma slc_value_unit_interval (cost : Q) (bf : BloomFilter) (l : list string)
    (v : Q) :
  slc_value cost bf l v -> 0 <= v <= 1.
Proof.
  intros [[_ ->]|[Hpos ->]]; [lra|].
  apply py_round_unit_interval.
  pose proof (slc_total_bounds cost bf l) as [H0 H1].
  by apply div_unit_interval.
Qed.

Lemma slc_value_nil (cost : Q) (bf : BloomFilter) (v : Q) :
  slc_value cost bf [] v -> v == 0.
Proof.
  intros [[_ E]|[Hpos _]]; [done|].
  exfalso. revert Hpos. unfold slc_total, SL_budget, count_IV, count_SL,
    count_OOV. cbn [List.filter length]. change (Qnat 0) with 0. cbv zeta.
  match goal with
  | |- context [Qlt_bool ?x 0] => destruct (Qlt_bool x 0)
  end; intros Hpos; [lra|].
  assert (E : - 0 / 20 == 0) by reflexivity.
  rewrite E in Hpos. lra.
Qed.

Lemma filter_length_le {A} (f : A -> bool) (l : list A) :
  (length (List.filter f l) <= length l)%nat.
Proof.
  induction l as [|x l IH]; simpl; [lia|]. destruct (f x); simpl; lia.
Qed.

(** A ratio [known / total] of counts with [known <= total], [0 < total]. *)
Lemma ratio_ok (known total : nat) :
  (known <= total)%nat -> (0 < total)%nat ->
  exists v,
    result_bind (py_div (Qnat known) (Qnat total)) (fun q => Ok (py_round q 2))
    = Ok v /\ v = py_round (Qnat known / Qnat total) 2 /\ 0 <= v <= 1.
Proof.
  intros Hle Hpos.
  pose proof (Qnat_pos total Hpos) as Hq.
  rewrite py_div_ok by lra. simpl.
  eexists. split; [done|]. split; [done|].
  apply py_round_unit_interval, div_unit_interval; [apply Qnat_nonneg| |done].
  by apply Qnat_le.
Qed.

Lemma compute_ocrqa_unk_ratio_ok (l : list string) (bf : BloomFilter) :
  exists v, compute_ocrqa_unk_ratio l bf = Ok v /\ 0 <= v <= 1 /\
    (l = [] -> v = 0).
Proof.
  unfold compute_ocrqa_unk_ratio.
  destruct l as [|t l]; [exists 0; split; [done|]; split; [lra|done]|].
  destruct (ratio_ok (length (List.filter bf (t :: l))) (length (t :: l)))
    as (v & -> & _ & Hv); [apply filter_length_le|simpl; lia|].
  exists v. split; [done|]. split; [done|]. intros; discriminate.
Qed.

Lemma compute_ocrqa_unk_type_ratio_ok (l : list string) (bf : BloomFilter) :
  exists v, compute_ocrqa_unk_type_ratio l bf = Ok v /\ 0 <= v <= 1 /\
    (l = [] -> v = 0).
Proof.
  unfold compute_ocrqa_unk_type_ratio.
  destruct (decide (list_to_set l = ∅)) as [E|NE].
  { exists 0. split; [done|]. split; [lra|done]. }
  set (X := list_to_set l : gset string) in *.
  destruct (ratio_ok (length (List.filter bf (elements X))) (size X))
    as (v & -> & _ & Hv).
  - apply filter_length_le.
  - destruct (decide (size X = 0%nat)) as [Z|]; [|lia].
    apply size_empty_iff in Z. exfalso. apply NE. by apply leibniz_equiv.
  - exists v. split; [done|]. split; [done|].
    intros ->. exfalso. by apply NE.
Qed.

(** C1. For every subtoken sequence and every oracle, each of the three
    calculators [compute_ocrqa_slc], [compute_ocrqa_unk_ratio] and
    [compute_ocrqa_unk_type_ratio] returns (it raises nothing) a value
    in [0,1], which is 0 on the empty sequence.  For [slc] the value is
    IV / (IV + SL + OOV) rounded to 2 decimals, or 0 when that
    denominator is 0, where SL starts at -count/20, grows by
    [single_letter_cost] per in-vocabulary single character outside the
    privileged set and is floored at 0.  The unknown-token counter of
    the oracle's position exists, as [__init__] makes it. *)
Theorem scores_in_unit_interval (p : Processor) (st : Stats)
    (l : list string) (bf : BloomFilter) (i : nat) :
  unks_ready p st i ->
  (exists v st', compute_ocrqa_slc p l bf i st = Ok (v, st') /\
     slc_value (single_letter_cost (options p)) bf l v /\
     0 <= v <= 1 /\ (l = [] -> v == 0)) /\
  (exists v, compute_ocrqa_unk_ratio l bf = Ok v /\
     0 <= v <= 1 /\ (l = [] -> v == 0)) /\
  (exists v, compute_ocrqa_unk_type_ratio l bf = Ok v /\
     0 <= v <= 1 /\ (l = [] -> v == 0)).
Proof.
  intros Hready. split; [|split].
  - destruct (compute_ocrqa_slc_ok p l bf i st Hready)
      as (v & st' & E & Hv & _).
    exists v, st'. split; [done|]. split; [done|]. split.
    + by eapply slc_value_unit_interval.
    + intros ->. by eapply slc_value_nil.
  - destruct (compute_ocrqa_unk_ratio_ok l bf) as (v & E & Hv & H0).
    exists v. split; [done|]. split; [done|]. intros ->. by rewrite H0.
  - destruct (compute_ocrqa_unk_type_ratio_ok l bf) as (v & E & Hv & H0).
    exists v. split; [done|]. split; [done|]. intros ->. by rewrite H0.
Qed.

Lemma scores_in_unit_interval_witness :
  (exists v st',
     compute_ocrqa_slc Fixture.processor ["the"; "cat"; "sat"; "xyz"]%string
       Fixture.en_bloom 0 Fixture.stats0 = Ok (v, st') /\
     slc_value (7 # 10) Fixture.en_bloom ["the"; "cat"; "sat"; "xyz"]%string v /\
     0 <= v <= 1 /\ (["the"; "cat"; "sat"; "xyz"]%string = [] -> v == 0)) /\
  (exists v,
     compute_ocrqa_unk_ratio ["the"; "cat"; "sat"; "xyz"]%string
       Fixture.en_bloom = Ok v /\
     0 <= v <= 1 /\ (["the"; "cat"; "sat"; "xyz"]%string = [] -> v == 0)) /\
  (exists v,
     compute_ocrqa_unk_type_ratio ["the"; "cat"; "sat"; "xyz"]%string
       Fixture.en_bloom = Ok v /\
     0 <= v <= 1 /\ (["the"; "cat"; "sat"; "xyz"]%string = [] -> v == 0)).
Proof.
  apply (scores_in_unit_interval Fixture.processor Fixture.stats0
           ["the"; "cat"; "sat"; "xyz"]%string Fixture.en_bloom 0).
  exists "en.bloom"%string. split; [reflexivity|].
  exists ∅. vm_compute. reflexivity.
Defined.

(** ** Scores without in-vocabulary subtokens *)

Lemma filter_none {A} (f : A -> bool) (l : list A) :
  Forall (fun x => f x = false) l -> List.filter f l = [].
Proof.
  induction 1 as [|x l Hx _ IH]; [done|]. simpl. by rewrite Hx.
Qed.

Lemma py_round_zero_ratio (total : Q) (n : nat) : py_round (Qnat 0 / total) n == 0.
Proof.
  apply py_round_zero. change (Qnat 0) with 0. unfold Qdiv. apply Qmult_0_l.
Qed.

Lemma slc_value_no_IV (cost : Q) (bf : BloomFilter) (l : list string) (v : Q) :
  count_IV bf l = 0%nat -> slc_value cost bf l v -> v == 0.
Proof.
  intros E [[_ Hv]|[_ Hv]]; [done|].
  rewrite Hv, E. apply py_round_zero_ratio.
Qed.

Lemma count_IV_unknown (bf : BloomFilter) (l : list string) :
  Forall (fun t => bf t = false) l -> count_IV bf l = 0%nat.
Proof.
  intros H. unfold count_IV. rewrite filter_none; [done|].
  eapply Forall_impl; [exact H|]. intros t Ht. simpl. by rewrite Ht.
Qed.

(** C8 as stated fails: the three calculators return 0.0 on the
    one-subtoken sequence ["xyz"], which the oracle does not know. *)
Lemma zero_score_on_nonempty_input :
  ["xyz"]%string <> [] /\
  (exists v, compute_ocrqa_unk_ratio ["xyz"]%string Fixture.en_bloom = Ok v /\
     v == 0) /\
  (exists v, compute_ocrqa_unk_type_ratio ["xyz"]%string Fixture.en_bloom = Ok v /\
     v == 0) /\
  (exists v st', compute_ocrqa_slc Fixture.processor ["xyz"]%string
                   Fixture.en_bloom 0 Fixture.stats0 = Ok (v, st') /\ v == 0).
Proof.
  split; [done|]. split; [|split].
  - eexists. split; [vm_compute; reflexivity|reflexivity].
  - eexists. split; [vm_compute; reflexivity|reflexivity].
  - eexists _, _. split; [vm_compute; reflexivity|reflexivity].
Qed.

(** C8, amended.  Each calculator returns 0.0 whenever no subtoken of
    the sequence is found in the oracle; the empty sequence is the
    special case, and a score other than 0.0 needs a subtoken that the
    oracle knows. *)
Theorem zero_score_without_known_subtoken (p : Processor) (st : Stats)
    (l : list string) (bf : BloomFilter) (i : nat) :
  unks_ready p st i ->
  Forall (fun t => bf t = false) l ->
  (exists v st', compute_ocrqa_slc p l bf i st = Ok (v, st') /\ v == 0) /\
  (exists v, compute_ocrqa_unk_ratio l bf = Ok v /\ v == 0) /\
  (exists v, compute_ocrqa_unk_type_ratio l bf = Ok v /\ v == 0).
Proof.
  intros Hready Hunk. split; [|split].
  - destruct (compute_ocrqa_slc_ok p l bf i st Hready)
      as (v & st' & E & Hv & _).
    exists v, st'. split; [done|].
    eapply slc_value_no_IV; [|exact Hv]. by apply count_IV_unknown.
  - unfold compute_ocrqa_unk_ratio. rewrite (filter_none _ _ Hunk).
    destruct l as [|t l]; [by exists 0|].
    change (length (@nil string)) with 0%nat.
    destruct (ratio_ok 0 (length (t :: l))) as (v & -> & -> & _);
      [lia|simpl; lia|].
    eexists. split; [done|]. apply py_round_zero_ratio.
  - unfold compute_ocrqa_unk_type_ratio.
    destruct (decide (list_to_set l = ∅)) as [E|NE]; [by exists 0|].
    set (X := list_to_set l : gset string) in *.
    rewrite filter_none.
    + change (length (@nil string)) with 0%nat.
      destruct (ratio_ok 0 (size X)) as (v & -> & -> & _); [lia| |].
      * destruct (decide (size X = 0%nat)) as [Z|]; [|lia].
        apply size_empty_iff in Z. exfalso. apply NE. by apply leibniz_equiv.
      * eexists. split; [done|]. apply py_round_zero_ratio.
    + apply Forall_forall. intros t Ht.
      apply elem_of_elements, elem_of_list_to_set in Ht.
      by eapply Forall_forall in Hunk.
Qed.

Lemma zero_score_without_known_subtoken_witness :
  (exists v st', compute_ocrqa_slc Fixture.processor ["xyz"; "qq"]%string
                   Fixture.en_bloom 0 Fixture.stats0 = Ok (v, st') /\ v == 0) /\
  (exists v, compute_ocrqa_unk_ratio ["xyz"; "qq"]%string Fixture.en_bloom = Ok v /\
     v == 0) /\
  (exists v, compute_ocrqa_unk_type_ratio ["xyz"; "qq"]%string Fixture.en_bloom
             = Ok v /\ v == 0).
Proof.
  apply (zero_score_without_known_subtoken Fixture.processor Fixture.stats0
           ["xyz"; "qq"]%string Fixture.en_bloom 0).
  - exists "en.bloom"%string. split; [reflexivity|].
    exists ∅. vm_compute. reflexivity.
  - repeat constructor.
Defined.

(** ** Out-of-vocabulary subtokens and [slc] *)

Lemma filter_app_length {A} (f : A -> bool) (l l' : list A) :
  length (List.filter f (l ++ l')) =
  (length (List.filter f l) + length (List.filter f l'))%nat.
Proof. by rewrite List.filter_app, length_app. Qed.

Lemma counts_app_unknown (bf : BloomFilter) (l extra : list string) :
  Forall (fun t => bf t = false) extra ->
  count_IV bf (l ++ extra) = count_IV bf l /\
  count_SL bf (l ++ extra) = count_SL bf l /\
  count_OOV bf (l ++ extra) = (count_OOV bf l + length extra)%nat.
Proof.
  intros H. unfold count_IV, count_SL, count_OOV.
  rewrite !filter_app_length.
  rewrite (filter_none (fun t => bf t && is_privileged t) extra).
  2: { eapply Forall_impl; [exact H|]. intros t Ht. simpl. by rewrite Ht. }
  rewrite (filter_none (fun t => bf t && negb (is_privileged t)) extra).
  2: { eapply Forall_impl; [exact H|]. intros t Ht. simpl. by rewrite Ht. }
  replace (List.filter (fun t => negb (bf t)) extra) with extra.
  2: { induction H as [|t extra Ht _ IH]; [done|]. simpl. rewrite Ht. simpl.
       by f_equal. }
  simpl. lia.
Qed.

Lemma Qnat_add (n m : nat) : Qnat (n + m) == Qnat n + Qnat m.
Proof.
  unfold Qnat. by rewrite Nat2Z.inj_add, inject_Z_plus.
Qed.

Lemma div20 (x : Q) : x / 20 == x * (1 # 20).
Proof. reflexivity. Qed.

Lemma slc_total_app_unknown (cost : Q) (bf : BloomFilter)
    (l extra : list string) :
  Forall (fun t => bf t = false) extra ->
  slc_total cost bf l <= slc_total cost bf (l ++ extra).
Proof.
  intros H. destruct (counts_app_unknown bf l extra H) as (EIV & ESL & EOOV).
  unfold slc_total, SL_budget. rewrite EIV, ESL, EOOV, length_app.
  pose proof (Qnat_nonneg (length extra)) as Hk.
  pose proof (Qnat_add (length l) (length extra)) as Hn.
  pose proof (Qnat_add (count_OOV bf l) (length extra)) as Ho.
  pose proof (div20 (- Qnat (length l))) as D1.
  pose proof (div20 (- Qnat (length l + length extra))) as D2.
  set (s := Qnat (count_SL bf l) * cost).
  destruct (Qlt_bool (- Qnat (length l) / 20 + s) 0) eqn:E1;
    destruct (Qlt_bool (- Qnat (length l + length extra) / 20 + s) 0) eqn:E2;
    try apply Qlt_bool_iff in E1; try apply Qlt_bool_false in E1;
    try apply Qlt_bool_iff in E2; try apply Qlt_bool_false in E2; lra.
Qed.

Lemma ratio_antitone (x y y' : Q) :
  0 <= x -> 0 < y -> y <= y' -> x / y' <= x / y.
Proof.
  intros Hx Hy Hyy'. unfold Qdiv.
  rewrite (Qmult_comm x (/ y')), (Qmult_comm x (/ y)).
  apply Qmult_le_compat_r; [|done].
  apply Qle_shift_inv_r; [lra|].
  rewrite Qmult_comm. apply (Qle_shift_div_l 1 y' y); lra.
Qed.

(** C5. Appending subtokens that the oracle does not know to a
    subtoken sequence never increases the [slc] score, the 2-decimal
    rounding included. *)
Theorem slc_antitone_in_unknown_subtokens (p : Processor) (st st2 : Stats)
    (l extra : list string) (bf : BloomFilter) (i : nat) :
  unks_ready p st i ->
  unks_ready p st2 i ->
  Forall (fun t => bf t = false) extra ->
  exists v v' st' st2',
    compute_ocrqa_slc p l bf i st = Ok (v, st') /\
    compute_ocrqa_slc p (l ++ extra) bf i st2 = Ok (v', st2') /\
    v' <= v.
Proof.
  intros Hready Hready2 Hunk.
  destruct (compute_ocrqa_slc_ok p l bf i st Hready)
    as (v & st' & E & Hv & _).
  destruct (compute_ocrqa_slc_ok p (l ++ extra) bf i st2 Hready2)
    as (v' & st2' & E' & Hv' & _).
  exists v, v', st', st2'. split; [done|]. split; [done|].
  set (cost := single_letter_cost (options p)) in *.
  pose proof (slc_total_app_unknown cost bf l extra Hunk) as Htot.
  destruct (counts_app_unknown bf l extra Hunk) as (EIV & _ & _).
  pose proof (slc_total_bounds cost bf l) as [HIV0 HIV1].
  destruct Hv as [[Hz Hv]|[Hpos Hv]].
  - assert (EIV0 : Qnat (count_IV bf l) == 0) by lra.
    assert (Hv'0 : v' == 0).
    { destruct Hv' as [[_ Hv']|[_ Hv']]; [done|].
      rewrite Hv', EIV. apply py_round_zero.
      rewrite EIV0. unfold Qdiv. apply Qmult_0_l. }
    lra.
  - destruct Hv' as [[Hz' _]|[Hpos' Hv']]; [lra|].
    rewrite Hv, Hv', EIV. apply py_round_mono.
    by apply ratio_antitone.
Qed.

Lemma slc_antitone_in_unknown_subtokens_witness :
  exists v v' st' st2',
    compute_ocrqa_slc Fixture.processor ["the"; "cat"]%string
      Fixture.en_bloom 0 Fixture.stats0 = Ok (v, st') /\
    compute_ocrqa_slc Fixture.processor
      (["the"; "cat"]%string ++ ["xyz"; "qq"]%string)
      Fixture.en_bloom 0 Fixture.stats0 = Ok (v', st2') /\
    v' <= v.
Proof.
  apply (slc_antitone_in_unknown_subtokens Fixture.processor Fixture.stats0
           Fixture.stats0 ["the"; "cat"]%string ["xyz"; "qq"]%string
           Fixture.en_bloom 0).
  - exists "en.bloom"%string. split; [reflexivity|].
    exists ∅. vm_compute. reflexivity.
  - exists "en.bloom"%string. split; [reflexivity|].
    exists ∅. vm_compute. reflexivity.
  - repeat constructor.
Defined.

(** ** Malformed input lines *)

Lemma process_line_malformed (ext : Externals) (p : Processor) (raw : string)
    (st : Stats) :
  process_line ext p (Malformed raw) st = Raise JSONDecodeError.
Proof. reflexivity. Qed.

Lemma run_lines_app (ext : Externals) (p : Processor) (pre rest : list Line) :
  forall st : Stats,
  run_lines ext p (pre ++ rest) st =
  match run_lines ext p pre st with
  | (out, Ok st') =>
      let '(out', r) := run_lines ext p rest st' in (out ++ out', r)
  | (out, Raise e) => (out, Raise e)
  end.
Proof.
  induction pre as [|line pre IH]; intros st; simpl.
  - by destruct (run_lines ext p rest st).
  - destruct (process_line ext p line st) as [[results st1]|e]; [|done].
    rewrite IH.
    destruct (run_lines ext p pre st1) as [out [st'|e]]; [|done].
    destruct (run_lines ext p rest st') as [out' r]. by rewrite app_assoc.
Qed.

(** C4 as stated fails: a malformed line in front of a well-formed
    document stops the run with the exception, the document after it is
    never processed (alone it yields a record) and [main] exits with
    status 1. *)
Lemma malformed_record_is_fatal :
  run Fixture.ext Fixture.processor [Fixture.bad_line; Fixture.doc1]
    Fixture.stats0
  = {| printed := []; finished := Raise JSONDecodeError |} /\
  length (printed (run Fixture.ext Fixture.processor [Fixture.doc1]
                     Fixture.stats0)) = 1%nat /\
  main Fixture.ext Fixture.opts None [Fixture.bad_line; Fixture.doc1]
  = ([], 1%Z).
Proof.
  split; [reflexivity|]. split; [vm_compute; reflexivity|reflexivity].
Qed.

(** C4, amended.  A malformed (unparseable) input line makes
    [process_line] raise; [run] does not catch the exception, so the run
    stops at that line: the records of the lines before it stay printed,
    no line after it is processed, no statistics are reported, and
    [main] logs the error and exits with status 1. *)
Theorem malformed_record_aborts_run (ext : Externals) (p : Processor)
    (pre rest : list Line) (raw : string) (st : Stats) :
  run_lines ext p (pre ++ Malformed raw :: rest) st =
    (fst (run_lines ext p pre st),
     stopped_by JSONDecodeError (snd (run_lines ext p pre st))) /\
  (exists e, finished (run ext p (pre ++ Malformed raw :: rest) st) = Raise e) /\
  (forall opts lid,
     snd (main ext opts lid (pre ++ Malformed raw :: rest)) = 1%Z).
Proof.
  assert (H : forall p st,
    run_lines ext p (pre ++ Malformed raw :: rest) st =
    (fst (run_lines ext p pre st),
     stopped_by JSONDecodeError (snd (run_lines ext p pre st)))).
  { intros p' st'. rewrite run_lines_app.
    destruct (run_lines ext p' pre st') as [out [st1|e]]; simpl; [|done].
    by rewrite app_nil_r. }
  assert (R : forall p st, exists e,
    finished (run ext p (pre ++ Malformed raw :: rest) st) = Raise e).
  { intros p' st'. unfold run. rewrite H.
    destruct (run_lines ext p' pre st') as [out [st1|e]]; simpl; eauto. }
  split; [apply H|]. split; [apply R|].
  intros opts lid. unfold main.
  destruct (bloomdicts opts); [done|].
  destruct (OcrQABloomProcessor_init ext opts lid) as [[p' st']|e]; [|done].
  destruct (R p' st') as [e ->]. done.
Qed.

(** ** The option [single_symbol_cost] *)

Section SingleSymbolCost.

Variable ext : Externals.
Variables (v c : Q) (p : Processor).

Abbreviation p' := (set_single_symbol_cost v c p).

Lemma slc_loop_ssc (bf : BloomFilter) (i : nat) (l : list string) :
  forall counter st, slc_loop p' bf i l counter st = slc_loop p bf i l counter st.
Proof.
  induction l as [|t l IH]; intros counter st; [done|]. simpl.
  destruct (bf t).
  - destruct (_ || _); apply IH.
  - destruct (bloomdicts (options p) !! i); [|done].
    unfold bind. destruct (unks_incr _ _ st) as [[[] st1]|]; [apply IH|done].
Qed.

Lemma compute_ocrqa_slc_ssc (l : list string) (bf : BloomFilter) (i : nat)
    (st : Stats) :
  compute_ocrqa_slc p' l bf i st = compute_ocrqa_slc p l bf i st.
Proof. unfold compute_ocrqa_slc, bind. by rewrite slc_loop_ssc. Qed.

Lemma get_subtokens_ssc (line : Line) (language : option string) :
  get_subtokens ext p' line language = get_subtokens ext p line language.
Proof. reflexivity. Qed.

Lemma compute_results_ssc info l bf lang lang_index kbm bv bi results st :
  compute_results p' info l bf lang lang_index kbm bv bi results st =
  compute_results p info l bf lang lang_index kbm bv bi results st.
Proof.
  unfold compute_results, bind. simpl.
  destruct (lift (list_get (bloomdicts (options p)) lang_index) st)
    as [[b st1]|]; [|done].
  destruct (lift (compute_subtoken_char_ratio l (char_length info)) st1)
    as [[r st2]|]; [|done].
  destruct (bool_decide (slc ∈ methods (options p))); [|done].
  by rewrite compute_ocrqa_slc_ssc.
Qed.

Lemma process_languages_ssc line kbm (filters : list BloomFilter) :
  forall lang_index results bv bi st,
  process_languages ext p' line kbm lang_index filters results bv bi st =
  process_languages ext p line kbm lang_index filters results bv bi st.
Proof.
  induction filters as [|bf filters IH]; intros lang_index results bv bi st;
    [done|].
  simpl. unfold bind.
  destruct (lift (list_get (languages (options p)) lang_index) st)
    as [[lang st1]|]; [|done].
  rewrite get_subtokens_ssc.
  destruct (lift (get_subtokens ext p line (Some lang)) st1)
    as [[info st2]|]; [|done].
  destruct (_ <? _)%Z; [apply IH|].
  rewrite compute_results_ssc.
  destruct (compute_results p _ _ _ _ _ _ _ _ _ st2)
    as [[[[r bv'] bi'] st3]|]; [|done].
  simpl. apply IH.
Qed.

Lemma process_line_ssc (line : Line) (st : Stats) :
  process_line ext p' line st = process_line ext p line st.
Proof.
  unfold process_line, process_line_candidates, bind.
  destruct (lift (json_loads line) st) as [[obj st1]|]; [|done].
  change (best_selection p') with (best_selection p).
  change (lang_ident_data p') with (lang_ident_data p).
  change (options p') with (with_single_symbol_cost v (options p)).
  change (methods (with_single_symbol_cost v (options p)))
    with (methods (options p)).
  change (languages (with_single_symbol_cost v (options p)))
    with (languages (options p)).
  change (min_subtokens (with_single_symbol_cost v (options p)))
    with (min_subtokens (options p)).
  change (bloom_filters p') with (bloom_filters p).
  change (process_line_select p') with (process_line_select p).
  change (keep_best_method_of p') with (keep_best_method_of p).
  destruct (lift (keep_best_method_of p) st1) as [[kbm st2]|]; [|done].
  change (get_subtokens ext p') with (get_subtokens ext p).
  destruct (match lang_ident_data p with Some _ => _ | None => _ end)
    as [lang|]; [destruct (truthy (Some lang)); [destruct (negb _)|]|];
    cbv beta; rewrite ?process_languages_ssc; try reflexivity.
  destruct (lift (get_subtokens ext p line (Some lang)) st2)
    as [[info st3]|]; [|done].
  destruct (_ <? _)%Z; [done|].
  destruct (lift (index_of lang (languages (options p))) st3)
    as [[lang_index st4]|]; [|done].
  destruct (lift (list_get (bloom_filters p) lang_index) st4)
    as [[bf st5]|]; [|done].
  by rewrite compute_results_ssc.
Qed.

Lemma run_lines_ssc (lines : list Line) :
  forall st, run_lines ext p' lines st = run_lines ext p lines st.
Proof.
  induction lines as [|line lines IH]; intros st; [done|].
  simpl. rewrite process_line_ssc.
  destruct (process_line ext p line st) as [[results st1]|]; [|done].
  by rewrite IH.
Qed.

End SingleSymbolCost.

Lemma init_single_symbol_cost (ext : Externals) (v : Q) (opts : Options)
    (lid : option string) :
  OcrQABloomProcessor_init ext (with_single_symbol_cost v opts) lid =
  match OcrQABloomProcessor_init ext opts lid with
  | Ok (p, st) => Ok (set_single_symbol_cost v v p, st)
  | Raise e => Raise e
  end.
Proof.
  unfold OcrQABloomProcessor_init. simpl.
  destruct (negb _); [done|].
  destruct (result_list_map _ _); [|done]. simpl.
  destruct lid as [path|]; simpl; [|by destruct (_ <? _)%Z].
  destruct (negb _); simpl; [|by destruct (_ <? _)%Z].
  destruct (read_langident ext path); [|done]. simpl.
  by destruct (_ <? _)%Z.
Qed.

(** C9. The value of [single_symbol_cost] influences no output: two
    runs that differ only in it (in the option and in the attribute
    that stores it) print the same records and end with the same
    statistics, the same logged mean and the same exit status. *)
Theorem single_symbol_cost_never_read (ext : Externals) (v c : Q)
    (p : Processor) (lines : list Line) (st : Stats) :
  run ext (set_single_symbol_cost v c p) lines st = run ext p lines st /\
  (forall opts lid,
     main ext (with_single_symbol_cost v opts) lid lines =
     main ext opts lid lines).
Proof.
  split.
  - unfold run. by rewrite run_lines_ssc.
  - intros opts lid. unfold main. rewrite init_single_symbol_cost. simpl.
    destruct (bloomdicts opts); [done|].
    destruct (OcrQABloomProcessor_init ext opts lid) as [[p0 st0]|]; [|done].
    unfold run. by rewrite run_lines_ssc.
Qed.

(** ** Lower-casing of the text *)

Section LowerText.

Variable ext : Externals.
Variable p : Processor.

Lemma get_subtokens_text (obj : JsonObject) (text : string)
    (language : option string) :
  obj_ft obj = Some text ->
  get_subtokens ext p (Json obj) language =
  Ok {| info_id := obj_id obj;
        info_subtokens :=
          subtokens ext (prepared_text ext p text)
            (min_subtoken_length (options p)) language;
        char_length := py_len (prepared_text ext p text) |}.
Proof.
  intros E. unfold get_subtokens, prepared_text. simpl. rewrite E.
  by destruct (unicode_normalization (options p)) as [form|].
Qed.

Lemma get_subtokens_lower (line : Line) (language : option string) :
  (forall text, line_text line = Some text ->
     str_lower ext (str_lower ext text) = str_lower ext text) ->
  get_subtokens ext p (lower_text ext line) language =
  get_subtokens ext p line language.
Proof.
  intros Hidem. destruct line as [raw|obj]; [done|].
  unfold lower_text. simpl in Hidem.
  destruct (obj_ft obj) as [text|] eqn:E.
  - rewrite (get_subtokens_text obj text language E).
    rewrite (get_subtokens_text _ (str_lower ext text) language);
      [|done].
    unfold prepared_text. by rewrite (Hidem text eq_refl).
  - unfold get_subtokens. simpl. by rewrite E.
Qed.

Variables line line' : Line.

Hypothesis same_subtokens : forall language,
  get_subtokens ext p line' language = get_subtokens ext p line language.

Lemma process_languages_same_subtokens kbm (filters : list BloomFilter) :
  forall lang_index results bv bi st,
  process_languages ext p line' kbm lang_index filters results bv bi st =
  process_languages ext p line kbm lang_index filters results bv bi st.
Proof.
  induction filters as [|bf filters IH]; intros lang_index results bv bi st;
    [done|].
  simpl. unfold bind.
  destruct (lift (list_get (languages (options p)) lang_index) st)
    as [[lang st1]|]; [|done].
  rewrite same_subtokens.
  destruct (lift (get_subtokens ext p line (Some lang)) st1)
    as [[info st2]|]; [|done].
  destruct (_ <? _)%Z; [apply IH|].
  destruct (compute_results p _ _ _ _ _ _ _ _ _ st2)
    as [[[[r bv'] bi'] st3]|]; [|done].
  simpl. apply IH.
Qed.

End LowerText.

Lemma process_line_lower (ext : Externals) (p : Processor) (line : Line)
    (st : Stats) :
  (forall text, line_text line = Some text ->
     str_lower ext (str_lower ext text) = str_lower ext text) ->
  process_line ext p (lower_text ext line) st = process_line ext p line st.
Proof.
  intros Hidem.
  pose proof (fun language => get_subtokens_lower ext p line language Hidem)
    as Hsub.
  destruct line as [raw|obj]; [done|].
  set (line := Json obj) in *. set (line' := lower_text ext line) in *.
  unfold process_line, process_line_candidates, bind.
  change (lift (json_loads line') st)
    with (Ok ({| obj_id := obj_id obj; obj_ft := str_lower ext <$> obj_ft obj |},
              st) : result (JsonObject * Stats)).
  change (lift (json_loads line) st) with (Ok (obj, st) : result (JsonObject * Stats)).
  cbv beta iota. simpl obj_id.
  destruct (lift (keep_best_method_of p) st) as [[kbm st2]|]; [|done].
  destruct (match lang_ident_data p with Some _ => _ | None => _ end)
    as [lang|]; [destruct (truthy (Some lang)); [destruct (negb _)|]|];
    cbv beta;
    rewrite ?(process_languages_same_subtokens ext p line line' Hsub);
    try reflexivity.
  by rewrite Hsub.
Qed.

(** C10. [get_subtokens] lower-cases the text before it normalizes and
    segments it.  Hence, with a lower-casing that leaves the lower-cased
    text of the document as it is (as [str.lower] does), replacing the
    text field of a document by its lower case changes neither the
    subtokens, nor [char_length], nor the scores, the emitted records
    and the statistics. *)
Theorem lowercased_text_same_result (ext : Externals) (p : Processor)
    (line : Line) :
  (forall text, line_text line = Some text ->
     str_lower ext (str_lower ext text) = str_lower ext text) ->
  (forall obj text language,
     line = Json obj -> obj_ft obj = Some text ->
     get_subtokens ext p line language =
     Ok {| info_id := obj_id obj;
           info_subtokens :=
             subtokens ext (prepared_text ext p text)
               (min_subtoken_length (options p)) language;
           char_length := py_len (prepared_text ext p text) |}) /\
  (forall language,
     get_subtokens ext p (lower_text ext line) language =
     get_subtokens ext p line language) /\
  (forall st,
     process_line ext p (lower_text ext line) st = process_line ext p line st) /\
  (forall pre post st,
     run ext p (pre ++ lower_text ext line :: post) st =
     run ext p (pre ++ line :: post) st).
Proof.
  intros Hidem. split; [|split; [|split]].
  - intros obj text language -> E. by apply get_subtokens_text.
  - intros language. by apply get_subtokens_lower.
  - intros st. by apply process_line_lower.
  - intros pre post st. unfold run. rewrite !run_lines_app.
    destruct (run_lines ext p pre st) as [out [st1|e]]; [|done].
    simpl. by rewrite process_line_lower.
Qed.

Lemma lowercased_text_same_result_witness :
  process_line Fixture.ext Fixture.processor
    (lower_text Fixture.ext Fixture.doc1) Fixture.stats0 =
  process_line Fixture.ext Fixture.processor Fixture.doc1 Fixture.stats0.
Proof.
  destruct (lowercased_text_same_result Fixture.ext Fixture.processor
              Fixture.doc1) as (_ & _ & H & _).
  - intros text [= <-]. reflexivity.
  - apply H.
Defined.

(** ** One candidate record *)

Lemma compute_subtoken_char_ratio_ok (l : list string) (n : nat) :
  exists r, compute_subtoken_char_ratio l n = Ok r.
Proof.
  unfold compute_subtoken_char_ratio.
  destruct (n =? 0)%nat eqn:E; [eauto|].
  apply Nat.eqb_neq in E.
  rewrite py_div_ok; [simpl; eauto|].
  intros E0. assert (Hpos : 0 < Qnat n) by (apply Qnat_pos; lia). lra.
Qed.

Lemma update_best_other (m0 m : Method) (v : Q) (results : list ScoreRecord)
    (best : Q * Z) :
  m <> m0 -> update_best (Some m0) m v results best = best.
Proof.
  intros Hne. unfold update_best.
  rewrite bool_decide_eq_false_2; [done|]. by intros [= ->].
Qed.

Lemma update_best_none (m : Method) (v : Q) (results : list ScoreRecord)
    (best : Q * Z) :
  update_best None m v results best = best.
Proof. done. Qed.

Lemma compute_results_ok (p : Processor) (info : SubtoksInfo)
    (l : list string) (bf : BloomFilter) (lang : string) (idx : nat)
    (kbm : option Method) (bv : Q) (bi : Z) (results : list ScoreRecord)
    (st : Stats) (m0 : Method) (ms : list Method) :
  methods (options p) = m0 :: ms ->
  unks_ready p st idx ->
  kbm = None \/ kbm = Some m0 ->
  exists r s bv' bi' st',
    compute_results p info l bf lang idx kbm bv bi results st
    = Ok ((r, bv', bi'), st') /\
    ocrqa r = Some s /\ 0 <= s <= 1 /\ lg r = lang /\
    (bv', bi') =
      (if bool_decide (kbm = Some m0) && Qlt_bool bv s
       then (s, Z.of_nat (length results)) else (bv, bi)) /\
    lang_stats st' = lang_stats st /\ unks_kept st st'.
Proof.
  intros Hm Hready Hkbm.
  destruct Hready as (key & Hkey & Hsome).
  assert (Hready : unks_ready p st idx) by (exists key; done).
  unfold compute_results, bind, lift, list_get. rewrite Hkey, Hm.
  destruct (compute_subtoken_char_ratio_ok l (char_length info)) as [ratio ->].
  destruct (compute_ocrqa_slc_ok p l bf idx st Hready)
    as (v1 & st1 & E1 & Hv1 & [_ Hls] & Hkept).
  apply slc_value_unit_interval in Hv1.
  destruct (compute_ocrqa_unk_ratio_ok l bf) as (v2 & E2 & Hv2 & _).
  destruct (compute_ocrqa_unk_type_ratio_ok l bf) as (v3 & E3 & Hv3 & _).
  assert (Hin : m0 ∈ m0 :: ms) by apply list_elem_of_here.
  destruct (bool_decide (slc ∈ m0 :: ms)) eqn:M1;
  destruct (bool_decide (unk_ratio ∈ m0 :: ms)) eqn:M2;
  destruct (bool_decide (unk_type_ratio ∈ m0 :: ms)) eqn:M3;
  try apply bool_decide_eq_false in M1;
  try apply bool_decide_eq_false in M2;
  try apply bool_decide_eq_false in M3;
  destruct m0; try contradiction;
  destruct Hkbm as [-> | ->];
  repeat (cbv beta iota; unfold ret, modify, raise;
          rewrite ?E1, ?E2, ?E3);
  rewrite ?update_best_none;
  rewrite ?update_best_other by done;
  unfold update_best; simpl;
  destruct (verbose_output (options p));
  (eexists _, _, _, _, _; split; [reflexivity|]; simpl;
   repeat split; try done; try apply Hv1; try apply Hv2; try apply Hv3;
   try (by destruct (Qlt_bool bv _)); try (by intros k Hk)).
Qed.

(** ** Collecting the candidates of a document *)

Lemma scored_snoc (results : list ScoreRecord) (r : ScoreRecord) (s : Q) :
  scored results -> ocrqa r = Some s -> 0 <= s <= 1 -> scored (results ++ [r]).
Proof.
  intros H E Hs. apply Forall_app. split; [done|].
  constructor; [|constructor]. eauto.
Qed.

Lemma selection_state_step (results : list ScoreRecord) (bv : Q) (bi : Z)
    (r : ScoreRecord) (s : Q) :
  selection_state results bv bi ->
  ocrqa r = Some s -> 0 <= s ->
  let best := if Qlt_bool bv s then (s, Z.of_nat (length results))
              else (bv, bi) in
  selection_state (results ++ [r]) (fst best) (snd best).
Proof.
  intros Hsel Er Hs. simpl.
  destruct (Qlt_bool bv s) eqn:Hlt; simpl.
  - apply Qlt_bool_iff in Hlt. right.
    exists (length results), r. split; [done|].
    split; [by rewrite lookup_app_r, Nat.sub_diag by lia|]. split; [done|].
    intros j c Hj.
    destruct (decide (j < length results)%nat) as [Hjl|Hjl].
    + rewrite lookup_app_l in Hj by done.
      destruct Hsel as [(-> & _)|(k & best & _ & _ & _ & Hall)]; [done|].
      destruct (Hall j c Hj) as (s' & Es' & Hle & _).
      exists s'. split; [done|]. split; [|intros _]; lra.
    + apply lookup_lt_Some in Hj as Hlen. rewrite length_app in Hlen.
      simpl in Hlen. assert (j = length results) as -> by lia.
      rewrite lookup_app_r, Nat.sub_diag in Hj by lia.
      injection Hj as <-. exists s. split; [done|]. split; [lra|lia].
  - apply Qlt_bool_false in Hlt.
    destruct Hsel as [(-> & Hneg & _)|(k & best & -> & Hk & Ebest & Hall)];
      [lra|].
    right. exists k, best. split; [done|].
    apply lookup_lt_Some in Hk as Hklen.
    split; [by rewrite lookup_app_l|]. split; [done|].
    intros j c Hj.
    destruct (decide (j < length results)%nat) as [Hjl|Hjl].
    + rewrite lookup_app_l in Hj by done. by apply Hall.
    + apply lookup_lt_Some in Hj as Hlen. rewrite length_app in Hlen.
      simpl in Hlen. assert (j = length results) as -> by lia.
      rewrite lookup_app_r, Nat.sub_diag in Hj by lia.
      injection Hj as <-. exists s. split; [done|]. split; [done|lia].
Qed.

Lemma get_subtokens_json (ext : Externals) (p : Processor) (obj : JsonObject)
    (language : option string) :
  exists info, get_subtokens ext p (Json obj) language = Ok info /\
    info_id info = obj_id obj.
Proof.
  unfold get_subtokens. simpl.
  destruct (obj_ft obj); eexists; split; reflexivity.
Qed.

Lemma lang_count_incr (lang key : string) (st : Stats) :
  lang_count (lang_stats_incr lang st) key =
  (lang_count st key + if bool_decide (lang = key) then 1 else 0)%nat.
Proof.
  unfold lang_count, lang_stats_incr, counter_incr. simpl.
  destruct (decide (lang = key)) as [->|Hne].
  - rewrite lookup_insert_eq, bool_decide_eq_true_2 by done. simpl. lia.
  - rewrite lookup_insert_ne, bool_decide_eq_false_2 by done. lia.
Qed.

Lemma count_lg_snoc (key : string) (records : list ScoreRecord) (r : ScoreRecord) :
  count_lg key (records ++ [r]) =
  (count_lg key records + if bool_decide (lg r = key) then 1 else 0)%nat.
Proof.
  unfold count_lg. rewrite filter_app_length. simpl.
  by destruct (bool_decide (lg r = key)).
Qed.

Lemma counters_ready_kept (p : Processor) (st st' : Stats) :
  unks_kept st st' -> counters_ready p st -> counters_ready p st'.
Proof.
  intros Hkept Hready i Hi.
  destruct (Hready i Hi) as (key & Hkey & Hsome).
  exists key. split; [done|]. by apply Hkept.
Qed.

Lemma singleton_sublist {A} (x : A) (l : list A) : x ∈ l -> [x] `sublist_of` l.
Proof.
  intros (l1 & l2 & ->)%list_elem_of_split.
  apply sublist_inserts_l. constructor. apply sublist_nil_l.
Qed.

Section Candidates.

Variable ext : Externals.
Variable p : Processor.
Variable obj : JsonObject.
Variables (kbm : option Method) (m0 : Method) (ms : list Method).

Hypothesis first_method : methods (options p) = m0 :: ms.
Hypothesis kbm_first : kbm = None \/ kbm = Some m0.
Hypothesis one_name_per_language :
  length (bloomdicts (options p)) = length (languages (options p)).

Lemma process_languages_ok (filters : list BloomFilter) :
  forall idx results bv bi st,
  (idx + length filters = length (languages (options p)))%nat ->
  counters_ready p st ->
  scored results ->
  (kbm = Some m0 -> selection_state results bv bi) ->
  (lg <$> results) `sublist_of` take idx (languages (options p)) ->
  exists new bv' bi' st',
    process_languages ext p (Json obj) kbm idx filters results bv bi st
    = Ok ((results ++ new, bv', bi'), st') /\
    scored (results ++ new) /\
    (kbm = Some m0 -> selection_state (results ++ new) bv' bi') /\
    (kbm = None -> bv' = bv /\ bi' = bi) /\
    (lg <$> (results ++ new)) `sublist_of` languages (options p) /\
    counters_ready p st' /\
    (forall key, lang_count st' key = (lang_count st key + count_lg key new)%nat).
Proof.
  induction filters as [|bf filters IH];
    intros idx results bv bi st Hlen Hready Hscored Hsel Hsub.
  - exists [], bv, bi, st. simpl in *. rewrite app_nil_r.
    rewrite take_ge in Hsub by lia.
    repeat split; try done;
      try (intros key; unfold count_lg; simpl; lia).
  - simpl in Hlen. simpl. unfold bind, lift, list_get.
    destruct (lookup_lt_is_Some_2 (languages (options p)) idx) as [lang Hlang];
      [lia|].
    rewrite Hlang.
    destruct (get_subtokens_json ext p obj (Some lang)) as (info & -> & _).
    assert (Htake : take (S idx) (languages (options p)) =
                    take idx (languages (options p)) ++ [lang])
      by (by apply take_S_r).
    destruct (_ <? _)%Z.
    + apply IH; try done; [lia|].
      rewrite Htake. by apply sublist_inserts_r.
    + destruct (compute_results_ok p info (info_subtokens info) bf lang idx kbm
                  bv bi results st m0 ms first_method) as
        (r & s & bv1 & bi1 & st1 & -> & Er & Hs & Hlg & Hbest & Hls & Hkept);
        [apply Hready; lia|done|].
      unfold modify.
      destruct (IH (S idx) (results ++ [r]) bv1 bi1 (lang_stats_incr lang st1))
        as (new & bv' & bi' & st' & -> & Hscored' & Hsel' & Hnone & Hsub'
            & Hready' & Hcount); try done.
      * lia.
      * apply (counters_ready_kept p st); [|done].
        intros k Hk. simpl. by apply Hkept.
      * by eapply scored_snoc.
      * intros ->. rewrite bool_decide_eq_true_2 in Hbest by done.
        simpl in Hbest.
        pose proof (selection_state_step results bv bi r s (Hsel eq_refl) Er
                      (proj1 Hs)) as Hstep.
        simpl in Hstep. by rewrite <- Hbest in Hstep.
      * rewrite fmap_app, Htake. simpl. rewrite Hlg.
        by apply sublist_app.
      * exists (r :: new), bv', bi', st'.
        rewrite <- app_assoc in *. simpl in *.
        split; [done|]. split; [done|]. split; [done|]. split.
        { intros ->. destruct (Hnone eq_refl) as [-> ->].
          simpl in Hbest. by injection Hbest as -> ->. }
        split; [done|]. split; [done|].
        intros key. rewrite Hcount, lang_count_incr.
        unfold lang_count at 1. rewrite Hls. fold (lang_count st key).
        change (r :: new) with ([r] ++ new).
        unfold count_lg. rewrite filter_app_length. simpl. rewrite Hlg.
        destruct (bool_decide (lang = key)); simpl; lia.
Qed.

End Candidates.

Lemma index_of_ok (x : string) (l : list string) :
  x ∈ l -> exists i, index_of x l = Ok i /\ l !! i = Some x.
Proof.
  induction l as [|y l IH]; intros Hin; [by apply not_elem_of_nil in Hin|].
  simpl. destruct (decide (y = x)) as [->|Hne].
  - exists 0%nat. by rewrite bool_decide_eq_true_2.
  - rewrite bool_decide_eq_false_2 by done.
    apply elem_of_cons in Hin as [->|Hin]; [done|].
    destruct (IH Hin) as (i & -> & Hi). by exists (S i).
Qed.

Lemma initial_selection_state : selection_state [] (- (1)) (-1).
Proof. left. split; [done|]. split; [reflexivity|done]. Qed.

Lemma process_line_candidates_ok (ext : Externals) (p : Processor)
    (obj : JsonObject) (st : Stats) :
  configured p -> counters_ready p st ->
  exists flow st1,
    process_line_candidates ext p (Json obj) st = Ok (flow, st1) /\
    counters_ready p st1 /\
    match flow with
    | Return results => results = []
    | Fallthrough results bv bi =>
        scored results /\
        (best_selection p = true -> selection_state results bv bi) /\
        (best_selection p = false -> bi = (-1)%Z) /\
        (lg <$> results) `sublist_of` languages (options p)
    end /\
    (forall key,
       (forall lang, key <> ("missing-dict-for-" +:+ lang)%string) ->
       lang_count st1 key =
       (lang_count st key + count_lg key (candidates_of flow))%nat).
Proof.
  intros (Hfilters & Hnames & Hmethods) Hready.
  destruct (methods (options p)) as [|m0 ms] eqn:Hm; [done|]. clear Hmethods.
  unfold process_line_candidates, bind, lift. simpl json_loads. cbv beta iota.
  set (kbm := if best_selection p then Some m0 else None).
  assert (Hkbm : kbm = None \/ kbm = Some m0)
    by (subst kbm; destruct (best_selection p); auto).
  assert (Ekbm : keep_best_method_of p = Ok kbm).
  { unfold keep_best_method_of. subst kbm. rewrite Hm.
    by destruct (best_selection p). }
  rewrite Ekbm. cbv beta iota.
  assert (Hloop : exists flow st1,
    (fun st0 : Stats =>
       match process_languages ext p (Json obj) kbm 0 (bloom_filters p) []
               (- (1)) (-1) st0 with
       | Ok (a, st') =>
           (let '(results, bv, bi) := a in ret (Fallthrough results bv bi)) st'
       | Raise e => Raise e
       end) st = Ok (flow, st1) /\
    counters_ready p st1 /\
    match flow with
    | Return results => results = []
    | Fallthrough results bv bi =>
        scored results /\
        (best_selection p = true -> selection_state results bv bi) /\
        (best_selection p = false -> bi = (-1)%Z) /\
        (lg <$> results) `sublist_of` languages (options p)
    end /\
    (forall key,
       (forall lang, key <> ("missing-dict-for-" +:+ lang)%string) ->
       lang_count st1 key =
       (lang_count st key + count_lg key (candidates_of flow))%nat)).
  { destruct (process_languages_ok ext p obj kbm m0 ms Hm Hkbm Hnames
                (bloom_filters p) 0 [] (- (1)) (-1) st)
      as (new & bv' & bi' & st' & -> & Hscored & Hsel & Hnone & Hsub & Hready'
          & Hcount).
    - done.
    - done.
    - constructor.
    - intros _. apply initial_selection_state.
    - apply sublist_nil_l.
    - exists (Fallthrough ([] ++ new) bv' bi'), st'. simpl.
      split; [done|]. split; [done|]. split; [|by intros key _].
      split; [done|]. split; [|split; [|done]].
      + intros Hb. apply Hsel. subst kbm. by rewrite Hb.
      + intros Hb. apply Hnone. subst kbm. by rewrite Hb. }
  destruct (match lang_ident_data p with Some _ => _ | None => _ end)
    as [lang|]; [|exact Hloop].
  destruct (truthy (Some lang)); [|exact Hloop]. clear Hloop.
  destruct (bool_decide (lang ∈ languages (options p))) eqn:Hin;
    cbn [negb]; cbv beta iota.
  - apply bool_decide_eq_true in Hin.
    destruct (get_subtokens_json ext p obj (Some lang)) as (info & -> & _).
    destruct (_ <? _)%Z.
    { exists (Return []), st. simpl. repeat split; try done;
        try (intros; unfold count_lg; simpl; lia). }
    destruct (index_of_ok lang _ Hin) as (idx & -> & Hidx).
    apply lookup_lt_Some in Hidx as Hlt.
    destruct (lookup_lt_is_Some_2 (bloom_filters p) idx) as [bf Hbf]; [lia|].
    unfold list_get. rewrite Hbf.
    destruct (compute_results_ok p info (info_subtokens info) bf lang idx kbm
                (- (1)) (-1) [] st m0 ms Hm) as
      (r & s & bv1 & bi1 & st1 & E & Er & Hs & Hlg & Hbest & Hls & Hkept);
      [apply Hready; lia|done|].
    cbv beta iota. rewrite E. unfold modify, ret.
    exists (Fallthrough ([] ++ [r]) bv1 bi1), (lang_stats_incr lang st1).
    split; [done|]. split.
    { apply (counters_ready_kept p st); [|done].
      intros k Hk. simpl. by apply Hkept. }
    split.
    + split; [by eapply (scored_snoc []); [constructor|..]|].
      split; [|split].
      * intros Hb. subst kbm. rewrite Hb in Hbest.
        rewrite bool_decide_eq_true_2 in Hbest by done. simpl in Hbest.
        pose proof (selection_state_step [] (- (1)) (-1) r s
                      initial_selection_state Er (proj1 Hs)) as Hstep.
        simpl in Hstep. by rewrite <- Hbest in Hstep.
      * intros Hb. subst kbm. rewrite Hb in Hbest. simpl in Hbest.
        by injection Hbest as _ ->.
      * simpl. rewrite Hlg. by apply singleton_sublist.
    + intros key _. rewrite lang_count_incr. unfold lang_count at 1.
      rewrite Hls. fold (lang_count st key). simpl. unfold count_lg. simpl.
      rewrite Hlg. by destruct (bool_decide (lang = key)).
  - unfold modify, ret.
    exists (Return []), (lang_stats_incr ("missing-dict-for-" +:+ lang) st).
    split; [done|]. split; [by intros i Hi; apply Hready|].
    split; [done|].
    intros key Hkey. rewrite lang_count_incr.
    rewrite bool_decide_eq_false_2;
      [unfold count_lg; cbn [candidates_of List.filter length]; lia|].
    intros E. by apply (Hkey lang).
Qed.

(** ** Selection and emission *)

Lemma append_stats_value_ok (r : ScoreRecord) (st : Stats) :
  exists st', append_stats_value r st = Ok (tt, st') /\
    unks st' = unks st /\ lang_stats st' = lang_stats st.
Proof.
  unfold append_stats_value.
  destruct (stats_value r); eexists; (split; [reflexivity|by split]).
Qed.

Lemma append_stats_values_ok (results : list ScoreRecord) :
  forall st, exists st', append_stats_values results st = Ok (tt, st') /\
    unks st' = unks st /\ lang_stats st' = lang_stats st.
Proof.
  induction results as [|r results IH]; intros st; simpl.
  - by exists st.
  - unfold bind.
    destruct (append_stats_value_ok r st) as (st1 & -> & Hu1 & Hl1).
    destruct (IH st1) as (st' & -> & Hu & Hl).
    exists st'. split; [done|]. split; congruence.
Qed.

Lemma process_line_select_ok (p : Processor) (results : list ScoreRecord)
    (bv : Q) (bi : Z) (st : Stats) :
  (best_selection p = true -> selection_state results bv bi) ->
  (best_selection p = false -> bi = (-1)%Z) ->
  exists emitted st',
    process_line_select p results bi st = Ok (emitted, st') /\
    unks st' = unks st /\ lang_stats st' = lang_stats st /\
    (best_selection p = false -> emitted = results) /\
    (best_selection p = true -> results <> [] ->
     exists k best, emitted = [best] /\ first_maximum results k best bv).
Proof.
  intros Hsel Hnone. unfold process_line_select.
  destruct (best_selection p) eqn:Hb; simpl.
  - destruct (Hsel eq_refl) as [(-> & _ & ->)|(k & best & -> & Hmax)].
    + simpl. exists [], st. repeat split; try done.
    + assert (E : (Z.of_nat k =? -1)%Z = false) by (apply Z.eqb_neq; lia).
      rewrite E. simpl. unfold bind, lift, list_index, list_get.
      assert (E1 : (Z.of_nat k <? 0)%Z = false) by (apply Z.ltb_ge; lia).
      rewrite E1, E1, Nat2Z.id. destruct Hmax as (Hk & Hbest & Hall).
      rewrite Hk.
      destruct (append_stats_value_ok best st) as (st' & -> & Hu & Hl).
      exists [best], st'. repeat split; try done.
      intros _ _. by exists k, best.
  - unfold bind.
    destruct (append_stats_values_ok results st) as (st' & -> & Hu & Hl).
    exists results, st'. repeat split; try done.
Qed.

Lemma process_line_ok (ext : Externals) (p : Processor) (obj : JsonObject)
    (st : Stats) :
  configured p -> counters_ready p st ->
  exists flow st1 emitted st2,
    process_line_candidates ext p (Json obj) st = Ok (flow, st1) /\
    process_line ext p (Json obj) st = Ok (emitted, st2) /\
    counters_ready p st2 /\
    scored (candidates_of flow) /\
    (lg <$> candidates_of flow) `sublist_of` languages (options p) /\
    (forall key,
       (forall lang, key <> ("missing-dict-for-" +:+ lang)%string) ->
       lang_count st2 key =
       (lang_count st key + count_lg key (candidates_of flow))%nat) /\
    (best_selection p = false -> emitted = candidates_of flow) /\
    (best_selection p = true -> candidates_of flow <> [] ->
     exists k best vbest,
       emitted = [best] /\ first_maximum (candidates_of flow) k best vbest).
Proof.
  intros Hconf Hready.
  destruct (process_line_candidates_ok ext p obj st Hconf Hready)
    as (flow & st1 & E & Hready1 & Hflow & Hcount).
  unfold process_line, bind. rewrite E.
  destruct flow as [results|results bv bi].
  - subst results. exists (Return []), st1, [], st1. simpl.
    repeat split; try done; try constructor. apply sublist_nil_l.
  - destruct Hflow as (Hscored & Hsel & Hnone & Hsub).
    destruct (process_line_select_ok p results bv bi st1 Hsel Hnone)
      as (emitted & st2 & -> & Hu & Hl & Hall & Hbest).
    exists (Fallthrough results bv bi), st1, emitted, st2.
    cbn [candidates_of] in *.
    split; [done|]. split; [done|]. split.
    { intros i Hi. destruct (Hready1 i Hi) as (key & Hkey & Hsome).
      exists key. split; [done|]. by rewrite Hu. }
    split; [done|]. split; [done|]. split.
    { intros key Hkey. rewrite <- (Hcount key Hkey).
      unfold lang_count. by rewrite Hl. }
    split; [done|].
    intros Hb Hne. destruct (Hbest Hb Hne) as (k & best & -> & Hmax).
    by exists k, best, bv.
Qed.

(** C2. With best-selection active ([keep_best], or exactly one
    method), [process_line] emits for a document with at least one
    candidate exactly one record: the first candidate, in the order of
    the configured languages, whose [ocrqa] is maximal; every other
    candidate scores no more, every earlier one strictly less, and none
    of them is emitted. *)
Theorem best_selection_emits_first_maximum (ext : Externals) (p : Processor)
    (obj : JsonObject) (st : Stats) :
  configured p -> counters_ready p st -> best_selection p = true ->
  exists flow st1,
    process_line_candidates ext p (Json obj) st = Ok (flow, st1) /\
    (lg <$> candidates_of flow) `sublist_of` languages (options p) /\
    (candidates_of flow <> [] ->
     exists k best vbest st2,
       process_line ext p (Json obj) st = Ok ([best], st2) /\
       first_maximum (candidates_of flow) k best vbest).
Proof.
  intros Hconf Hready Hb.
  destruct (process_line_ok ext p obj st Hconf Hready)
    as (flow & st1 & emitted & st2 & E1 & E2 & _ & _ & Hsub & _ & _ & Hbest).
  exists flow, st1. split; [done|]. split; [done|].
  intros Hne. destruct (Hbest Hb Hne) as (k & best & vbest & -> & Hmax).
  by exists k, best, vbest, st2.
Qed.

Lemma best_selection_emits_first_maximum_witness :
  exists flow st1,
    process_line_candidates Fixture.ext Fixture.processor (Json Fixture.obj1)
      Fixture.stats0 = Ok (flow, st1) /\
    (lg <$> candidates_of flow)
      `sublist_of` languages (options Fixture.processor) /\
    (candidates_of flow <> [] ->
     exists k best vbest st2,
       process_line Fixture.ext Fixture.processor (Json Fixture.obj1)
         Fixture.stats0 = Ok ([best], st2) /\
       first_maximum (candidates_of flow) k best vbest).
Proof.
  apply (best_selection_emits_first_maximum Fixture.ext Fixture.processor
           Fixture.obj1 Fixture.stats0).
  - by repeat split.
  - intros i Hi. simpl in Hi.
    destruct i as [|[|i]]; [| |lia].
    + exists "en.bloom"%string. split; [reflexivity|].
      exists ∅. vm_compute. reflexivity.
    + exists "fr.bloom"%string. split; [reflexivity|].
      exists ∅. vm_compute. reflexivity.
  - reflexivity.
Defined.

Section CandidateLanguages.

Variable ext : Externals.
Variable p : Processor.
Variable obj : JsonObject.
Variables (kbm : option Method) (m0 : Method) (ms : list Method).

Hypothesis first_method : methods (options p) = m0 :: ms.
Hypothesis kbm_first : kbm = None \/ kbm = Some m0.
Hypothesis one_name_per_language :
  length (bloomdicts (options p)) = length (languages (options p)).

Lemma meets_min_subtokens_info (lang : string) (info : SubtoksInfo) :
  get_subtokens ext p (Json obj) (Some lang) = Ok info ->
  meets_min_subtokens ext p obj lang =
  negb (Z.of_nat (length (info_subtokens info)) <? min_subtokens (options p))%Z.
Proof.
  intros E. unfold meets_min_subtokens, document_subtokens.
  rewrite Z.leb_antisym. do 3 f_equal.
  destruct (obj_ft obj) as [text|] eqn:Hft.
  - rewrite (get_subtokens_text ext p obj text (Some lang) Hft) in E.
    by injection E as <-.
  - unfold get_subtokens in E. simpl in E. rewrite Hft in E.
    by injection E as <-.
Qed.

Lemma process_languages_langs (filters : list BloomFilter) :
  forall idx results bv bi st,
  (idx + length filters = length (languages (options p)))%nat ->
  counters_ready p st ->
  exists new bv' bi' st',
    process_languages ext p (Json obj) kbm idx filters results bv bi st
    = Ok ((results ++ new, bv', bi'), st') /\
    lg <$> new =
    List.filter (meets_min_subtokens ext p obj)
      (drop idx (languages (options p))).
Proof.
  induction filters as [|bf filters IH]; intros idx results bv bi st Hlen Hready.
  - exists [], bv, bi, st. simpl in *. rewrite app_nil_r.
    by rewrite drop_ge by lia.
  - simpl in Hlen. simpl. unfold bind, lift, list_get.
    destruct (lookup_lt_is_Some_2 (languages (options p)) idx) as [lang Hlang];
      [lia|].
    rewrite Hlang, (drop_S _ _ _ Hlang). cbn [List.filter].
    destruct (get_subtokens_json ext p obj (Some lang)) as (info & Einfo & _).
    rewrite (meets_min_subtokens_info lang info Einfo), Einfo.
    destruct (_ <? _)%Z; cbn [negb].
    + apply IH; [lia|done].
    + destruct (compute_results_ok p info (info_subtokens info) bf lang idx kbm
                  bv bi results st m0 ms first_method) as
        (r & s & bv1 & bi1 & st1 & -> & _ & _ & Hlg & _ & _ & Hkept);
        [apply Hready; lia|done|].
      unfold modify.
      destruct (IH (S idx) (results ++ [r]) bv1 bi1 (lang_stats_incr lang st1))
        as (new & bv' & bi' & st' & -> & Hnew); [lia| |].
      * apply (counters_ready_kept p st); [|done].
        intros k Hk. simpl. by apply Hkept.
      * exists (r :: new), bv', bi', st'. rewrite <- app_assoc. simpl.
        split; [done|]. f_equal; [done|exact Hnew].
Qed.

End CandidateLanguages.

Lemma process_line_candidates_langs (ext : Externals) (p : Processor)
    (obj : JsonObject) (st : Stats) :
  configured p -> counters_ready p st ->
  exists flow st1,
    process_line_candidates ext p (Json obj) st = Ok (flow, st1) /\
    lg <$> candidates_of flow = processed_languages ext p obj.
Proof.
  intros (Hfilters & Hnames & Hmethods) Hready.
  destruct (methods (options p)) as [|m0 ms] eqn:Hm; [done|]. clear Hmethods.
  unfold process_line_candidates, bind, lift. simpl json_loads. cbv beta iota.
  set (kbm := if best_selection p then Some m0 else None).
  assert (Hkbm : kbm = None \/ kbm = Some m0)
    by (subst kbm; destruct (best_selection p); auto).
  assert (Ekbm : keep_best_method_of p = Ok kbm).
  { unfold keep_best_method_of. subst kbm. rewrite Hm.
    by destruct (best_selection p). }
  rewrite Ekbm. cbv beta iota.
  unfold processed_languages, tried_languages, label_of.
  assert (Hloop : exists flow st1,
    (fun st0 : Stats =>
       match process_languages ext p (Json obj) kbm 0 (bloom_filters p) []
               (- (1)) (-1) st0 with
       | Ok (a, st') =>
           (let '(results, bv, bi) := a in ret (Fallthrough results bv bi)) st'
       | Raise e => Raise e
       end) st = Ok (flow, st1) /\
    lg <$> candidates_of flow =
    List.filter (meets_min_subtokens ext p obj) (languages (options p))).
  { destruct (process_languages_langs ext p obj kbm m0 ms Hm Hkbm Hnames
                (bloom_filters p) 0 [] (- (1)) (-1) st)
      as (new & bv' & bi' & st' & -> & Hnew); [done|done|].
    by exists (Fallthrough ([] ++ new) bv' bi'), st'. }
  destruct (match lang_ident_data p with Some _ => _ | None => _ end)
    as [lang|]; [|exact Hloop].
  destruct (truthy (Some lang)); [|exact Hloop]. clear Hloop.
  destruct (bool_decide (lang ∈ languages (options p))) eqn:Hin;
    cbn [negb]; cbv beta iota.
  - apply bool_decide_eq_true in Hin. cbn [List.filter].
    destruct (get_subtokens_json ext p obj (Some lang)) as (info & Einfo & _).
    rewrite (meets_min_subtokens_info ext p obj lang info Einfo), Einfo.
    destruct (_ <? _)%Z; cbn [negb].
    { by exists (Return []), st. }
    destruct (index_of_ok lang _ Hin) as (idx & -> & Hidx).
    apply lookup_lt_Some in Hidx as Hlt.
    destruct (lookup_lt_is_Some_2 (bloom_filters p) idx) as [bf Hbf]; [lia|].
    unfold list_get. rewrite Hbf.
    destruct (compute_results_ok p info (info_subtokens info) bf lang idx kbm
                (- (1)) (-1) [] st m0 ms Hm) as
      (r & s & bv1 & bi1 & st1 & E & _ & _ & Hlg & _);
      [apply Hready; lia|done|].
    cbv beta iota. rewrite E. unfold modify, ret.
    exists (Fallthrough ([] ++ [r]) bv1 bi1), (lang_stats_incr lang st1).
    split; [done|]. simpl. by rewrite Hlg.
  - unfold modify, ret.
    by exists (Return []), (lang_stats_incr ("missing-dict-for-" +:+ lang) st).
Qed.

(** C7. With exactly one configured method best-selection is active
    whatever [keep_best] is, and [process_line] emits exactly one
    record for every processed document, that is, every document with
    at least [min_subtokens] subtokens for one of the languages it is
    tried for (its label, or every configured language when it has
    none); for any other document it emits nothing.  The candidates are
    the records of the languages for which the document is processed,
    and the emitted record is one of them. *)
Theorem single_method_emits_one_record (ext : Externals) (p : Processor)
    (obj : JsonObject) (st : Stats) (m : Method) :
  length (bloom_filters p) = length (languages (options p)) ->
  length (bloomdicts (options p)) = length (languages (options p)) ->
  counters_ready p st ->
  methods (options p) = [m] ->
  best_selection p = true /\
  exists flow st1 emitted st2,
    process_line_candidates ext p (Json obj) st = Ok (flow, st1) /\
    process_line ext p (Json obj) st = Ok (emitted, st2) /\
    lg <$> candidates_of flow = processed_languages ext p obj /\
    (processed_languages ext p obj <> [] ->
     exists r, emitted = [r] /\ r ∈ candidates_of flow) /\
    (processed_languages ext p obj = [] -> emitted = []).
Proof.
  intros Hfilters Hnames Hready Hm.
  assert (Hb : best_selection p = true).
  { unfold best_selection. rewrite Hm. simpl. apply orb_true_r. }
  split; [done|].
  assert (Hconf : configured p) by (repeat split; try done; by rewrite Hm).
  destruct (process_line_ok ext p obj st Hconf Hready)
    as (flow & st1 & emitted & st2 & E1 & E2 & _ & _ & _ & _ & _ & Hbest).
  destruct (process_line_candidates_langs ext p obj st Hconf Hready)
    as (flow' & st1' & E1' & Hlangs).
  rewrite E1 in E1'. injection E1' as <- <-.
  exists flow, st1, emitted, st2.
  split; [done|]. split; [done|]. split; [done|]. split.
  - intros Hne.
    assert (Hcand : candidates_of flow <> []).
    { intros E. rewrite E in Hlangs. by symmetry in Hlangs. }
    destruct (Hbest Hb Hcand) as (k & best & vbest & -> & Hk & _).
    exists best. split; [done|]. by eapply list_elem_of_lookup_2.
  - intros Hnil. rewrite Hnil in Hlangs. apply fmap_nil_inv in Hlangs.
    unfold process_line, bind in E2. rewrite E1 in E2.
    destruct (process_line_candidates_ok ext p obj st Hconf Hready)
      as (flow' & st1' & E1' & _ & Hflow & _).
    rewrite E1 in E1'. injection E1' as <- <-.
    destruct flow as [results|results bv bi]; cbn [candidates_of] in Hlangs;
      subst results.
    + unfold ret in E2. by injection E2 as <- _.
    + unfold process_line_select in E2.
      destruct (best_selection p && negb (bi =? -1)%Z).
      * unfold bind, lift, list_index, list_get in E2.
        by destruct (bi <? 0)%Z; destruct (_ <? 0)%Z.
      * simpl in E2. unfold bind, ret in E2. by injection E2 as <- _.
Qed.

Lemma single_method_emits_one_record_witness :
  best_selection Fixture.processor = true /\
  exists flow st1 emitted st2,
    process_line_candidates Fixture.ext Fixture.processor (Json Fixture.obj1)
      Fixture.stats0 = Ok (flow, st1) /\
    process_line Fixture.ext Fixture.processor (Json Fixture.obj1)
      Fixture.stats0 = Ok (emitted, st2) /\
    lg <$> candidates_of flow = ["en"; "fr"]%string /\
    exists r, emitted = [r] /\ r ∈ candidates_of flow.
Proof.
  destruct (single_method_emits_one_record Fixture.ext Fixture.processor
              Fixture.obj1 Fixture.stats0 slc)
    as (Hb & flow & st1 & emitted & st2 & E1 & E2 & Hlangs & Hone & _).
  - reflexivity.
  - reflexivity.
  - intros i Hi. simpl in Hi.
    destruct i as [|[|i]]; [| |lia].
    + exists "en.bloom"%string. split; [reflexivity|].
      exists ∅. vm_compute. reflexivity.
    + exists "fr.bloom"%string. split; [reflexivity|].
      exists ∅. vm_compute. reflexivity.
  - reflexivity.
  - split; [exact Hb|]. exists flow, st1, emitted, st2.
    split; [exact E1|]. split; [exact E2|]. split; [exact Hlangs|].
    apply Hone. discriminate.
Defined.

(** ** Corpus statistics *)

Lemma run_lines_counts (ext : Externals) (p : Processor) (key : string)
    (lines : list Line) :
  configured p ->
  (forall lang, key <> ("missing-dict-for-" +:+ lang)%string) ->
  forall st st',
  counters_ready p st ->
  snd (run_lines ext p lines st) = Ok st' ->
  lang_count st' key =
    (lang_count st key + count_lg key (run_candidates ext p lines st))%nat /\
  (best_selection p = false ->
   fst (run_lines ext p lines st) = run_candidates ext p lines st).
Proof.
  intros Hconf Hkey.
  induction lines as [|line lines IH]; intros st st' Hready Hrun.
  - simpl in *. injection Hrun as <-. unfold count_lg. simpl. split; [lia|done].
  - destruct line as [raw|obj]; [done|].
    destruct (process_line_ok ext p obj st Hconf Hready)
      as (flow & st1 & emitted & st2 & E1 & E2 & Hready2 & _ & _ & Hcount
          & Hall & _).
    cbn [run_lines run_candidates] in *. rewrite E1, E2 in *.
    destruct (run_lines ext p lines st2) as [out r] eqn:Erest.
    simpl in Hrun. subst r.
    destruct (IH st2 st' Hready2) as [IHcount IHall];
      [by rewrite Erest|].
    rewrite Erest in IHall. simpl in IHall. split.
    + rewrite IHcount, (Hcount key Hkey).
      unfold count_lg. rewrite filter_app_length. lia.
    + intros Hb. simpl. by rewrite (Hall Hb), (IHall Hb).
Qed.

(** C6 as stated fails: with best-selection active and two languages,
    the document of the fixture is scored for both, the record of "en"
    is printed, the candidate of "fr" is discarded, and the counter of
    "fr" is 1 although no record of language "fr" was emitted. *)
Lemma lang_stats_counts_discarded_candidate :
  let report :=
    run Fixture.ext Fixture.processor [Fixture.doc1] Fixture.stats0 in
  lg <$> printed report = ["en"%string] /\
  match finished report with
  | Ok (_, st') =>
      lang_count st' "fr" = 1%nat /\ count_lg "fr" (printed report) = 0%nat
  | Raise _ => False
  end.
Proof. vm_compute. by repeat split. Qed.

(** C6, amended.  At the end of a run the counter of a configured
    language [l] is the number of candidate records produced for [l],
    the candidates that best-selection discards included: it grows by
    one per language trial that reaches [min_subtokens], and by nothing
    for a skipped document or trial.  Without best-selection every
    candidate is emitted and the counter is the number of emitted
    records of language [l]. *)
Theorem lang_stats_count_candidates (ext : Externals) (p : Processor)
    (lines : list Line) (st st' : Stats) (l : string) :
  configured p ->
  counters_ready p st ->
  (forall lang, l <> ("missing-dict-for-" +:+ lang)%string) ->
  snd (run_lines ext p lines st) = Ok st' ->
  lang_count st' l =
    (lang_count st l + count_lg l (run_candidates ext p lines st))%nat /\
  (best_selection p = false ->
   lang_count st' l =
     (lang_count st l + count_lg l (fst (run_lines ext p lines st)))%nat).
Proof.
  intros Hconf Hready Hkey Hrun.
  destruct (run_lines_counts ext p l lines Hconf Hkey st st' Hready Hrun)
    as [Hcount Hall].
  split; [done|]. intros Hb. by rewrite (Hall Hb).
Qed.

Lemma lang_stats_count_candidates_witness :
  exists st',
    snd (run_lines Fixture.ext Fixture.processor [Fixture.doc1; Fixture.doc2]
           Fixture.stats0) = Ok st' /\
    lang_count st' "fr" =
      (lang_count Fixture.stats0 "fr" +
       count_lg "fr"
         (run_candidates Fixture.ext Fixture.processor
            [Fixture.doc1; Fixture.doc2] Fixture.stats0))%nat.
Proof.
  eexists. split; [vm_compute; reflexivity|].
  apply (lang_stats_count_candidates Fixture.ext Fixture.processor
           [Fixture.doc1; Fixture.doc2] Fixture.stats0).
  - by repeat split.
  - intros i Hi. simpl in Hi.
    destruct i as [|[|i]]; [| |lia].
    + exists "en.bloom"%string. split; [reflexivity|].
      exists ∅. vm_compute. reflexivity.
    + exists "fr.bloom"%string. split; [reflexivity|].
      exists ∅. vm_compute. reflexivity.
  - intros lang H. discriminate H.
  - vm_compute. reflexivity.
Defined.

(** C3 on the fixture ([--methods slc], two languages, one document).
    The document is scored 0.75 for "en" and 0.25 for "fr", and only
    the record of "en" is printed; yet [ocrqa_stats] ends as
    [0.75; 0.25; 0.75]: [compute_results] appends the [slc] score of
    every candidate, and the selection block appends the score of the
    printed record once more.  The logged mean is 7/12, the mean of the
    [ocrqa] values of the printed records is 3/4. *)
Lemma corpus_mean_includes_discarded_candidate :
  let report :=
    run Fixture.ext Fixture.processor [Fixture.doc1] Fixture.stats0 in
  match finished report with
  | Ok (Some logged, st') =>
      Qred <$> omap ocrqa (printed report) = [3 # 4] /\
      Qred <$> ocrqa_stats st' = [3 # 4; 1 # 4; 3 # 4] /\
      logged == 7 # 12 /\
      (exists emitted_mean,
         mean (omap ocrqa (printed report)) = Some emitted_mean /\
         emitted_mean == 3 # 4) /\
      ~ logged == 3 # 4
  | _ => False
  end.
Proof.
  vm_compute. split; [done|]. split; [done|]. split; [done|].
  split; [|done]. eexists. by split.
Qed.

(** *** What the methods other than [slc] do with [ocrqa_stats] *)

Lemma lift_inv {A} (r : result A) (st : Stats) (a : A) (st' : Stats) :
  lift r st = Ok (a, st') -> r = Ok a /\ st' = st.
Proof. unfold lift. destruct r; [|done]. by intros [= -> ->]. Qed.

(** Without [slc] among the methods [compute_results] leaves the
    statistics alone, and with a single method the value that the
    selection block appends for the record is its [ocrqa]. *)
Lemma compute_results_without_slc (p : Processor) (info : SubtoksInfo)
    (l : list string) (bf : BloomFilter) (lang : string) (idx : nat)
    (kbm : option Method) (bv : Q) (bi : Z) (results : list ScoreRecord)
    (st st' : Stats) (r : ScoreRecord) (bv' : Q) (bi' : Z) (m : Method) :
  methods (options p) = [m] -> m <> slc ->
  compute_results p info l bf lang idx kbm bv bi results st
  = Ok ((r, bv', bi'), st') ->
  st' = st /\ stats_value r = ocrqa r /\ is_Some (ocrqa r).
Proof.
  intros Hm Hne H. unfold compute_results, bind in H. rewrite Hm in H.
  destruct (lift (list_get (bloomdicts (options p)) idx) st)
    as [[b st1]|] eqn:E1; [|done].
  apply lift_inv in E1 as [_ ->].
  destruct (lift (compute_subtoken_char_ratio l (char_length info)) st)
    as [[ratio st1]|] eqn:E2; [|done].
  apply lift_inv in E2 as [_ ->].
  destruct (compute_ocrqa_unk_ratio_ok l bf) as (v2 & E2 & _).
  destruct (compute_ocrqa_unk_type_ratio_ok l bf) as (v3 & E3 & _).
  rewrite E2, E3 in H.
  destruct m; [done|..].
  - change (bool_decide (slc ∈ [unk_ratio])) with false in H.
    change (bool_decide (unk_ratio ∈ [unk_ratio])) with true in H.
    change (bool_decide (unk_type_ratio ∈ [unk_ratio])) with false in H.
    cbn in H. unfold ret in H. injection H as <- _ _ <-.
    destruct (verbose_output (options p)); by repeat split.
  - change (bool_decide (slc ∈ [unk_type_ratio])) with false in H.
    change (bool_decide (unk_ratio ∈ [unk_type_ratio])) with false in H.
    change (bool_decide (unk_type_ratio ∈ [unk_type_ratio])) with true in H.
    cbn in H. unfold ret in H. injection H as <- _ _ <-.
    destruct (verbose_output (options p)); by repeat split.
Qed.

Lemma process_languages_without_slc (ext : Externals) (p : Processor)
    (line : Line) (kbm : option Method) (m : Method)
    (filters : list BloomFilter) :
  methods (options p) = [m] -> m <> slc ->
  forall idx results bv bi st results' bv' bi' st',
  process_languages ext p line kbm idx filters results bv bi st
  = Ok ((results', bv', bi'), st') ->
  Forall (fun r => stats_value r = ocrqa r /\ is_Some (ocrqa r)) results ->
  ocrqa_stats st' = ocrqa_stats st /\
  Forall (fun r => stats_value r = ocrqa r /\ is_Some (ocrqa r)) results'.
Proof.
  intros Hm Hne.
  induction filters as [|bf filters IH];
    intros idx results bv bi st results' bv' bi' st' H Hall.
  - simpl in H. by injection H as <- _ _ <-.
  - simpl in H. unfold bind in H.
    destruct (lift (list_get (languages (options p)) idx) st)
      as [[lang st1]|] eqn:E1; [|done].
    apply lift_inv in E1 as [_ ->].
    destruct (lift (get_subtokens ext p line (Some lang)) st)
      as [[info st1]|] eqn:E2; [|done].
    apply lift_inv in E2 as [_ ->].
    destruct (_ <? _)%Z; [by eapply IH|].
    destruct (compute_results p info _ bf lang idx kbm bv bi results st)
      as [[[[r bv1] bi1] st1]|] eqn:E3; [|done].
    apply (compute_results_without_slc _ _ _ _ _ _ _ _ _ _ _ _ _ _ _ m Hm Hne)
      in E3 as (-> & Hr & Hsome).
    unfold modify in H.
    eapply IH in H as [Hst HF].
    + split; [|done]. by rewrite Hst.
    + apply Forall_app. split; [done|]. by repeat constructor.
Qed.

Lemma append_stats_values_spec (results : list ScoreRecord) :
  forall st st',
  append_stats_values results st = Ok (tt, st') ->
  ocrqa_stats st' = ocrqa_stats st ++ omap stats_value results.
Proof.
  induction results as [|r results IH]; intros st st' H; simpl in *.
  - injection H as <-. by rewrite app_nil_r.
  - unfold bind, append_stats_value in H.
    destruct (stats_value r) as [v|]; simpl in H.
    + apply IH in H. rewrite H. simpl. by rewrite <- app_assoc.
    + by apply IH in H.
Qed.

Lemma process_line_select_spec (p : Processor) (results : list ScoreRecord)
    (bi : Z) (st st' : Stats) (emitted : list ScoreRecord) :
  process_line_select p results bi st = Ok (emitted, st') ->
  ocrqa_stats st' = ocrqa_stats st ++ omap stats_value emitted /\
  emitted ⊆ results.
Proof.
  unfold process_line_select. intros H.
  destruct (best_selection p && negb (bi =? -1)%Z).
  - unfold bind in H.
    destruct (lift (list_index results bi) st) as [[best st1]|] eqn:E1;
      [|done].
    apply lift_inv in E1 as [E1 ->].
    unfold append_stats_value in H.
    assert (Hin : best ∈ results).
    { unfold list_index, list_get in E1.
      destruct (_ <? 0)%Z; [done|].
      destruct (results !! _) eqn:El; [|done].
      injection E1 as ->. by eapply list_elem_of_lookup_2. }
    destruct (stats_value best) as [v|] eqn:Ev; simpl in H;
      injection H as <- <-; simpl; rewrite Ev; simpl.
    + split; [done|]. by intros x ->%list_elem_of_singleton.
    + rewrite app_nil_r. split; [done|].
      by intros x ->%list_elem_of_singleton.
  - unfold bind in H.
    destruct (append_stats_values results st) as [[[] st1]|] eqn:E1; [|done].
    injection H as <- <-. split; [by apply append_stats_values_spec|done].
Qed.

Lemma omap_agree {A B} (f g : A -> option B) (l : list A) :
  Forall (fun x => f x = g x) l -> omap f l = omap g l.
Proof.
  induction 1 as [|x l Hx _ IH]; [done|]. csimpl. by rewrite Hx, IH.
Qed.

Lemma process_line_without_slc (ext : Externals) (p : Processor) (line : Line)
    (m : Method) (st st' : Stats) (emitted : list ScoreRecord) :
  methods (options p) = [m] -> m <> slc ->
  process_line ext p line st = Ok (emitted, st') ->
  ocrqa_stats st' = ocrqa_stats st ++ omap ocrqa emitted.
Proof.
  intros Hm Hne H.
  assert (Hfinish : forall results bi st1,
    Forall (fun r => stats_value r = ocrqa r /\ is_Some (ocrqa r)) results ->
    ocrqa_stats st1 = ocrqa_stats st ->
    process_line_select p results bi st1 = Ok (emitted, st') ->
    ocrqa_stats st' = ocrqa_stats st ++ omap ocrqa emitted).
  { intros results bi st1 Hall Hst Hsel.
    apply process_line_select_spec in Hsel as [-> Hsub]. rewrite Hst.
    f_equal. apply omap_agree, Forall_forall. intros r Hr.
    eapply Forall_forall in Hall as [Hv _]; [exact Hv|]. by apply Hsub. }
  assert (Hloop : forall kbm,
    (do flow <-
       (do '(results, bv, bi) <-
          process_languages ext p line kbm 0 (bloom_filters p) []
            (- (1)) (-1);
        ret (Fallthrough results bv bi));
     match flow with
     | Return results => ret results
     | Fallthrough results _ bi => process_line_select p results bi
     end) st = Ok (emitted, st') ->
    ocrqa_stats st' = ocrqa_stats st ++ omap ocrqa emitted).
  { intros kbm Hk. unfold bind in Hk.
    destruct (process_languages ext p line kbm 0 (bloom_filters p) []
                (- (1)) (-1) st) as [[[[results bv] bi] st1]|] eqn:E; [|done].
    apply (process_languages_without_slc _ _ _ _ m _ Hm Hne) in E as [Hst Hall];
      [|constructor].
    unfold ret in Hk. by eapply Hfinish. }
  unfold process_line, process_line_candidates in H.
  unfold bind at 1 2 3 in H.
  destruct (lift (json_loads line) st) as [[obj st1]|] eqn:E1; [|done].
  apply lift_inv in E1 as [E1 ->].
  destruct (lift (keep_best_method_of p) st) as [[kbm st1]|] eqn:E2; [|done].
  apply lift_inv in E2 as [_ ->].
  destruct (match lang_ident_data p with Some _ => _ | None => _ end)
    as [lang|]; [|by apply (Hloop kbm)].
  destruct (truthy (Some lang)); [|by apply (Hloop kbm)]. clear Hloop.
  destruct (negb _).
  - unfold bind, modify, ret in H. injection H as <- <-. simpl.
    by rewrite app_nil_r.
  - unfold bind in H.
    destruct (lift (get_subtokens ext p line (Some lang)) st)
      as [[info st1]|] eqn:E3; [|done].
    apply lift_inv in E3 as [_ ->].
    destruct (_ <? _)%Z.
    { unfold ret in H. injection H as <- <-. simpl. by rewrite app_nil_r. }
    destruct (lift (index_of lang (languages (options p))) st)
      as [[idx st1]|] eqn:E4; [|done].
    apply lift_inv in E4 as [_ ->].
    destruct (lift (list_get (bloom_filters p) idx) st)
      as [[bf st1]|] eqn:E5; [|done].
    apply lift_inv in E5 as [_ ->].
    destruct (compute_results p info _ bf lang idx kbm (- (1)) (-1) [] st)
      as [[[[r bv1] bi1] st1]|] eqn:E6; [|done].
    apply (compute_results_without_slc _ _ _ _ _ _ _ _ _ _ _ _ _ _ _ m Hm Hne)
      in E6 as (-> & Hr & Hsome).
    unfold modify, ret in H.
    eapply (Hfinish _ _ (lang_stats_incr lang st)); [|reflexivity|exact H].
    by repeat constructor.
Qed.

(** With a single method other than [slc], a run that completes has
    appended to [ocrqa_stats] exactly the [ocrqa] values of the printed
    records, each once and in the order of printing: the logged mean is
    the mean of the aggregate scores of the emitted records. *)
Lemma corpus_mean_without_slc (ext : Externals) (p : Processor) (m : Method)
    (lines : list Line) :
  methods (options p) = [m] -> m <> slc ->
  forall st st',
  snd (run_lines ext p lines st) = Ok st' ->
  ocrqa_stats st' =
  ocrqa_stats st ++ omap ocrqa (fst (run_lines ext p lines st)).
Proof.
  intros Hm Hne.
  induction lines as [|line lines IH]; intros st st' H; simpl in *.
  - injection H as <-. by rewrite app_nil_r.
  - destruct (process_line ext p line st) as [[emitted st1]|] eqn:E; [|done].
    apply (process_line_without_slc _ _ _ m _ _ _ Hm Hne) in E.
    destruct (run_lines ext p lines st1) as [out r] eqn:Erest.
    simpl in *. specialize (IH st1 st'). rewrite Erest in IH. simpl in IH.
    rewrite (IH H), E, omap_app. by rewrite app_assoc.
Qed.

(** ** Hugging Face Hub references *)

Lemma split_first_some (sep : ascii) (s l r : string) :
  split_first sep s = Some (l, r) ->
  s = (l +:+ String sep r)%string /\ string_has sep l = false.
Proof.
  revert l r. induction s as [|a s IH]; intros l r H; simpl in H; [done|].
  destruct (decide (a = sep)) as [->|Hne].
  - rewrite bool_decide_eq_true_2 in H by done. by injection H as <- <-.
  - rewrite bool_decide_eq_false_2 in H by done.
    destruct (split_first sep s) as [[l' r']|]; [|done].
    injection H as <- <-. destruct (IH l' r' eq_refl) as [-> Hl].
    split; [done|]. simpl. by rewrite bool_decide_eq_false_2.
Qed.

Lemma split_first_app (sep : ascii) (l r : string) :
  string_has sep l = false ->
  split_first sep (l +:+ String sep r) = Some (l, r).
Proof.
  induction l as [|a l IH]; intros H; simpl in *.
  - by rewrite bool_decide_eq_true_2.
  - apply orb_false_iff in H as [Ha Hl]. rewrite Ha, IH; done.
Qed.

Lemma prefix_drop (pre s : string) :
  String.prefix pre s = true ->
  s = (pre +:+ string_drop (String.length pre) s)%string.
Proof.
  revert s. induction pre as [|a pre IH]; intros s H; [done|].
  destruct s as [|b s]; [done|]. simpl in H.
  destruct (ascii_dec a b) as [->|]; [|done].
  change (String b s = String b (pre +:+ string_drop (String.length pre) s)).
  f_equal. by apply IH.
Qed.

Lemma prefix_app (pre r : string) : String.prefix pre (pre +:+ r) = true.
Proof.
  induction pre as [|a pre IH]; simpl; [by destruct r|].
  by destruct (ascii_dec a a).
Qed.

Lemma string_drop_app (pre r : string) :
  string_drop (String.length pre) (pre +:+ r) = r.
Proof. induction pre as [|a pre IH]; simpl; [done|]. by destruct r. Qed.

Lemma split_hf_path_of_reference_aux
    (organization repository filename : string) :
  string_has "/" organization = false ->
  string_has "/" repository = false ->
  split_hf_path (hf_reference organization repository filename) =
  Ok ((organization +:+ "/" +:+ repository)%string, filename).
Proof.
  intros Horg Hrepo. unfold split_hf_path, hf_reference.
  rewrite prefix_app. simpl negb. cbv iota.
  change 5%nat with (String.length "hf://").
  rewrite string_drop_app. cbv zeta.
  change (py_split "/" 2 ?x) with
    (match split_first "/" x with
     | None => [x]
     | Some (l, r) =>
         l :: match split_first "/" r with
              | None => [r]
              | Some (l', r') => [l'; r']
              end
     end).
  change ("/" +:+ repository +:+ "/" +:+ filename)%string
    with (String "/" (repository +:+ String "/" filename)).
  rewrite (split_first_app "/" organization _ Horg). cbv iota beta.
  rewrite (split_first_app "/" repository _ Hrepo).
  reflexivity.
Qed.

(** X1. A reference built from an organization and a repository that
    contain no ["/"] and any file path (which may contain ["/"]) is
    split into ["organization/repository"] and the file path. *)
Theorem split_hf_path_of_reference (organization repository filename : string) :
  string_has "/" organization = false ->
  string_has "/" repository = false ->
  split_hf_path (hf_reference organization repository filename) =
  Ok ((organization +:+ "/" +:+ repository)%string, filename).
Proof. apply split_hf_path_of_reference_aux. Qed.

Lemma split_hf_path_of_reference_witness :
  split_hf_path (hf_reference "another-org" "another-repo" "dir/somefile.bloom")
  = Ok (("another-org" +:+ "/" +:+ "another-repo")%string,
        "dir/somefile.bloom"%string).
Proof.
  apply (split_hf_path_of_reference "another-org" "another-repo"
           "dir/somefile.bloom"); reflexivity.
Defined.

(** X2. Whatever [split_hf_path] returns is a decomposition of its
    argument: the argument is ["hf://"], the model id, ["/"] and the
    file name, and the model id is an organization and a repository
    without ["/"], joined by one ["/"]. *)
Theorem split_hf_path_decomposes (hf_path model_id filename : string) :
  split_hf_path hf_path = Ok (model_id, filename) ->
  exists organization repository,
    model_id = (organization +:+ "/" +:+ repository)%string /\
    string_has "/" organization = false /\
    string_has "/" repository = false /\
    hf_path = hf_reference organization repository filename.
Proof.
  unfold split_hf_path. intros H.
  destruct (String.prefix "hf://" hf_path) eqn:Hpre; [|done].
  apply prefix_drop in Hpre. simpl negb in H. cbv iota zeta in H.
  change (String.length "hf://") with 5%nat in Hpre.
  set (path := string_drop 5 hf_path) in *.
  simpl py_split in H.
  destruct (split_first "/" path) as [[org rest]|] eqn:E1; [|done].
  destruct (split_first "/" rest) as [[repo file]|] eqn:E2; [|done].
  simpl in H. injection H as <- <-.
  apply split_first_some in E1 as [E1 Horg].
  apply split_first_some in E2 as [E2 Hrepo].
  exists org, repo. repeat split; try done.
  unfold hf_reference. rewrite Hpre, E1, E2. done.
Qed.

Lemma split_hf_path_decomposes_witness :
  exists organization repository,
    "a/b"%string = (organization +:+ "/" +:+ repository)%string /\
    string_has "/" organization = false /\
    string_has "/" repository = false /\
    "hf://a/b/c/d"%string = hf_reference organization repository "c/d".
Proof.
  apply (split_hf_path_decomposes "hf://a/b/c/d" "a/b" "c/d"). reflexivity.
Defined.

Lemma split_first_count (sep : ascii) (s : string) :
  match split_first sep s with
  | None => string_count sep s = 0%nat
  | Some (_, r) => string_count sep s = S (string_count sep r)
  end.
Proof.
  induction s as [|a s IH]; simpl; [done|].
  destruct (bool_decide (a = sep)); [done|].
  by destruct (split_first sep s) as [[l r]|].
Qed.

Lemma py_split_two_length (s : string) :
  (length (py_split "/" 2 s) <? 3)%nat = (string_count "/" s <? 2)%nat.
Proof.
  simpl py_split.
  pose proof (split_first_count "/" s) as H1.
  destruct (split_first "/" s) as [[l r]|]; [|by rewrite H1].
  pose proof (split_first_count "/" r) as H2.
  destruct (split_first "/" r) as [[l' r']|]; rewrite H1, H2; done.
Qed.

(** X3. [split_hf_path] either returns or raises [ValueError], never
    another exception; it raises exactly when its argument does not
    start with ["hf://"] or has fewer than two ["/"] after that
    prefix. *)
Theorem split_hf_path_rejects (hf_path : string) :
  (split_hf_path hf_path = Raise ValueError <->
   String.prefix "hf://" hf_path = false \/
   (string_count "/" (string_drop 5 hf_path) < 2)%nat) /\
  (split_hf_path hf_path = Raise ValueError \/
   exists model_id filename, split_hf_path hf_path = Ok (model_id, filename)).
Proof.
  unfold split_hf_path.
  destruct (String.prefix "hf://" hf_path); simpl negb; cbv iota zeta.
  2: { split; [|by left]. split; [by left|done]. }
  generalize (string_drop 5 hf_path). intros path.
  rewrite py_split_two_length.
  destruct (string_count "/" path <? 2)%nat eqn:Hc.
  - apply Nat.ltb_lt in Hc. split; [|by left]. split; [by right|done].
  - apply Nat.ltb_ge in Hc.
    pose proof (split_first_count "/" path) as H1.
    simpl py_split.
    destruct (split_first "/" path) as [[l r]|]; [|lia].
    pose proof (split_first_count "/" r) as H2.
    destruct (split_first "/" r) as [[l' r']|]; [|lia].
    simpl. split; [|right; eauto].
    split; [done|]. intros [|]; [done|lia].
Qed.

(** X4. [load_bloom_filter] opens a path without the ["hf://"] prefix
    as it is, whatever the Hub would return; it opens the downloaded
    file of a reference with organization, repository and file name;
    and it raises [ValueError], without opening anything, on a
    reference that lacks one of the three parts. *)
Theorem load_bloom_filter_dispatch
    (hf_hub_download : string -> string -> string)
    (BloomFilter_open : string -> BloomFilter) :
  (forall bloomdict,
     String.prefix "hf://" bloomdict = false ->
     OcrQABloomProcessor_load_bloom_filter hf_hub_download BloomFilter_open
       bloomdict = Ok (BloomFilter_open bloomdict)) /\
  (forall organization repository filename,
     string_has "/" organization = false ->
     string_has "/" repository = false ->
     OcrQABloomProcessor_load_bloom_filter hf_hub_download BloomFilter_open
       (hf_reference organization repository filename)
     = Ok (BloomFilter_open
             (hf_hub_download (organization +:+ "/" +:+ repository)%string
                filename))) /\
  (forall bloomdict,
     String.prefix "hf://" bloomdict = true ->
     (string_count "/" (string_drop 5 bloomdict) < 2)%nat ->
     OcrQABloomProcessor_load_bloom_filter hf_hub_download BloomFilter_open
       bloomdict = Raise ValueError).
Proof.
  split; [|split].
  - intros bloomdict Hpre. unfold OcrQABloomProcessor_load_bloom_filter.
    by rewrite Hpre.
  - intros organization repository filename Horg Hrepo.
    unfold OcrQABloomProcessor_load_bloom_filter.
    unfold hf_reference at 1. rewrite prefix_app.
    by rewrite (split_hf_path_of_reference_aux organization repository filename
                  Horg Hrepo).
  - intros bloomdict Hpre Hc. unfold OcrQABloomProcessor_load_bloom_filter.
    rewrite Hpre.
    assert (E : split_hf_path bloomdict = Raise ValueError).
    { unfold split_hf_path. rewrite Hpre. simpl negb. cbv iota zeta.
      rewrite py_split_two_length.
      apply Nat.ltb_lt in Hc. by rewrite Hc. }
    by rewrite E.
Qed.

(** X3 at ["hf://a/b"]: one ["/"] after the prefix. *)
Lemma split_hf_path_rejects_witness :
  split_hf_path "hf://a/b" = Raise ValueError.
Proof.
  apply (proj1 (split_hf_path_rejects "hf://a/b")). right. simpl. lia.
Defined.

Lemma load_bloom_filter_dispatch_witness :
  OcrQABloomProcessor_load_bloom_filter (fun _ f => f) Fixture.open_bloom
    "en.bloom" = Ok (Fixture.open_bloom "en.bloom") /\
  OcrQABloomProcessor_load_bloom_filter (fun _ f => f) Fixture.open_bloom
    (hf_reference "org" "repo" "en.bloom") = Ok (Fixture.open_bloom "en.bloom") /\
  OcrQABloomProcessor_load_bloom_filter (fun _ f => f) Fixture.open_bloom
    "hf://org/en.bloom" = Raise ValueError.
Proof.
  destruct (load_bloom_filter_dispatch (fun _ f => f) Fixture.open_bloom)
    as (H1 & H2 & H3).
  split; [|split].
  - apply H1. reflexivity.
  - apply (H2 "org" "repo" "en.bloom")%string; reflexivity.
  - apply H3; [reflexivity|simpl; lia].
Defined.

(** ** The language identification file *)

Section LangidentFile.

Context {K V : Type} `{Countable K}.

Lemma read_langident_lines_accepted (lines : list (LangidentLine K V)) :
  forallb langident_accepted lines = true ->
  forall entries logged,
  read_langident_lines lines entries logged =
  Ok (list_to_map (reverse (omap langident_entry lines)) ∪ entries,
      logged ++ List.filter langident_problem lines).
Proof.
  induction lines as [|line lines IH]; intros Hp entries logged.
  - simpl. by rewrite (left_id_L ∅ (∪)), app_nil_r.
  - simpl in Hp. apply andb_true_iff in Hp as [Hline Hp].
    destruct line as [raw|raw|raw|contentitem]; try done. simpl.
    destruct (item_id contentitem) as [k|] eqn:Hk.
    + rewrite (IH Hp). f_equal. f_equal.
      rewrite reverse_cons, list_to_map_app. simpl.
      rewrite <- (assoc_L (∪)). f_equal.
      rewrite insert_empty. by rewrite <- insert_union_singleton_l.
    + rewrite (IH Hp). by rewrite <- app_assoc.
Qed.

Lemma read_langident_lines_error (pre post : list (LangidentLine K V))
    (line : LangidentLine K V) (e : exn) :
  forallb langident_accepted pre = true ->
  langident_error line = Some e ->
  forall entries logged,
  read_langident_lines (pre ++ line :: post) entries logged = Raise e.
Proof.
  intros Hpre He. induction pre as [|line' pre IH]; intros entries logged.
  - destruct line; simpl in *; congruence.
  - simpl in Hpre. apply andb_true_iff in Hpre as [Hline Hpre].
    destruct line' as [raw|raw|raw|contentitem]; try done. simpl.
    destruct (item_id contentitem); by apply IH.
Qed.

(** X5. The outcome of [read_langident].  When every line of the file
    is an object whose ["id"], if it has one, can be a dictionary key,
    it returns: the objects without ["id"] are logged, in order, and
    skipped, and the dictionary has an entry exactly for the ids that
    occur in the file.  Otherwise the first other line decides the
    exception, which is not caught: [JSONDecodeError] for a line that
    does not parse, [AttributeError] for a JSON value that is not an
    object, [TypeError] for an id that is an array or an object. *)
Theorem read_langident_skips_lines_without_id
    (lines : list (LangidentLine K V)) :
  (forallb langident_accepted lines = true ->
   exists entries logged,
     read_langident_lines lines ∅ [] = Ok (entries, logged) /\
     logged = List.filter langident_problem lines /\
     (forall k, is_Some (entries !! k) <->
        exists line lg, line ∈ lines /\ langident_entry line = Some (k, lg))) /\
  (forall pre line post e,
     lines = pre ++ line :: post ->
     forallb langident_accepted pre = true ->
     langident_error line = Some e ->
     read_langident_lines lines ∅ [] = Raise e).
Proof.
  split.
  - intros Hp. rewrite (read_langident_lines_accepted lines Hp).
    eexists _, _. split; [reflexivity|]. split; [done|].
    intros k. rewrite (right_id_L ∅ (∪)).
    rewrite <- elem_of_dom, dom_list_to_map_L, elem_of_list_to_set.
    rewrite list_elem_of_fmap. split.
    + intros ([k' lg] & -> & Hin). simpl.
      apply elem_of_reverse, list_elem_of_omap in Hin as (line & Hline & He).
      by exists line, lg.
    + intros (line & lg & Hline & He). exists (k, lg). split; [done|].
      apply elem_of_reverse, list_elem_of_omap. by exists line.
  - intros pre line post e -> Hpre He.
    by apply read_langident_lines_error.
Qed.

(** X6. In the language identification file the last line of an id
    decides its language: after a line with id [k], and lines behind it
    that are read without exception and have other ids, the dictionary
    maps [k] to the language of that line ([None] when it has no
    ["lg"]). *)
Theorem read_langident_last_line_wins (pre post : list (LangidentLine K V))
    (contentitem : LangidentObject K V) (k : K)
    (entries0 : gmap K (option V)) (logged0 : list (LangidentLine K V)) :
  forallb langident_accepted (pre ++ post) = true ->
  item_id contentitem = Some k ->
  (forall line lg, line ∈ post -> langident_entry line <> Some (k, lg)) ->
  exists entries logged,
    read_langident_lines (pre ++ LangidentJson contentitem :: post)
      entries0 logged0 = Ok (entries, logged) /\
    entries !! k = Some (item_lg contentitem).
Proof.
  intros Hp Hk Hpost.
  rewrite forallb_app in Hp. apply andb_true_iff in Hp as [Hpre Hpost'].
  rewrite read_langident_lines_accepted.
  2: { rewrite forallb_app. simpl. by rewrite Hpre, Hpost'. }
  eexists _, _. split; [reflexivity|].
  rewrite omap_app. csimpl. rewrite Hk. simpl.
  rewrite reverse_app, reverse_cons, <- app_assoc, list_to_map_app.
  rewrite <- (assoc_L (∪)). rewrite lookup_union_r.
  - simpl. apply lookup_union_Some_l, lookup_insert_eq.
  - apply not_elem_of_list_to_map. rewrite list_elem_of_fmap.
    intros ([k' lg] & E & Hin). simpl in E. subst k'.
    apply elem_of_reverse, list_elem_of_omap in Hin as (line & Hline & He).
    by apply (Hpost line lg).
Qed.

End LangidentFile.

Lemma read_langident_skips_lines_without_id_witness :
  (exists entries logged,
     read_langident_lines
       [LangidentJson {| item_id := Some "d1"%string;
                         item_lg := Some "en"%string |};
        LangidentJson {| item_id := None; item_lg := Some "fr"%string |}] ∅ []
     = Ok (entries, logged) /\
     logged =
       [LangidentJson {| item_id := None; item_lg := Some "fr"%string |}] /\
     is_Some (entries !! "d1"%string)) /\
  read_langident_lines
    [LangidentJson {| item_id := Some "d1"%string;
                      item_lg := Some "en"%string |};
     LangidentNotObject "[1, 2]";
     LangidentMalformed "{oops"] (∅ : gmap string (option string)) []
  = Raise AttributeError.
Proof.
  split.
  - destruct (proj1 (read_langident_skips_lines_without_id
                       [LangidentJson {| item_id := Some "d1"%string;
                                         item_lg := Some "en"%string |};
                        LangidentJson {| item_id := None;
                                         item_lg := Some "fr"%string |}])
                eq_refl)
      as (entries & logged & E & Hlogged & Hdom).
    exists entries, logged. split; [exact E|]. split; [exact Hlogged|].
    apply Hdom. eexists _, _. split; [apply list_elem_of_here|reflexivity].
  - apply (proj2 (read_langident_skips_lines_without_id
                    [LangidentJson {| item_id := Some "d1"%string;
                                      item_lg := Some "en"%string |};
                     LangidentNotObject "[1, 2]";
                     LangidentMalformed "{oops"])
             [LangidentJson {| item_id := Some "d1"%string;
                               item_lg := Some "en"%string |}]
             (LangidentNotObject "[1, 2]") [LangidentMalformed "{oops"]
             AttributeError); reflexivity.
Defined.

Lemma read_langident_last_line_wins_witness :
  exists entries logged,
    read_langident_lines
      ([LangidentJson {| item_id := Some "d1"%string; item_lg := Some "en"%string |}]
       ++ LangidentJson {| item_id := Some "d1"%string; item_lg := Some "fr"%string |}
       :: [LangidentJson {| item_id := Some "d2"%string; item_lg := None |}])
      ∅ [] = Ok (entries, logged) /\
    entries !! "d1"%string = Some (Some "fr"%string).
Proof.
  apply (read_langident_last_line_wins
           [LangidentJson {| item_id := Some "d1"%string;
                             item_lg := Some "en"%string |}]
           [LangidentJson {| item_id := Some "d2"%string; item_lg := None |}]
           {| item_id := Some "d1"%string; item_lg := Some "fr"%string |}
           "d1"%string ∅ []).
  - reflexivity.
  - reflexivity.
  - intros line lg Hin. apply list_elem_of_singleton in Hin as ->.
    simpl. intros H. discriminate H.
Defined.

(** ** The constructor *)

Lemma unks_of_bloomdicts (names : list string) (b : string) :
  (list_to_map (map (fun b => (b, ∅)) names) : gmap string (gmap string nat))
    !! b = if bool_decide (b ∈ names) then Some ∅ else None.
Proof.
  induction names as [|n names IH]; simpl.
  - by rewrite lookup_empty.
  - destruct (decide (n = b)) as [->|Hne].
    + rewrite lookup_insert_eq, bool_decide_eq_true_2; [done|].
      apply list_elem_of_here.
    + rewrite lookup_insert_ne, IH by done.
      destruct (decide (b ∈ names)) as [Hin|Hnin].
      * rewrite !bool_decide_eq_true_2; [done| |done].
        by apply list_elem_of_further.
      * rewrite !bool_decide_eq_false_2; [done| |done].
        intros [->|]%elem_of_cons; done.
Qed.

Lemma result_list_map_length {A B} (f : A -> result B) (l : list A) :
  forall ys, result_list_map f l = Ok ys -> length ys = length l.
Proof.
  induction l as [|x l IH]; intros ys H; simpl in H.
  - by injection H as <-.
  - destruct (f x) as [y|]; [|done]. simpl in H.
    destruct (result_list_map f l) as [ys'|]; [|done]. simpl in H.
    injection H as <-. simpl. by rewrite (IH ys').
Qed.

Lemma result_list_map_ok {A B} (f : A -> result B) (l : list A) :
  Forall (fun x => exists y, f x = Ok y) l ->
  exists ys, result_list_map f l = Ok ys.
Proof.
  induction 1 as [|x l [y Hy] _ [ys IH]]; simpl; [by eexists|].
  rewrite Hy, IH. by eexists.
Qed.

Lemma result_list_map_raise {A B} (f : A -> result B) (pre post : list A)
    (x : A) (e : exn) :
  Forall (fun x => exists y, f x = Ok y) pre ->
  f x = Raise e ->
  result_list_map f (pre ++ x :: post) = Raise e.
Proof.
  intros Hpre Hx. induction Hpre as [|x' pre [y Hy] _ IH]; simpl.
  - by rewrite Hx.
  - by rewrite Hy, IH.
Qed.

(** X8. A processor that [__init__] returns has one oracle and one
    oracle name per configured language and a minimum subtoken length
    of at least 1; its statistics start empty: no score, no language
    count, and one empty unknown-token counter per oracle name, which is
    what the calculators rely on. *)
Theorem init_establishes_invariants (ext : Externals) (opts : Options)
    (lid : option string) (p : Processor) (st : Stats) :
  OcrQABloomProcessor_init ext opts lid = Ok (p, st) ->
  options p = opts /\
  length (bloom_filters p) = length (languages opts) /\
  length (bloomdicts opts) = length (languages opts) /\
  (1 <= min_subtoken_length opts)%Z /\
  counters_ready p st /\
  ocrqa_stats st = [] /\
  lang_stats st = ∅ /\
  (forall b, unks st !! b = if bool_decide (b ∈ bloomdicts opts)
                            then Some ∅ else None).
Proof.
  unfold OcrQABloomProcessor_init. intros H.
  destruct (length (bloomdicts opts) =? length (languages opts))%nat eqn:Hlen;
    [|done].
  apply Nat.eqb_eq in Hlen. simpl negb in H. cbv iota in H.
  destruct (result_list_map _ _) as [filters|] eqn:Hload; [|done].
  apply result_list_map_length in Hload. simpl in H.
  destruct (match lid with Some _ => _ | None => _ end) as [data|]; [|done].
  simpl in H.
  destruct (min_subtoken_length opts <? 1)%Z eqn:Hmin; [done|].
  apply Z.ltb_ge in Hmin. injection H as <- <-. simpl.
  split; [done|]. split; [congruence|].
  split; [done|]. split; [done|]. split.
  - intros i Hi. simpl in Hi.
    destruct (lookup_lt_is_Some_2 (bloomdicts opts) i Hi) as [key Hkey].
    exists key. split; [done|]. simpl.
    rewrite unks_of_bloomdicts, bool_decide_eq_true_2; [eauto|].
    by eapply list_elem_of_lookup_2.
  - split; [done|]. split; [done|]. apply unks_of_bloomdicts.
Qed.

Lemma init_establishes_invariants_witness :
  options Fixture.processor = Fixture.opts /\
  length (bloom_filters Fixture.processor) = length (languages Fixture.opts) /\
  length (bloomdicts Fixture.opts) = length (languages Fixture.opts) /\
  (1 <= min_subtoken_length Fixture.opts)%Z /\
  counters_ready Fixture.processor Fixture.stats0 /\
  ocrqa_stats Fixture.stats0 = [] /\
  lang_stats Fixture.stats0 = ∅ /\
  (forall b, unks Fixture.stats0 !! b =
             if bool_decide (b ∈ bloomdicts Fixture.opts)
             then Some ∅ else None).
Proof.
  apply (init_establishes_invariants Fixture.ext Fixture.opts None).
  vm_compute. reflexivity.
Defined.

(** X9. [__init__] fails in the order of the source.  When the numbers
    of oracle names and of languages differ it raises [ValueError]
    whatever the loading of the oracles would do; otherwise the first
    oracle that fails to load decides the exception, then the reading
    of the language identification file, and only when all of them
    succeeded is a minimum subtoken length below 1 rejected with
    [ValueError]. *)
Theorem init_rejects (ext : Externals) (opts : Options) (lid : option string) :
  (length (bloomdicts opts) <> length (languages opts) ->
   OcrQABloomProcessor_init ext opts lid = Raise ValueError) /\
  (length (bloomdicts opts) = length (languages opts) ->
   (forall pre b post e,
      bloomdicts opts = pre ++ b :: post ->
      Forall (fun b' => exists bf, load_bloom_filter ext b' = Ok bf) pre ->
      load_bloom_filter ext b = Raise e ->
      OcrQABloomProcessor_init ext opts lid = Raise e) /\
   (Forall (fun b => exists bf, load_bloom_filter ext b = Ok bf)
      (bloomdicts opts) ->
    (forall path e,
       lid = Some path -> path <> EmptyString ->
       read_langident ext path = Raise e ->
       OcrQABloomProcessor_init ext opts lid = Raise e) /\
    ((forall path,
        lid = Some path -> path <> EmptyString ->
        exists data, read_langident ext path = Ok data) ->
     (min_subtoken_length opts < 1)%Z ->
     OcrQABloomProcessor_init ext opts lid = Raise ValueError))).
Proof.
  unfold OcrQABloomProcessor_init. split.
  { intros Hlen. apply Nat.eqb_neq in Hlen. by rewrite Hlen. }
  intros Hlen. apply Nat.eqb_eq in Hlen. rewrite Hlen. cbn [negb]. split.
  { intros pre b post e -> Hpre Hb.
    by rewrite (result_list_map_raise _ pre post b e Hpre Hb). }
  intros Hload. destruct (result_list_map_ok _ _ Hload) as [filters ->].
  cbn [result_bind]. split.
  - intros path e -> Hne Hread. unfold truthy.
    rewrite bool_decide_eq_false_2 by done. cbn [negb].
    by rewrite Hread.
  - intros Hread Hmin. apply Z.ltb_lt in Hmin.
    destruct lid as [path|]; [|by cbn; rewrite Hmin].
    unfold truthy. destruct (decide (path = EmptyString)) as [->|Hne].
    + rewrite bool_decide_eq_true_2 by done. cbn. by rewrite Hmin.
    + rewrite bool_decide_eq_false_2 by done. cbn [negb].
      destruct (Hread path eq_refl Hne) as [data ->]. cbn. by rewrite Hmin.
Qed.

Lemma init_rejects_witness :
  OcrQABloomProcessor_init Fixture.ext
    {| bloomdicts := ["hf://org/en.bloom"%string];
       languages := ["en"; "fr"]%string;
       methods := [slc]; keep_best := false; single_letter_cost := 7 # 10;
       single_symbol_cost := 3 # 10; min_subtokens := 10;
       min_subtoken_length := 1; unicode_normalization := None;
       verbose_output := false; opt_git_version := None |} None
  = Raise ValueError /\
  OcrQABloomProcessor_init Fixture.ext
    {| bloomdicts := ["en.bloom"; "hf://org/fr.bloom"]%string;
       languages := ["en"; "fr"]%string;
       methods := [slc]; keep_best := false; single_letter_cost := 7 # 10;
       single_symbol_cost := 3 # 10; min_subtokens := 10;
       min_subtoken_length := 0; unicode_normalization := None;
       verbose_output := false; opt_git_version := None |} None
  = Raise ValueError /\
  OcrQABloomProcessor_init Fixture.ext
    {| bloomdicts := ["en.bloom"%string]; languages := ["en"%string];
       methods := [slc]; keep_best := false; single_letter_cost := 7 # 10;
       single_symbol_cost := 3 # 10; min_subtokens := 10;
       min_subtoken_length := 0; unicode_normalization := None;
       verbose_output := false; opt_git_version := None |} None
  = Raise ValueError.
Proof.
  split; [|split].
  - apply (proj1 (init_rejects Fixture.ext _ None)). simpl. lia.
  - destruct (proj2 (init_rejects Fixture.ext
                       {| bloomdicts := ["en.bloom"; "hf://org/fr.bloom"]%string;
                          languages := ["en"; "fr"]%string;
                          methods := [slc]; keep_best := false;
                          single_letter_cost := 7 # 10;
                          single_symbol_cost := 3 # 10; min_subtokens := 10;
                          min_subtoken_length := 0;
                          unicode_normalization := None;
                          verbose_output := false;
                          opt_git_version := None |} None) eq_refl)
      as [Hload _].
    apply (Hload ["en.bloom"%string] "hf://org/fr.bloom"%string [] ValueError).
    + reflexivity.
    + constructor; [|constructor]. by eexists.
    + reflexivity.
  - destruct (proj2 (init_rejects Fixture.ext
                       {| bloomdicts := ["en.bloom"%string];
                          languages := ["en"%string];
                          methods := [slc]; keep_best := false;
                          single_letter_cost := 7 # 10;
                          single_symbol_cost := 3 # 10; min_subtokens := 10;
                          min_subtoken_length := 0;
                          unicode_normalization := None;
                          verbose_output := false;
                          opt_git_version := None |} None) eq_refl)
      as [_ Hrest].
    destruct Hrest as [_ Hmin].
    + constructor; [|constructor]. by eexists.
    + apply Hmin; [intros path H; discriminate H|simpl; lia].
Defined.

(** ** More on the three scores *)

Lemma compute_ocrqa_unk_ratio_value (l : list string) (bf : BloomFilter) :
  l <> [] ->
  compute_ocrqa_unk_ratio l bf =
  Ok (py_round (Qnat (length (List.filter bf l)) / Qnat (length l)) 2).
Proof.
  intros Hne. unfold compute_ocrqa_unk_ratio.
  destruct l as [|t l]; [done|].
  rewrite py_div_ok; [done|].
  assert (0 < Qnat (length (t :: l))) by (apply Qnat_pos; simpl; lia). lra.
Qed.

Lemma known_count_buckets (bf : BloomFilter) (l : list string) :
  length (List.filter bf l) = (count_IV bf l + count_SL bf l)%nat.
Proof.
  unfold count_IV, count_SL. induction l as [|t l IH]; [done|]. simpl.
  destruct (bf t), (is_privileged t); simpl; lia.
Qed.

Lemma ratio_le (a b c d : Q) :
  0 < b -> 0 < d -> a * d <= c * b -> a / b <= c / d.
Proof.
  intros Hb Hd H.
  apply Qle_shift_div_r; [done|].
  assert (E : c / d * b == c * b / d) by (field; lra).
  rewrite E. apply Qle_shift_div_l; done.
Qed.

(** X10. On every subtoken sequence the [slc] score is at most the
    [unk_ratio] score for the same oracle: the single-letter budget can
    only lower a score. *)
Theorem slc_at_most_unk_ratio (p : Processor) (st : Stats) (l : list string)
    (bf : BloomFilter) (i : nat) :
  unks_ready p st i ->
  exists v_slc st' v_unk,
    compute_ocrqa_slc p l bf i st = Ok (v_slc, st') /\
    compute_ocrqa_unk_ratio l bf = Ok v_unk /\
    v_slc <= v_unk.
Proof.
  intros Hready.
  destruct (compute_ocrqa_slc_ok p l bf i st Hready)
    as (v & st' & E & Hv & _).
  destruct (compute_ocrqa_unk_ratio_ok l bf) as (u & Eu & Hu & _).
  exists v, st', u. split; [done|]. split; [done|].
  set (cost := single_letter_cost (options p)) in *.
  destruct Hv as [[_ Hv]|[Hpos Hv]]; [lra|].
  destruct l as [|t l].
  { exfalso. revert Hpos. unfold slc_total, SL_budget, count_IV, count_SL,
      count_OOV. cbn [List.filter length]. change (Qnat 0) with 0. cbv zeta.
    assert (E0 : - 0 / 20 == 0) by reflexivity.
    match goal with
    | |- context [Qlt_bool ?x 0] => destruct (Qlt_bool x 0)
    end; intros Hpos; [lra|]. rewrite E0 in Hpos. lra. }
  rewrite compute_ocrqa_unk_ratio_value in Eu by done. injection Eu as <-.
  rewrite Hv. apply py_round_mono.
  pose proof (SL_budget_nonneg cost bf (t :: l)) as HB.
  pose proof (Qnat_nonneg (count_IV bf (t :: l))) as HIV.
  pose proof (Qnat_nonneg (count_SL bf (t :: l))) as HSL.
  pose proof (Qnat_nonneg (count_OOV bf (t :: l))) as HOOV.
  assert (Hlen : Qnat (length (t :: l)) ==
                 Qnat (count_IV bf (t :: l)) + Qnat (count_SL bf (t :: l))
                 + Qnat (count_OOV bf (t :: l))).
  { rewrite <- !Qnat_add. by rewrite count_buckets. }
  assert (Hknown : Qnat (length (List.filter bf (t :: l))) ==
                   Qnat (count_IV bf (t :: l)) + Qnat (count_SL bf (t :: l))).
  { rewrite <- Qnat_add. by rewrite known_count_buckets. }
  assert (Hlpos : 0 < Qnat (length (t :: l))) by (apply Qnat_pos; simpl; lia).
  apply ratio_le; [done|done|].
  unfold slc_total in *. rewrite Hknown, Hlen.
  set (B := SL_budget cost bf (t :: l)) in *.
  set (a := Qnat (count_IV bf (t :: l))) in *.
  set (c := Qnat (count_SL bf (t :: l))) in *.
  set (o := Qnat (count_OOV bf (t :: l))) in *.
  nra.
Qed.

Lemma slc_at_most_unk_ratio_witness :
  exists v_slc st' v_unk,
    compute_ocrqa_slc Fixture.processor ["the"; "a"; "e"; "xyz"]%string
      Fixture.en_bloom 0 Fixture.stats0 = Ok (v_slc, st') /\
    compute_ocrqa_unk_ratio ["the"; "a"; "e"; "xyz"]%string Fixture.en_bloom
    = Ok v_unk /\
    v_slc <= v_unk.
Proof.
  apply (slc_at_most_unk_ratio Fixture.processor Fixture.stats0
           ["the"; "a"; "e"; "xyz"]%string Fixture.en_bloom 0).
  exists "en.bloom"%string. split; [reflexivity|].
  exists ∅. vm_compute. reflexivity.
Defined.

Lemma round_half_even_error (q : Q) :
  - (1 # 2) <= inject_Z (round_half_even q) - q <= 1 # 2.
Proof.
  pose proof (Qfloor_le q) as Hlo. pose proof (Qlt_floor q) as Hhi.
  rewrite inject_Z_plus in Hhi. change (inject_Z 1) with 1 in Hhi.
  unfold round_half_even. set (f := Qfloor q) in *.
  destruct (Qcompare (q - inject_Z f) (1 # 2)) eqn:C.
  - apply Qeq_alt in C.
    destruct (Z.even f); rewrite ?inject_Z_plus; change (inject_Z 1) with 1;
      split; lra.
  - apply Qlt_alt in C. split; lra.
  - apply Qgt_alt in C. rewrite inject_Z_plus. change (inject_Z 1) with 1.
    split; lra.
Qed.

Lemma py_round_error (q : Q) :
  - (1 # 200) <= py_round q 2 - q <= 1 # 200.
Proof.
  unfold py_round. change (inject_Z (10 ^ Z.of_nat 2)) with (inject_Z 100).
  pose proof (round_half_even_error (q * inject_Z 100)) as [H1 H2].
  set (z := inject_Z (round_half_even (q * inject_Z 100))) in *.
  change (inject_Z 100) with (100 # 1) in *.
  assert (E : z / (100 # 1) == z * (1 # 100)) by reflexivity.
  rewrite E. split; lra.
Qed.

Lemma py_round_hundredths (q : Q) :
  0 <= q <= 1 ->
  exists z, (0 <= z <= 100)%Z /\ py_round q 2 = inject_Z z / inject_Z 100.
Proof.
  intros Hq. exists (round_half_even (q * inject_Z 100)). split; [|done].
  pose proof (round_half_even_mono 0 (q * inject_Z 100)) as Hlo.
  pose proof (round_half_even_mono (q * inject_Z 100) (inject_Z 100)) as Hhi.
  change (round_half_even 0) with (round_half_even (inject_Z 0)) in Hlo.
  rewrite (round_half_even_Z 0) in Hlo. rewrite round_half_even_Z in Hhi.
  change (inject_Z 100) with (100 # 1) in *.
  split; [apply Hlo|apply Hhi]; lra.
Qed.

Lemma compute_ocrqa_unk_type_ratio_value (l : list string) (bf : BloomFilter) :
  l <> [] ->
  compute_ocrqa_unk_type_ratio l bf =
  Ok (py_round (Qnat (length (List.filter bf (subtoken_types l)))
                / Qnat (length (subtoken_types l))) 2) /\
  (0 < length (subtoken_types l))%nat.
Proof.
  intros Hne. unfold compute_ocrqa_unk_type_ratio, subtoken_types.
  set (X := list_to_set l : gset string).
  assert (HX : X <> ∅).
  { destruct l as [|t l]; [done|]. subst X. simpl. set_solver. }
  destruct (decide (X = ∅)) as [|_]; [done|].
  assert (Hsize : (0 < size X)%nat).
  { destruct (decide (size X = 0%nat)) as [Z|]; [|lia].
    apply size_empty_iff in Z. exfalso. apply HX. by apply leibniz_equiv. }
  split; [|done].
  rewrite py_div_ok; [done|].
  assert (0 < Qnat (size X)) by (by apply Qnat_pos). lra.
Qed.

Lemma subtoken_types_spec (l : list string) :
  NoDup (subtoken_types l) /\ forall t, t ∈ subtoken_types l <-> t ∈ l.
Proof.
  unfold subtoken_types. split; [apply NoDup_elements|].
  intros t. by rewrite elem_of_elements, elem_of_list_to_set.
Qed.

(** X11. [unk_ratio] and [unk_type_ratio] are the share of known
    subtokens, respectively of known subtoken types (the subtokens
    without repetition), rounded to two decimals: a number of
    hundredths between 0 and 100 that is at most 0.005 away from the
    exact share. *)
Theorem ratio_scores_rounded_shares (l : list string) (bf : BloomFilter) :
  l <> [] ->
  (exists v z,
     compute_ocrqa_unk_ratio l bf = Ok v /\
     (0 <= z <= 100)%Z /\ v = inject_Z z / inject_Z 100 /\
     - (1 # 200)
       <= v - Qnat (length (List.filter bf l)) / Qnat (length l)
       <= 1 # 200) /\
  (exists v z,
     compute_ocrqa_unk_type_ratio l bf = Ok v /\
     (0 <= z <= 100)%Z /\ v = inject_Z z / inject_Z 100 /\
     - (1 # 200)
       <= v - Qnat (length (List.filter bf (subtoken_types l)))
              / Qnat (length (subtoken_types l))
       <= 1 # 200) /\
  NoDup (subtoken_types l) /\
  (forall t, t ∈ subtoken_types l <-> t ∈ l).
Proof.
  intros Hne. split; [|split; [|apply subtoken_types_spec]].
  - rewrite compute_ocrqa_unk_ratio_value by done.
    destruct (py_round_hundredths
                (Qnat (length (List.filter bf l)) / Qnat (length l)))
      as (z & Hz & E).
    { apply div_unit_interval; [apply Qnat_nonneg| |].
      - apply Qnat_le, filter_length_le.
      - apply Qnat_pos. destruct l; [done|simpl; lia]. }
    eexists _, z. split; [done|]. split; [done|]. split; [done|].
    apply py_round_error.
  - destruct (compute_ocrqa_unk_type_ratio_value l bf Hne) as [-> Hpos].
    destruct (py_round_hundredths
                (Qnat (length (List.filter bf (subtoken_types l)))
                 / Qnat (length (subtoken_types l))))
      as (z & Hz & E).
    { apply div_unit_interval; [apply Qnat_nonneg| |].
      - apply Qnat_le, filter_length_le.
      - by apply Qnat_pos. }
    eexists _, z. split; [done|]. split; [done|]. split; [done|].
    apply py_round_error.
Qed.

Lemma ratio_scores_rounded_shares_witness :
  exists v z,
    compute_ocrqa_unk_ratio ["foo"; "foo"; "bar"]%string
      (fun s => bool_decide (s = "foo"%string)) = Ok v /\
    (0 <= z <= 100)%Z /\ v = inject_Z z / inject_Z 100 /\
    - (1 # 200)
      <= v - Qnat (length (List.filter (fun s => bool_decide (s = "foo"%string))
                             ["foo"; "foo"; "bar"]%string))
             / Qnat (length ["foo"; "foo"; "bar"]%string)
      <= 1 # 200.
Proof.
  destruct (ratio_scores_rounded_shares ["foo"; "foo"; "bar"]%string
              (fun s => bool_decide (s = "foo"%string))) as (H & _).
  - discriminate.
  - exact H.
Defined.

Lemma filter_all {A} (f : A -> bool) (l : list A) :
  Forall (fun x => f x = true) l -> List.filter f l = l.
Proof.
  induction 1 as [|x l Hx _ IH]; [done|]. simpl. by rewrite Hx, IH.
Qed.

Lemma py_round_one_ratio (n : nat) : (0 < n)%nat -> py_round (Qnat n / Qnat n) 2 == 1.
Proof.
  intros Hn. pose proof (Qnat_pos n Hn).
  rewrite (py_round_comp _ 1); [apply (py_round_Z 1)|]. field. lra.
Qed.

(** X12. A non-empty sequence all of whose subtokens the oracle knows
    scores 1.0 with [unk_ratio] and [unk_type_ratio]; it scores 1.0 with
    [slc] as well when none of them is a single character outside the
    privileged set. *)
Theorem full_score_when_all_known (p : Processor) (st : Stats)
    (l : list string) (bf : BloomFilter) (i : nat) :
  l <> [] ->
  Forall (fun t => bf t = true) l ->
  (exists v, compute_ocrqa_unk_ratio l bf = Ok v /\ v == 1) /\
  (exists v, compute_ocrqa_unk_type_ratio l bf = Ok v /\ v == 1) /\
  (unks_ready p st i ->
   Forall (fun t => is_privileged t = true) l ->
   exists v st', compute_ocrqa_slc p l bf i st = Ok (v, st') /\ v == 1).
Proof.
  intros Hne Hknown. split; [|split].
  - rewrite compute_ocrqa_unk_ratio_value, filter_all by done.
    eexists. split; [done|]. apply py_round_one_ratio.
    destruct l; [done|simpl; lia].
  - destruct (compute_ocrqa_unk_type_ratio_value l bf Hne) as [-> Hpos].
    rewrite filter_all.
    + eexists. split; [done|]. by apply py_round_one_ratio.
    + apply Forall_forall. intros t Ht.
      apply (proj2 (subtoken_types_spec l)) in Ht.
      by eapply Forall_forall in Hknown.
  - intros Hready Hpriv.
    destruct (compute_ocrqa_slc_ok p l bf i st Hready)
      as (v & st' & E & Hv & _).
    exists v, st'. split; [done|].
    set (cost := single_letter_cost (options p)) in *.
    assert (HIV : count_IV bf l = length l).
    { unfold count_IV. rewrite filter_all; [done|].
      apply Forall_forall. intros t Ht.
      eapply Forall_forall in Hknown, Hpriv; [|exact Ht..].
      by rewrite Hknown, Hpriv. }
    assert (HSL : count_SL bf l = 0%nat).
    { unfold count_SL. rewrite filter_none; [done|].
      apply Forall_forall. intros t Ht.
      eapply Forall_forall in Hpriv; [|exact Ht]. rewrite Hpriv.
      apply andb_false_r. }
    assert (HOOV : count_OOV bf l = 0%nat).
    { unfold count_OOV. rewrite filter_none; [done|].
      apply Forall_forall. intros t Ht.
      eapply Forall_forall in Hknown; [|exact Ht]. by rewrite Hknown. }
    assert (Hlen : (0 < length l)%nat) by (destruct l; [done|simpl; lia]).
    pose proof (Qnat_pos _ Hlen) as Hpos.
    assert (Htot : slc_total cost bf l == Qnat (length l)).
    { unfold slc_total, SL_budget. rewrite HIV, HSL, HOOV.
      change (Qnat 0) with 0. pose proof (div20 (- Qnat (length l))) as D.
      destruct (Qlt_bool (- Qnat (length l) / 20 + 0 * cost) 0) eqn:Hlt;
        [lra|]. apply Qlt_bool_false in Hlt. lra. }
    destruct Hv as [[Hz _]|[_ Hv]]; [lra|].
    rewrite Hv, HIV, (py_round_comp _ 1); [apply (py_round_Z 1)|].
    rewrite Htot. field. lra.
Qed.

Lemma full_score_when_all_known_witness :
  exists v st',
    compute_ocrqa_slc Fixture.processor ["the"; "cat"]%string Fixture.en_bloom
      0 Fixture.stats0 = Ok (v, st') /\ v == 1.
Proof.
  destruct (full_score_when_all_known Fixture.processor Fixture.stats0
              ["the"; "cat"]%string Fixture.en_bloom 0) as (_ & _ & H).
  - discriminate.
  - repeat constructor.
  - apply H.
    + exists "en.bloom"%string. split; [reflexivity|].
      exists ∅. vm_compute. reflexivity.
    + repeat constructor.
Defined.

Lemma filter_length_Permutation {A} (f : A -> bool) (l l' : list A) :
  l ≡ₚ l' -> length (List.filter f l) = length (List.filter f l').
Proof.
  induction 1 as [|x l l' _ IH|x y l|l l' l'' _ IH1 _ IH2]; simpl.
  - done.
  - destruct (f x); simpl; by rewrite IH.
  - by destruct (f x), (f y).
  - by rewrite IH1.
Qed.

(** X13. The two ratio scores do not depend on the order of the
    subtokens: [unk_ratio] is the same for two sequences with the same
    subtokens in another order, and [unk_type_ratio] is the same for any
    two sequences with the same set of subtokens, however often each is
    repeated. *)
Theorem scores_ignore_order (l l' : list string) (bf : BloomFilter) :
  (l ≡ₚ l' -> compute_ocrqa_unk_ratio l bf = compute_ocrqa_unk_ratio l' bf) /\
  ((forall t, t ∈ l <-> t ∈ l') ->
   compute_ocrqa_unk_type_ratio l bf = compute_ocrqa_unk_type_ratio l' bf).
Proof.
  split.
  - intros Hperm. unfold compute_ocrqa_unk_ratio.
    rewrite (filter_length_Permutation bf _ _ Hperm),
      (Permutation_length Hperm).
    destruct l as [|t l], l' as [|t' l']; try done.
    + by apply Permutation_nil_cons in Hperm.
    + symmetry in Hperm. by apply Permutation_nil_cons in Hperm.
  - intros Hset. unfold compute_ocrqa_unk_type_ratio.
    assert (E : (list_to_set l : gset string) = list_to_set l').
    { apply set_eq. intros t. rewrite !elem_of_list_to_set. apply Hset. }
    by rewrite E.
Qed.

Lemma scores_ignore_order_witness :
  compute_ocrqa_unk_ratio ["the"; "foo"; "cat"]%string Fixture.en_bloom =
  compute_ocrqa_unk_ratio ["foo"; "cat"; "the"]%string Fixture.en_bloom /\
  compute_ocrqa_unk_type_ratio ["foo"; "foo"; "bar"]%string Fixture.en_bloom =
  compute_ocrqa_unk_type_ratio ["bar"; "foo"]%string Fixture.en_bloom.
Proof.
  split.
  - apply (proj1 (scores_ignore_order ["the"; "foo"; "cat"]%string
                    ["foo"; "cat"; "the"]%string Fixture.en_bloom)).
    change (["the"; "foo"; "cat"]%string ≡ₚ
            ["foo"; "cat"]%string ++ ["the"]%string).
    apply Permutation_cons_append.
  - apply (proj2 (scores_ignore_order ["foo"; "foo"; "bar"]%string
                    ["bar"; "foo"]%string Fixture.en_bloom)).
    intros t. rewrite !elem_of_cons, !elem_of_nil. tauto.
Defined.

(** ** Unknown subtokens *)

Lemma counted_incr (c : gmap string nat) (k t : string) :
  counted (counter_incr k c) t =
  (counted c t + if bool_decide (k = t) then 1 else 0)%nat.
Proof.
  unfold counted, counter_incr.
  destruct (decide (k = t)) as [->|Hne].
  - rewrite lookup_insert_eq, bool_decide_eq_true_2 by done. simpl. lia.
  - rewrite lookup_insert_ne, bool_decide_eq_false_2 by done. lia.
Qed.

Lemma slc_loop_unks (p : Processor) (bf : BloomFilter) (i : nat) (key : string)
    (l : list string) :
  bloomdicts (options p) !! i = Some key ->
  forall counter st c,
  unks st !! key = Some c ->
  exists counter' st' c',
    slc_loop p bf i l counter st = Ok (counter', st') /\
    unks st' !! key = Some c' /\
    (forall t, counted c' t =
       (counted c t + if bf t then 0 else occurrences t l)%nat) /\
    (forall k, k <> key -> unks st' !! k = unks st !! k).
Proof.
  intros Hkey. unfold occurrences.
  induction l as [|u l IH]; intros counter st c Hc.
  - exists counter, st, c. simpl. repeat split; try done.
    intros t. destruct (bf t); lia.
  - simpl. destruct (bf u) eqn:Hu.
    + destruct (_ || _);
        (edestruct IH as (counter' & st' & c' & -> & Hc' & Hcount & Hother);
         [exact Hc|]);
        exists counter', st', c'; (split; [done|]); (split; [done|]);
        (split; [|done]); intros t; rewrite Hcount;
        destruct (bf t) eqn:Ht; [done| |done|];
        (rewrite bool_decide_eq_false_2; [done|]; intros ->; congruence).
    + rewrite Hkey. unfold bind, unks_incr. rewrite Hc.
      edestruct (IH {| SL := SL counter; IV := IV counter;
                       OOV := OOV counter + 1 |}
                   {| ocrqa_stats := ocrqa_stats st;
                      unks := <[key := counter_incr u c]> (unks st);
                      lang_stats := lang_stats st |} (counter_incr u c))
        as (counter' & st' & c' & -> & Hc' & Hcount & Hother).
      { simpl. apply lookup_insert_eq. }
      exists counter', st', c'. split; [done|]. split; [done|]. split.
      * intros t. rewrite Hcount, counted_incr.
        destruct (bf t) eqn:Ht.
        -- rewrite bool_decide_eq_false_2; [lia|]. intros ->. congruence.
        -- destruct (bool_decide (u = t)); simpl; lia.
      * intros k Hk. rewrite (Hother k Hk). simpl.
        by rewrite lookup_insert_ne.
Qed.

(** X14. [compute_ocrqa_slc] counts every occurrence of a subtoken
    that the oracle does not know in the unknown-token counter of the
    oracle's name, and nothing else: the counts of known subtokens and
    the counters of the other oracle names are left as they were. *)
Theorem slc_counts_unknown_subtokens (p : Processor) (st : Stats)
    (l : list string) (bf : BloomFilter) (i : nat) (key : string)
    (c : gmap string nat) :
  bloomdicts (options p) !! i = Some key ->
  unks st !! key = Some c ->
  exists v st' c',
    compute_ocrqa_slc p l bf i st = Ok (v, st') /\
    unks st' !! key = Some c' /\
    (forall t, counted c' t =
       (counted c t + if bf t then 0 else occurrences t l)%nat) /\
    (forall k, k <> key -> unks st' !! k = unks st !! k).
Proof.
  intros Hkey Hc.
  destruct (slc_loop_unks p bf i key l Hkey
              {| SL := - Qnat (length l) / 20; IV := 0; OOV := 0 |} st c Hc)
    as (counter' & st' & c' & E & Hc' & Hcount & Hother).
  destruct (compute_ocrqa_slc_ok p l bf i st) as (v & st2 & E2 & _).
  { exists key. split; [done|]. by rewrite Hc. }
  exists v, st2, c'. split; [done|].
  assert (Est : st2 = st').
  { unfold compute_ocrqa_slc, bind in E2. rewrite E in E2.
    destruct (Qeq_bool _ 0); [by injection E2 as _ <-|].
    unfold lift in E2. destruct (py_div _ _); [|done]. by injection E2 as _ <-. }
  by rewrite Est.
Qed.

Lemma slc_counts_unknown_subtokens_witness :
  exists v st' c',
    compute_ocrqa_slc Fixture.processor ["xyz"; "the"; "xyz"]%string
      Fixture.en_bloom 0 Fixture.stats0 = Ok (v, st') /\
    unks st' !! "en.bloom"%string = Some c' /\
    (forall t, counted c' t =
       (counted ∅ t + if Fixture.en_bloom t then 0
                      else occurrences t ["xyz"; "the"; "xyz"]%string)%nat) /\
    (forall k, k <> "en.bloom"%string ->
       unks st' !! k = unks Fixture.stats0 !! k).
Proof.
  apply (slc_counts_unknown_subtokens Fixture.processor Fixture.stats0
           ["xyz"; "the"; "xyz"]%string Fixture.en_bloom 0 "en.bloom"%string ∅).
  - reflexivity.
  - vm_compute. reflexivity.
Defined.

Lemma counted_foldl (l : list string) (t : string) :
  forall c0,
  counted (foldl (fun c k => counter_incr k c) c0 l) t =
  (counted c0 t + occurrences t l)%nat.
Proof.
  unfold occurrences.
  induction l as [|u l IH]; intros c0; simpl; [lia|].
  rewrite IH, counted_incr. destruct (bool_decide (u = t)); simpl; lia.
Qed.

Lemma occurrences_filter (f : string -> bool) (t : string) (l : list string) :
  occurrences t (List.filter f l) = if f t then occurrences t l else 0%nat.
Proof.
  unfold occurrences. induction l as [|u l IH]; simpl; [by destruct (f t)|].
  destruct (f u) eqn:Hu; simpl.
  - destruct (decide (u = t)) as [->|Hne].
    + rewrite bool_decide_eq_true_2 by done. rewrite Hu in *. simpl. by rewrite IH.
    + rewrite bool_decide_eq_false_2 by done. done.
  - destruct (decide (u = t)) as [->|Hne].
    + rewrite Hu in *. done.
    + rewrite bool_decide_eq_false_2 by done. done.
Qed.

Lemma Counter_unknown (bf : BloomFilter) (l : list string) (t : string) :
  counted (Counter (List.filter (fun subtok => negb (bf subtok)) l)) t =
  if bf t then 0%nat else occurrences t l.
Proof.
  unfold Counter. rewrite counted_foldl, occurrences_filter.
  unfold counted. rewrite lookup_empty. simpl. by destruct (bf t).
Qed.

Lemma compute_results_builds_record (p : Processor) (info : SubtoksInfo)
    (l : list string) (bf : BloomFilter) (lang : string) (idx : nat)
    (kbm : option Method) (bv : Q) (bi : Z) (results : list ScoreRecord)
    (st : Stats) (m0 : Method) (ms : list Method) (key : string) :
  methods (options p) = m0 :: ms ->
  bloomdicts (options p) !! idx = Some key ->
  is_Some (unks st !! key) ->
  exists r bv' bi' st',
    compute_results p info l bf lang idx kbm bv bi results st
    = Ok ((r, bv', bi'), st') /\
    ci_id r = info_id info /\ lg r = lang /\ bloom r = key /\
    rec_subtokens r = length l /\
    compute_subtoken_char_ratio l (char_length info)
    = Ok (subtoken_char_ratio r) /\
    (forall m, is_Some (method_score m r) <-> m ∈ methods (options p)) /\
    ocrqa r = method_score m0 r /\
    (forall v, ocrqa_slc r = Some v ->
       exists st2, compute_ocrqa_slc p l bf idx st = Ok (v, st2)) /\
    (forall v, ocrqa_unk_ratio r = Some v ->
       compute_ocrqa_unk_ratio l bf = Ok v) /\
    (forall v, ocrqa_unk_type_ratio r = Some v ->
       compute_ocrqa_unk_type_ratio l bf = Ok v) /\
    match unk_freq r with
    | Some c =>
        verbose_output (options p) = true /\
        forall t, counted c t = if bf t then 0%nat else occurrences t l
    | None => verbose_output (options p) = false
    end.
Proof.
  intros Hm Hkey Hsome.
  assert (Hready : unks_ready p st idx) by (exists key; done).
  unfold compute_results, bind, lift, list_get. rewrite Hkey, Hm.
  destruct (compute_subtoken_char_ratio_ok l (char_length info)) as [ratio ->].
  destruct (compute_ocrqa_slc_ok p l bf idx st Hready)
    as (v1 & st1 & E1 & _).
  destruct (compute_ocrqa_unk_ratio_ok l bf) as (v2 & E2 & _).
  destruct (compute_ocrqa_unk_type_ratio_ok l bf) as (v3 & E3 & _).
  assert (Hin : m0 ∈ m0 :: ms) by apply list_elem_of_here.
  pose proof (Counter_unknown bf l) as HC.
  destruct (bool_decide (slc ∈ m0 :: ms)) eqn:M1;
  destruct (bool_decide (unk_ratio ∈ m0 :: ms)) eqn:M2;
  destruct (bool_decide (unk_type_ratio ∈ m0 :: ms)) eqn:M3;
  try apply bool_decide_eq_false in M1;
  try apply bool_decide_eq_false in M2;
  try apply bool_decide_eq_false in M3;
  try apply bool_decide_eq_true in M1;
  try apply bool_decide_eq_true in M2;
  try apply bool_decide_eq_true in M3;
  destruct m0; try contradiction;
  repeat (cbv beta iota; unfold ret, modify, raise;
          rewrite ?E1, ?E2, ?E3);
  destruct (verbose_output (options p)); simpl;
  (eexists _, _, _, _; split; [reflexivity|]; simpl;
   repeat match goal with
   | |- _ /\ _ => split
   | |- forall m : Method, _ => intros [| |]; simpl
   | |- _ <-> _ => split; intros ?
   | |- forall v : Q, _ = Some v -> _ => intros ? [= <-]
   | |- forall v : Q, None = Some v -> _ => intros ? [=]
   end; eauto; try done; try (by apply is_Some_None in H)).
Qed.

(** X15. The record that [compute_results] builds for a language trial
    names the document, the language and the oracle of the trial and
    the number of subtokens; it has one score field per configured
    method and no other, each holding what the calculator of the method
    returns, and [ocrqa] is the score of the first configured method.
    [unk_freq] is present in verbose mode only, and counts for every
    subtoken that the oracle does not know its occurrences. *)
Theorem compute_results_record (p : Processor) (info : SubtoksInfo)
    (l : list string) (bf : BloomFilter) (lang : string) (idx : nat)
    (kbm : option Method) (bv : Q) (bi : Z) (results : list ScoreRecord)
    (st : Stats) (m0 : Method) (ms : list Method) (key : string) :
  methods (options p) = m0 :: ms ->
  bloomdicts (options p) !! idx = Some key ->
  is_Some (unks st !! key) ->
  exists r bv' bi' st',
    compute_results p info l bf lang idx kbm bv bi results st
    = Ok ((r, bv', bi'), st') /\
    ci_id r = info_id info /\ lg r = lang /\ bloom r = key /\
    rec_subtokens r = length l /\
    compute_subtoken_char_ratio l (char_length info)
    = Ok (subtoken_char_ratio r) /\
    (forall m, is_Some (method_score m r) <-> m ∈ methods (options p)) /\
    ocrqa r = method_score m0 r /\
    (forall v, ocrqa_slc r = Some v ->
       exists st2, compute_ocrqa_slc p l bf idx st = Ok (v, st2)) /\
    (forall v, ocrqa_unk_ratio r = Some v ->
       compute_ocrqa_unk_ratio l bf = Ok v) /\
    (forall v, ocrqa_unk_type_ratio r = Some v ->
       compute_ocrqa_unk_type_ratio l bf = Ok v) /\
    match unk_freq r with
    | Some c =>
        verbose_output (options p) = true /\
        forall t, counted c t = if bf t then 0%nat else occurrences t l
    | None => verbose_output (options p) = false
    end.
Proof.
  intros Hm Hkey Hsome.
  exact (compute_results_builds_record p info l bf lang idx kbm bv bi results
           st m0 ms key Hm Hkey Hsome).
Qed.

Lemma compute_results_record_witness :
  exists r bv' bi' st',
    compute_results Fixture.processor
      {| info_id := Some "d1"%string;
         info_subtokens := ["the"; "cat"; "sat"; "xyz"]%string;
         char_length := 15 |}
      ["the"; "cat"; "sat"; "xyz"]%string Fixture.en_bloom "en" 0 None
      (- (1)) (-1) [] Fixture.stats0
    = Ok ((r, bv', bi'), st') /\
    ci_id r = Some "d1"%string /\ lg r = "en"%string /\
    bloom r = "en.bloom"%string /\ rec_subtokens r = 4%nat.
Proof.
  destruct (compute_results_record Fixture.processor
              {| info_id := Some "d1"%string;
                 info_subtokens := ["the"; "cat"; "sat"; "xyz"]%string;
                 char_length := 15 |}
              ["the"; "cat"; "sat"; "xyz"]%string Fixture.en_bloom "en" 0 None
              (- (1)) (-1) [] Fixture.stats0 slc [] "en.bloom")
    as (r & bv' & bi' & st' & E & H1 & H2 & H3 & H4 & _).
  - reflexivity.
  - reflexivity.
  - exists ∅. vm_compute. reflexivity.
  - exists r, bv', bi', st'. by repeat split.
Defined.

(** ** The subtoken-to-character ratio *)




(** ** The records of a document *)

Section Records.

Variable ext : Externals.
Variable p : Processor.
Variable obj : JsonObject.
Variables (m0 : Method) (ms : list Method).

Hypothesis first_method : methods (options p) = m0 :: ms.
Hypothesis one_name_per_language :
  length (bloomdicts (options p)) = length (languages (options p)).

Lemma compute_results_trial_record (info : SubtoksInfo) (bf : BloomFilter)
    (lang : string) (idx : nat) (kbm : option Method) (bv : Q) (bi : Z)
    (results : list ScoreRecord) (st st' : Stats) (r : ScoreRecord)
    (bv' : Q) (bi' : Z) :
  kbm = None \/ kbm = Some m0 ->
  languages (options p) !! idx = Some lang ->
  get_subtokens ext p (Json obj) (Some lang) = Ok info ->
  (min_subtokens (options p) <= Z.of_nat (length (info_subtokens info)))%Z ->
  counters_ready p st ->
  compute_results p info (info_subtokens info) bf lang idx kbm bv bi results st
  = Ok ((r, bv', bi'), st') ->
  trial_record ext p obj r /\ counters_ready p st' /\
  lang_stats st' = lang_stats st.
Proof.
  intros Hkbm Hlang Hinfo Hmin Hready E.
  apply lookup_lt_Some in Hlang as Hlt.
  destruct (Hready idx) as (key & Hkey & Hsome); [lia|].
  destruct (compute_results_builds_record p info (info_subtokens info) bf lang idx kbm
              bv bi results st m0 ms key first_method Hkey Hsome)
    as (r1 & bv1 & bi1 & st1 & E1 & Hid & Hlg & Hbloom & Hn & _ & Hms & Hocrqa
        & _).
  rewrite E in E1. injection E1 as <- <- <- <-.
  assert (Hr : unks_ready p st idx) by (by exists key).
  destruct (compute_results_ok p info (info_subtokens info) bf lang idx kbm
              bv bi results st m0 ms first_method Hr Hkbm)
    as (r2 & s2 & bv2 & bi2 & st2 & E2 & _ & _ & _ & _ & Hls & Hkept).
  rewrite E in E2. injection E2 as <- <- <- <-.
  split; [|split; [by apply (counters_ready_kept p st)|done]].
  split.
  { rewrite Hid. destruct (get_subtokens_json ext p obj (Some lang))
      as (info' & E' & Hid'). rewrite Hinfo in E'. by injection E' as <-. }
  split; [|split; [done|by exists m0, ms]].
  exists idx, info. rewrite Hlg, Hbloom, Hn. by repeat split.
Qed.

Lemma process_languages_records (kbm : option Method)
    (filters : list BloomFilter) :
  kbm = None \/ kbm = Some m0 ->
  forall idx results bv bi st results' bv' bi' st',
  (idx + length filters = length (languages (options p)))%nat ->
  counters_ready p st ->
  Forall (trial_record ext p obj) results ->
  process_languages ext p (Json obj) kbm idx filters results bv bi st
  = Ok ((results', bv', bi'), st') ->
  Forall (trial_record ext p obj) results'.
Proof.
  intros Hkbm.
  induction filters as [|bf filters IH];
    intros idx results bv bi st results' bv' bi' st' Hlen Hready Hall H.
  - simpl in H. by injection H as <- _ _ _.
  - simpl in H, Hlen. unfold bind in H.
    destruct (lift (list_get (languages (options p)) idx) st)
      as [[lang st1]|] eqn:E1; [|done].
    apply lift_inv in E1 as [E1 ->].
    unfold list_get in E1.
    destruct (languages (options p) !! idx) as [lang'|] eqn:Hlang; [|done].
    injection E1 as ->.
    destruct (lift (get_subtokens ext p (Json obj) (Some lang)) st)
      as [[info st1]|] eqn:E2; [|done].
    apply lift_inv in E2 as [E2 ->].
    destruct (_ <? _)%Z eqn:Hmin.
    { eapply (IH (S idx)); [lia|exact Hready|exact Hall|exact H]. }
    apply Z.ltb_ge in Hmin.
    destruct (compute_results p info _ bf lang idx kbm bv bi results st)
      as [[[[r bv1] bi1] st1]|] eqn:E3; [|done].
    destruct (compute_results_trial_record info bf lang idx kbm bv bi results
                st st1 r bv1 bi1 Hkbm Hlang E2 Hmin Hready E3)
      as (Hr & Hready1 & _).
    unfold modify in H.
    eapply (IH (S idx)); [lia| | |exact H].
    + intros i Hi. destruct (Hready1 i Hi) as (key & Hkey & Hsome).
      by exists key.
    + apply Forall_app. split; [done|]. by constructor.
Qed.

Hypothesis one_oracle_per_language :
  length (bloom_filters p) = length (languages (options p)).

Lemma keep_best_method_of_first :
  exists kbm, keep_best_method_of p = Ok kbm /\ (kbm = None \/ kbm = Some m0).
Proof.
  unfold keep_best_method_of. rewrite first_method.
  destruct (best_selection p); simpl; eauto.
Qed.

Lemma process_line_candidates_records (st st1 : Stats) (flow : Flow) :
  counters_ready p st ->
  process_line_candidates ext p (Json obj) st = Ok (flow, st1) ->
  Forall (trial_record ext p obj) (candidates_of flow).
Proof.
  intros Hready H.
  destruct keep_best_method_of_first as (kbm & Ekbm & Hkbm).
  assert (Hloop : forall flow st1,
    (do '(results, bv, bi) <-
       process_languages ext p (Json obj) kbm 0 (bloom_filters p) []
         (- (1)) (-1);
     ret (Fallthrough results bv bi)) st = Ok (flow, st1) ->
    Forall (trial_record ext p obj) (candidates_of flow)).
  { intros flow' st' Hk. unfold bind in Hk.
    destruct (process_languages ext p (Json obj) kbm 0 (bloom_filters p) []
                (- (1)) (-1) st) as [[[[results bv] bi] st2]|] eqn:E; [|done].
    unfold ret in Hk. injection Hk as <- _. simpl.
    eapply (process_languages_records kbm (bloom_filters p) Hkbm 0 []);
      [by rewrite one_oracle_per_language|exact Hready|constructor|exact E]. }
  unfold process_line_candidates in H. unfold bind at 1 2 in H.
  simpl json_loads in H. unfold lift at 1 in H. rewrite Ekbm in H.
  unfold lift at 1 in H. cbv beta iota in H.
  destruct (match lang_ident_data p with Some _ => _ | None => _ end)
    as [lang|]; [|by apply (Hloop flow st1)].
  destruct (truthy (Some lang)); [|by apply (Hloop flow st1)]. clear Hloop.
  destruct (bool_decide (lang ∈ languages (options p))) eqn:Hin;
    cbn [negb] in H; cbv beta iota in H.
  2: { unfold bind, modify, ret in H. injection H as <- _. constructor. }
  apply bool_decide_eq_true in Hin. unfold bind in H.
  destruct (lift (get_subtokens ext p (Json obj) (Some lang)) st)
    as [[info st2]|] eqn:E3; [|done].
  apply lift_inv in E3 as [E3 ->].
  destruct (_ <? _)%Z eqn:Hmin.
  { unfold ret in H. injection H as <- _. constructor. }
  apply Z.ltb_ge in Hmin.
  destruct (index_of_ok lang _ Hin) as (idx & Eidx & Hidx).
  rewrite Eidx in H. unfold lift at 1 in H.
  destruct (lift (list_get (bloom_filters p) idx) st)
    as [[bf st2]|] eqn:E5; [|done].
  apply lift_inv in E5 as [_ ->].
  destruct (compute_results p info _ bf lang idx kbm (- (1)) (-1) [] st)
    as [[[[r bv1] bi1] st2]|] eqn:E6; [|done].
  destruct (compute_results_trial_record info bf lang idx kbm (- (1)) (-1) []
              st st2 r bv1 bi1 Hkbm Hidx E3 Hmin Hready E6) as (Hr & _).
  unfold modify, ret in H. injection H as <- _. simpl. by constructor.
Qed.

End Records.

Lemma process_line_select_sublist (p : Processor) (results : list ScoreRecord)
    (bi : Z) (st st' : Stats) (emitted : list ScoreRecord) :
  process_line_select p results bi st = Ok (emitted, st') ->
  emitted `sublist_of` results.
Proof.
  unfold process_line_select. intros H.
  destruct (best_selection p && negb (bi =? -1)%Z).
  - unfold bind in H.
    destruct (lift (list_index results bi) st) as [[best st1]|] eqn:E1;
      [|done].
    apply lift_inv in E1 as [E1 ->].
    assert (Hin : best ∈ results).
    { unfold list_index, list_get in E1.
      destruct (_ <? 0)%Z; [done|].
      destruct (results !! _) eqn:El; [|done].
      injection E1 as ->. by eapply list_elem_of_lookup_2. }
    destruct (append_stats_value_ok best st) as (st2 & E2 & _).
    rewrite E2 in H. injection H as <- _. by apply singleton_sublist.
  - unfold bind in H.
    destruct (append_stats_values results st) as [[[] st1]|]; [|done].
    by injection H as <- _.
Qed.

Lemma process_line_trial_records (ext : Externals) (p : Processor)
    (obj : JsonObject) (st : Stats) :
  configured p -> counters_ready p st ->
  exists emitted st',
    process_line ext p (Json obj) st = Ok (emitted, st') /\
    counters_ready p st' /\
    Forall (trial_record ext p obj) emitted /\
    (lg <$> emitted) `sublist_of` languages (options p) /\
    (length emitted <= length (languages (options p)))%nat.
Proof.
  intros Hconf Hready.
  destruct (process_line_ok ext p obj st Hconf Hready)
    as (flow & st1 & emitted & st2 & E1 & E2 & Hready2 & _ & Hsub & _).
  destruct Hconf as (Hfilters & Hnames & Hmethods).
  destruct (methods (options p)) as [|m0 ms] eqn:Hm; [done|].
  pose proof (process_line_candidates_records ext p obj m0 ms Hm Hnames
                Hfilters st st1 flow Hready E1) as Hrec.
  assert (Hem : emitted `sublist_of` candidates_of flow).
  { unfold process_line, bind in E2. rewrite E1 in E2.
    destruct flow as [results|results bv bi].
    - destruct (process_line_candidates_ok ext p obj st) as
        (flow' & st1' & E1' & _ & Hflow & _); [by repeat split; try rewrite Hm|done|].
      rewrite E1 in E1'. injection E1' as <- <-. subst results.
      unfold ret in E2. by injection E2 as <- _.
    - simpl. by eapply process_line_select_sublist. }
  exists emitted, st2. split; [done|]. split; [done|].
  assert (Hlg : (lg <$> emitted) `sublist_of` languages (options p)).
  { etrans; [|exact Hsub]. by apply fmap_sublist. }
  split; [|split; [done|]].
  - apply Forall_forall. intros r Hr.
    eapply Forall_forall in Hrec; [exact Hrec|].
    by eapply elem_of_sublist.
  - apply sublist_length in Hlg. by rewrite length_fmap in Hlg.
Qed.

(** X17. On a JSON object whose ["id"] and ["ft"], when it has them,
    are strings, with a processor and statistics as [__init__] makes
    them and at least one method, [process_line] raises nothing (no
    lookup in [self.unks], no index into [results] and no division
    fails) and keeps the unknown-token counters in place.  Every record
    it emits is the record of a trial of the document (see
    [trial_record]): it names the document, a configured language with
    the oracle name of the same position and a subtoken count that
    reaches [min_subtokens].  The emitted records follow the order of
    the configured languages, so there are at most as many as
    languages. *)
Theorem process_line_emits_trial_records (ext : Externals) (p : Processor)
    (obj : JsonObject) (st : Stats) :
  configured p -> counters_ready p st ->
  exists emitted st',
    process_line ext p (Json obj) st = Ok (emitted, st') /\
    counters_ready p st' /\
    Forall (trial_record ext p obj) emitted /\
    (lg <$> emitted) `sublist_of` languages (options p) /\
    (length emitted <= length (languages (options p)))%nat.
Proof. apply process_line_trial_records. Qed.

Lemma process_line_emits_trial_records_witness :
  exists emitted st',
    process_line Fixture.ext Fixture.processor (Json Fixture.obj1)
      Fixture.stats0 = Ok (emitted, st') /\
    counters_ready Fixture.processor st' /\
    Forall (trial_record Fixture.ext Fixture.processor Fixture.obj1) emitted /\
    (lg <$> emitted) `sublist_of` languages (options Fixture.processor) /\
    (length emitted <= length (languages (options Fixture.processor)))%nat.
Proof.
  apply (process_line_emits_trial_records Fixture.ext Fixture.processor
           Fixture.obj1 Fixture.stats0).
  - by repeat split.
  - intros i Hi. simpl in Hi.
    destruct i as [|[|i]]; [| |lia].
    + exists "en.bloom"%string. split; [reflexivity|].
      exists ∅. vm_compute. reflexivity.
    + exists "fr.bloom"%string. split; [reflexivity|].
      exists ∅. vm_compute. reflexivity.
Defined.

(** ** Documents with a language label *)

(** X18. A document whose language label is not among the configured
    languages is skipped: [process_line] emits no record, raises
    nothing, and changes the statistics only by adding one to the
    counter ["missing-dict-for-<label>"]. *)
Theorem unmapped_label_skips_document (ext : Externals) (p : Processor)
    (obj : JsonObject) (st : Stats) (lang : string) :
  label_of p obj = Some lang ->
  lang <> EmptyString ->
  lang ∉ languages (options p) ->
  methods (options p) <> [] ->
  process_line ext p (Json obj) st
  = Ok ([], lang_stats_incr ("missing-dict-for-" +:+ lang) st) /\
  lang_count (lang_stats_incr ("missing-dict-for-" +:+ lang) st)
    ("missing-dict-for-" +:+ lang)
  = S (lang_count st ("missing-dict-for-" +:+ lang)).
Proof.
  intros Hlabel Hne Hnin Hm. split.
  - unfold process_line, process_line_candidates, bind, lift.
    simpl json_loads. cbv beta iota zeta.
    unfold label_of in Hlabel. rewrite Hlabel.
    assert (Ek : exists kbm, keep_best_method_of p = Ok kbm).
    { unfold keep_best_method_of.
      destruct (methods (options p)) as [|m0 ms]; [done|].
      destruct (best_selection p); simpl; eauto. }
    destruct Ek as [kbm ->].
    unfold truthy. rewrite bool_decide_eq_false_2 by done. simpl negb.
    rewrite bool_decide_eq_false_2 by done. simpl negb. cbv beta iota.
    reflexivity.
  - rewrite lang_count_incr, bool_decide_eq_true_2 by done. lia.
Qed.

Lemma unmapped_label_skips_document_witness :
  process_line Fixture.ext (Fixture.labelled_processor "de") (Json Fixture.obj1)
    Fixture.stats0
  = Ok ([], lang_stats_incr ("missing-dict-for-" +:+ "de") Fixture.stats0).
Proof.
  apply (unmapped_label_skips_document Fixture.ext
           (Fixture.labelled_processor "de") Fixture.obj1 Fixture.stats0 "de").
  - vm_compute. reflexivity.
  - discriminate.
  - apply (bool_decide_eq_false_1 _). reflexivity.
  - discriminate.
Defined.

Lemma process_line_labelled (ext : Externals) (p : Processor)
    (obj : JsonObject) (st : Stats) (lang : string) :
  configured p -> counters_ready p st ->
  label_of p obj = Some lang ->
  lang <> EmptyString ->
  lang ∈ languages (options p) ->
  exists info i emitted st',
    get_subtokens ext p (Json obj) (Some lang) = Ok info /\
    index_of lang (languages (options p)) = Ok i /\
    process_line ext p (Json obj) st = Ok (emitted, st') /\
    if (Z.of_nat (length (info_subtokens info)) <? min_subtokens (options p))%Z
    then emitted = [] /\ st' = st
    else exists r, emitted = [r] /\ lg r = lang /\
                   bloomdicts (options p) !! i = Some (bloom r) /\
                   rec_subtokens r = length (info_subtokens info).
Proof.
  intros Hconf Hready Hlabel Hne Hin.
  destruct (process_line_ok ext p obj st Hconf Hready)
    as (flow & st1 & emitted & st2 & E1 & E2 & _ & _ & _ & _ & Hall & Hbest).
  destruct Hconf as (Hfilters & Hnames & Hmethods).
  destruct (methods (options p)) as [|m0 ms] eqn:Hm; [done|].
  destruct (get_subtokens_json ext p obj (Some lang)) as (info & Einfo & _).
  destruct (index_of_ok lang _ Hin) as (idx & Eidx & Hidx).
  exists info, idx, emitted, st2.
  split; [done|]. split; [done|]. split; [done|].
  destruct (keep_best_method_of_first p m0 ms Hm) as (kbm & Ekbm & Hkbm).
  pose proof E1 as H. unfold process_line_candidates in H.
  unfold bind at 1 2 in H. simpl json_loads in H. unfold lift at 1 in H.
  rewrite Ekbm in H. unfold lift at 1 in H. cbv beta iota zeta in H.
  unfold label_of in Hlabel. rewrite Hlabel in H.
  unfold truthy in H. rewrite bool_decide_eq_false_2 in H by done.
  simpl negb in H. rewrite bool_decide_eq_true_2 in H by done.
  simpl negb in H. cbv beta iota in H. unfold bind in H.
  rewrite Einfo in H. unfold lift at 1 in H.
  destruct (_ <? _)%Z eqn:Hmin.
  - unfold ret in H. injection H as <- <-.
    unfold process_line, bind in E2. rewrite E1 in E2. unfold ret in E2.
    by injection E2 as <- <-.
  - apply lookup_lt_Some in Hidx as Hlt.
    destruct (lookup_lt_is_Some_2 (bloom_filters p) idx) as [bf Hbf]; [lia|].
    rewrite Eidx in H. unfold lift, list_get in H. rewrite Hbf in H.
    destruct (Hready idx) as (key & Hkey & Hsome); [lia|].
    destruct (compute_results_builds_record p info (info_subtokens info) bf lang idx
                kbm (- (1)) (-1) [] st m0 ms key Hm Hkey Hsome)
      as (r & bv1 & bi1 & st3 & E6 & _ & Hlg & Hbloom & Hn & _).
    cbn [negb] in H. cbv beta iota in H. rewrite E6 in H. cbv beta iota in H.
    unfold modify, ret in H. injection H as <- _.
    exists r. simpl in *. split; [|by rewrite Hbloom].
    destruct (best_selection p) eqn:Hb.
    + destruct (Hbest eq_refl) as (k & best & vbest & -> & Hk & _); [done|].
      destruct k as [|k]; simpl in Hk; [by injection Hk as ->|done].
    + by rewrite (Hall eq_refl).
Qed.

(** X19. A document labelled with a configured language is tried for
    that language only: [process_line] emits nothing, and leaves the
    statistics alone, when the subtokens for that language are fewer
    than [min_subtokens], and otherwise exactly one record, of that
    language, with the oracle name at the first position of the language
    in the configured list. *)
Theorem labelled_document_single_trial (ext : Externals) (p : Processor)
    (obj : JsonObject) (st : Stats) (lang : string) :
  configured p -> counters_ready p st ->
  label_of p obj = Some lang ->
  lang <> EmptyString ->
  lang ∈ languages (options p) ->
  exists info i emitted st',
    get_subtokens ext p (Json obj) (Some lang) = Ok info /\
    index_of lang (languages (options p)) = Ok i /\
    process_line ext p (Json obj) st = Ok (emitted, st') /\
    if (Z.of_nat (length (info_subtokens info)) <? min_subtokens (options p))%Z
    then emitted = [] /\ st' = st
    else exists r, emitted = [r] /\ lg r = lang /\
                   bloomdicts (options p) !! i = Some (bloom r) /\
                   rec_subtokens r = length (info_subtokens info).
Proof. apply process_line_labelled. Qed.

Lemma labelled_document_single_trial_witness :
  exists info i emitted st',
    get_subtokens Fixture.ext (Fixture.labelled_processor "fr")
      (Json Fixture.obj1) (Some "fr"%string) = Ok info /\
    index_of "fr" (languages (options (Fixture.labelled_processor "fr"))) = Ok i /\
    process_line Fixture.ext (Fixture.labelled_processor "fr")
      (Json Fixture.obj1) Fixture.stats0 = Ok (emitted, st') /\
    if (Z.of_nat (length (info_subtokens info))
        <? min_subtokens (options (Fixture.labelled_processor "fr")))%Z
    then emitted = [] /\ st' = Fixture.stats0
    else exists r, emitted = [r] /\ lg r = "fr"%string /\
                   bloomdicts (options (Fixture.labelled_processor "fr")) !! i
                   = Some (bloom r) /\
                   rec_subtokens r = length (info_subtokens info).
Proof.
  apply (labelled_document_single_trial Fixture.ext
           (Fixture.labelled_processor "fr") Fixture.obj1 Fixture.stats0 "fr").
  - by repeat split.
  - intros i Hi. simpl in Hi.
    destruct i as [|[|i]]; [| |lia].
    + exists "en.bloom"%string. split; [reflexivity|].
      exists ∅. vm_compute. reflexivity.
    + exists "fr.bloom"%string. split; [reflexivity|].
      exists ∅. vm_compute. reflexivity.
  - vm_compute. reflexivity.
  - discriminate.
  - apply (bool_decide_eq_true_1 _). reflexivity.
Defined.

(** ** Documents that are too short *)

Lemma process_languages_short (ext : Externals) (p : Processor)
    (obj : JsonObject) (kbm : option Method) :
  too_short ext p obj ->
  forall (filters : list BloomFilter) (i : nat) results bv bi st,
    (i + length filters <= length (languages (options p)))%nat ->
    process_languages ext p (Json obj) kbm i filters results bv bi st
    = Ok ((results, bv, bi), st).
Proof.
  intros Hshort filters.
  induction filters as [|bf rest IH]; intros i results bv bi st Hlen; [done|].
  simpl in Hlen. cbn [process_languages]. unfold bind at 1, lift at 1, list_get.
  destruct (lookup_lt_is_Some_2 (languages (options p)) i) as [lang Hlang];
    [lia|].
  rewrite Hlang. cbv beta iota. unfold bind at 1, lift at 1.
  destruct (get_subtokens_json ext p obj (Some lang)) as (info & Einfo & _).
  rewrite Einfo. cbv beta iota zeta.
  assert (Hlt : (Z.of_nat (length (info_subtokens info))
                 <? min_subtokens (options p))%Z = true).
  { apply Z.ltb_lt. eapply Hshort; [|exact Einfo].
    by eapply list_elem_of_lookup_2. }
  rewrite Hlt. apply IH. lia.
Qed.

(** X20. A document all of whose language trials have fewer subtokens
    than [min_subtokens] leaves no trace: [process_line] emits no
    record, raises nothing and returns the statistics as they were (no
    score is appended, no language is counted, no unknown subtoken is
    recorded).  The label of the document, if it has one, is taken to
    be a configured language. *)
Theorem short_document_leaves_no_trace (ext : Externals) (p : Processor)
    (obj : JsonObject) (st : Stats) :
  configured p -> counters_ready p st ->
  (forall lang, label_of p obj = Some lang -> lang <> EmptyString ->
                lang ∈ languages (options p)) ->
  too_short ext p obj ->
  process_line ext p (Json obj) st = Ok ([], st).
Proof.
  intros Hconf Hready Hlabel Hshort.
  destruct (label_of p obj) as [lang|] eqn:El;
    [destruct (decide (lang = EmptyString)) as [->|Hne]|].
  2:{ destruct (process_line_labelled ext p obj st lang Hconf Hready El Hne
                  (Hlabel lang eq_refl Hne))
        as (info & i & emitted & st' & Einfo & _ & E & H).
      rewrite E.
      pose proof (Hshort lang info (Hlabel lang eq_refl Hne) Einfo) as Hlt.
      apply Z.ltb_lt in Hlt. rewrite Hlt in H. by destruct H as [-> ->]. }
  all: destruct Hconf as (Hfilters & _ & Hm);
    assert (Ek : exists kbm, keep_best_method_of p = Ok kbm)
      by (unfold keep_best_method_of;
          destruct (methods (options p)) as [|m0 ms]; [done|];
          destruct (best_selection p); simpl; eauto);
    destruct Ek as [kbm Ek];
    unfold process_line, process_line_candidates;
    unfold bind at 1 2; simpl json_loads; unfold lift at 1;
    cbv beta iota zeta; rewrite Ek; unfold lift at 1; cbv beta iota;
    unfold label_of in El; rewrite El; cbv beta iota;
    try (unfold truthy; rewrite bool_decide_eq_true_2 by done;
         cbn [negb]; cbv beta iota);
    unfold bind;
    rewrite (process_languages_short ext p obj kbm Hshort) by lia;
    cbv beta iota; unfold ret at 1; cbv beta iota;
    unfold process_line_select;
    rewrite andb_false_r; reflexivity.
Qed.

Lemma short_document_leaves_no_trace_witness :
  process_line Fixture.ext Fixture.processor (Json Fixture.obj3)
    Fixture.stats0
  = Ok ([], Fixture.stats0).
Proof.
  apply (short_document_leaves_no_trace Fixture.ext Fixture.processor
           Fixture.obj3 Fixture.stats0).
  - by repeat split.
  - intros i Hi. simpl in Hi.
    destruct i as [|[|i]]; [| |lia].
    + exists "en.bloom"%string. split; [reflexivity|].
      exists ∅. vm_compute. reflexivity.
    + exists "fr.bloom"%string. split; [reflexivity|].
      exists ∅. vm_compute. reflexivity.
  - intros lang H. discriminate H.
  - intros lang info _ H. injection H as <-. simpl. lia.
Defined.

(** ** The loop over the input lines *)



